(** * kaoliang: AWS Signature Version 4 verification

    A shallow embedding of the signature-verification helpers of the
    gateway (package [cmd], "signature-v4") and of the server
    configuration (package [config], [server.go]), with the properties
    the design document states about them.

    Conventions.
    - A Go [string] and a Go [[]byte] are both byte sequences.  Strings are
      Rocq [string]s (one [ascii] per byte); byte slices are [list Z] with
      every element in [0, 256).  [bytes_of_string] is Go's [[]byte(s)].
    - Go maps ([http.Header], [url.Values], the process environment) are
      [gmap]s with [string] keys.
    - Fixed-width integers are [Z] with the wrap-around written out.
    - A function that may panic returns an [Outcome]. *)

From Stdlib Require Import ZArith List Ascii String Permutation Sorted Lia.
From stdpp Require Import base option list sorting gmap strings fin_maps.

Local Open Scope Z_scope.

(* ===================================================================== *)
(** ** Bytes and strings *)
(* ===================================================================== *)

Module Bytes.

Definition byte_of_ascii (c : ascii) : Z := Z.of_N (N_of_ascii c).

Definition ascii_of_byte (b : Z) : ascii := ascii_of_N (Z.to_N (b mod 256)).

(** [[]byte(s)] *)
Fixpoint bytes_of_string (s : string) : list Z :=
  match s with
  | EmptyString => []
  | String c s' => byte_of_ascii c :: bytes_of_string s'
  end.

(** [string(b)] *)
Fixpoint string_of_bytes (b : list Z) : string :=
  match b with
  | [] => EmptyString
  | x :: b' => String (ascii_of_byte x) (string_of_bytes b')
  end.

Definition is_byte (b : Z) : Prop := 0 <= b < 256.

End Bytes.
Export Bytes.

(* ===================================================================== *)
(** ** encoding/hex *)
(* ===================================================================== *)

Module Hex.

(** [const hextable = "0123456789abcdef"], indexed by a nibble. *)
Definition hextable (n : Z) : ascii :=
  if n <? 10 then ascii_of_byte (48 + n) else ascii_of_byte (87 + n).

(** [hex.EncodeToString]: per byte [v], [hextable[v>>4]] then
    [hextable[v&0x0f]]. *)
Fixpoint EncodeToString (src : list Z) : string :=
  match src with
  | [] => EmptyString
  | v :: src' =>
      String (hextable (Z.shiftr v 4))
        (String (hextable (Z.land v 15)) (EncodeToString src'))
  end.

End Hex.

(* ===================================================================== *)
(** ** SHA-256 (FIPS 180-4), as [sha256.Sum256] computes it *)
(* ===================================================================== *)

Module SHA256.

Definition u32 (x : Z) : Z := x mod 2 ^ 32.

Definition add32 (x y : Z) : Z := u32 (x + y).

(** [bits.RotateLeft32(x, -n)] on a 32-bit word *)
Definition rotr (n x : Z) : Z :=
  Z.lor (Z.shiftr x n) (u32 (Z.shiftl x (32 - n))).

(** [^x] on a [uint32] *)
Definition not32 (x : Z) : Z := Z.lxor x (2 ^ 32 - 1).

(** Value of a hexadecimal digit; blanks and other bytes have none. *)
Definition hex_digit (c : ascii) : option Z :=
  let b := byte_of_ascii c in
  if (48 <=? b) && (b <=? 57) then Some (b - 48)
  else if (97 <=? b) && (b <=? 102) then Some (b - 87)
  else None.

(** The words written in a string, in hexadecimal, separated by blanks. *)
Fixpoint hex_words (s : string) (cur : option Z) : list Z :=
  match s with
  | EmptyString => match cur with Some w => [w] | None => [] end
  | String c s' =>
      match hex_digit c with
      | Some d => hex_words s' (Some (16 * default 0 cur + d))
      | None => match cur with
                | Some w => w :: hex_words s' None
                | None => hex_words s' None
                end
      end
  end.

(** The round constants (FIPS 180-4, section 4.2.2). *)
Definition _K : list Z := Eval vm_compute in
  hex_words
    ("428a2f98 71374491 b5c0fbcf e9b5dba5 3956c25b 59f111f1 923f82a4 ab1c5ed5 " +:+
     "d807aa98 12835b01 243185be 550c7dc3 72be5d74 80deb1fe 9bdc06a7 c19bf174 " +:+
     "e49b69c1 efbe4786 0fc19dc6 240ca1cc 2de92c6f 4a7484aa 5cb0a9dc 76f988da " +:+
     "983e5152 a831c66d b00327c8 bf597fc7 c6e00bf3 d5a79147 06ca6351 14292967 " +:+
     "27b70a85 2e1b2138 4d2c6dfc 53380d13 650a7354 766a0abb 81c2c92e 92722c85 " +:+
     "a2bfe8a1 a81a664b c24b8b70 c76c51a3 d192e819 d6990624 f40e3585 106aa070 " +:+
     "19a4c116 1e376c08 2748774c 34b0bcb5 391c0cb3 4ed8aa4a 5b9cca4f 682e6ff3 " +:+
     "748f82ee 78a5636f 84c87814 8cc70208 90befffa a4506ceb bef9a3f7 c67178f2")
    None.

(** The eight chaining words [h0 .. h7]. *)
Record digest := Digest {
  h0 : Z; h1 : Z; h2 : Z; h3 : Z; h4 : Z; h5 : Z; h6 : Z; h7 : Z }.

Definition init : digest :=
  Digest 0x6a09e667 0xbb67ae85 0x3c6ef372 0xa54ff53a
         0x510e527f 0x9b05688c 0x1f83d9ab 0x5be0cd19.

(** Big-endian load of four bytes:
    [uint32(p[j])<<24 | uint32(p[j+1])<<16 | uint32(p[j+2])<<8 | uint32(p[j+3])] *)
Definition be32 (b0 b1 b2 b3 : Z) : Z :=
  Z.lor (Z.lor (Z.lor (Z.shiftl b0 24) (Z.shiftl b1 16)) (Z.shiftl b2 8)) b3.

Fixpoint load_words (n : nat) (p : list Z) : list Z :=
  match n, p with
  | S n', b0 :: b1 :: b2 :: b3 :: p' => be32 b0 b1 b2 b3 :: load_words n' p'
  | _, _ => []
  end.

(** The message schedule is kept newest-first: the head of [rw] is
    [w[i-1]], so [w[i-2]], [w[i-7]], [w[i-15]] and [w[i-16]] sit at
    offsets 1, 6, 14 and 15. *)
Definition schedule_step (rw : list Z) : list Z :=
  let v1 := nth 1 rw 0 in
  let t1 := Z.lxor (Z.lxor (rotr 17 v1) (rotr 19 v1)) (Z.shiftr v1 10) in
  let v2 := nth 14 rw 0 in
  let t2 := Z.lxor (Z.lxor (rotr 7 v2) (rotr 18 v2)) (Z.shiftr v2 3) in
  add32 (add32 (add32 t1 (nth 6 rw 0)) t2) (nth 15 rw 0) :: rw.

Fixpoint schedule_loop (n : nat) (rw : list Z) : list Z :=
  match n with
  | O => rw
  | S n' => schedule_loop n' (schedule_step rw)
  end.

Definition schedule (p : list Z) : list Z :=
  rev (schedule_loop 48 (rev (load_words 16 p))).

Definition round (s : digest) (kw : Z * Z) : digest :=
  let '(Digest a b c d e f g h) := s in
  let t1 :=
    add32 (add32 (add32 (add32 h
      (Z.lxor (Z.lxor (rotr 6 e) (rotr 11 e)) (rotr 25 e)))
      (Z.lxor (Z.land e f) (Z.land (not32 e) g)))
      (fst kw)) (snd kw) in
  let t2 :=
    add32 (Z.lxor (Z.lxor (rotr 2 a) (rotr 13 a)) (rotr 22 a))
          (Z.lxor (Z.lxor (Z.land a b) (Z.land a c)) (Z.land b c)) in
  Digest (add32 t1 t2) a b c (add32 d t1) e f g.

(** One 64-byte chunk of [blockGeneric]. *)
Definition block (dig : digest) (p : list Z) : digest :=
  let s := fold_left round (combine _K (schedule p)) dig in
  Digest (add32 (h0 dig) (h0 s)) (add32 (h1 dig) (h1 s))
         (add32 (h2 dig) (h2 s)) (add32 (h3 dig) (h3 s))
         (add32 (h4 dig) (h4 s)) (add32 (h5 dig) (h5 s))
         (add32 (h6 dig) (h6 s)) (add32 (h7 dig) (h7 s)).

Fixpoint blocks (n : nat) (dig : digest) (p : list Z) : digest :=
  match n with
  | O => dig
  | S n' => blocks n' (block dig (firstn 64 p)) (skipn 64 p)
  end.

(** Big-endian store of the low [n] bytes of [x]. *)
Fixpoint be_bytes (n : nat) (x : Z) : list Z :=
  match n with
  | O => []
  | S n' => Z.land (Z.shiftr x (8 * Z.of_nat n')) 255 :: be_bytes n' x
  end.

(** Padding: a [0x80] byte, zeros up to 56 mod 64, then the bit length
    as a big-endian [uint64]. *)
Definition pad (msg : list Z) : list Z :=
  let len := Z.of_nat (length msg) in
  msg ++ 128 :: repeat 0 (Z.to_nat ((55 - len) mod 64))
      ++ be_bytes 8 ((8 * len) mod 2 ^ 64).

Definition sum_bytes (d : digest) : list Z :=
  be_bytes 4 (h0 d) ++ be_bytes 4 (h1 d) ++ be_bytes 4 (h2 d) ++
  be_bytes 4 (h3 d) ++ be_bytes 4 (h4 d) ++ be_bytes 4 (h5 d) ++
  be_bytes 4 (h6 d) ++ be_bytes 4 (h7 d).

Definition Sum256 (data : list Z) : list Z :=
  let p := pad data in
  sum_bytes (blocks (length p / 64)%nat init p).

End SHA256.

(* ===================================================================== *)
(** ** crypto/hmac with SHA-256 (RFC 2104) *)
(* ===================================================================== *)

Module HMAC.

Definition blocksize : nat := 64.

(** [hmac.New]: a key longer than the block size is hashed first; the
    key is then zero-padded to the block size. *)
Definition block_key (key : list Z) : list Z :=
  let k := if (blocksize <? length key)%nat then SHA256.Sum256 key else key in
  k ++ repeat 0 (blocksize - length k)%nat.

Definition xor_pad (c : Z) (k : list Z) : list Z := map (Z.lxor c) k.

Definition Sum (key data : list Z) : list Z :=
  let k := block_key key in
  SHA256.Sum256 (xor_pad 0x5c k ++ SHA256.Sum256 (xor_pad 0x36 k ++ data)).

End HMAC.

(* ===================================================================== *)
(** ** Package [strings], [strconv] *)
(* ===================================================================== *)

Module Strings.

Definition drop (n : nat) (s : string) : string :=
  String.substring n (String.length s - n) s.

(** [strings.HasPrefix(s, prefix)] *)
Definition HasPrefix (s prefix : string) : bool := String.prefix prefix s.

(** [strings.Join(elems, sep)] *)
Fixpoint Join (elems : list string) (sep : string) : string :=
  match elems with
  | [] => ""
  | [x] => x
  | x :: rest => x +:+ sep +:+ Join rest sep
  end.

(** [strings.Replace(s, old, new, -1)] for a non-empty [old]: every
    non-overlapping occurrence, scanning left to right.  [fuel] bounds
    the scan by the length of [s]. *)
Fixpoint replace_all (fuel : nat) (s old new : string) : string :=
  match fuel with
  | O => s
  | S fuel' =>
      match s with
      | EmptyString => EmptyString
      | String c s' =>
          if String.prefix old s
          then new +:+ replace_all fuel' (drop (String.length old) s) old new
          else String c (replace_all fuel' s' old new)
      end
  end.

Definition ReplaceAll (s old new : string) : string :=
  replace_all (String.length s) s old new.

(** Decimal digits of a non-negative number, most significant first;
    [fuel] bounds the number of digits. *)
Fixpoint utod (fuel : nat) (u : Z) (acc : string) : string :=
  match fuel with
  | O => acc
  | S fuel' =>
      let acc' := String (ascii_of_byte (48 + u mod 10)) acc in
      if u / 10 =? 0 then acc' else utod fuel' (u / 10) acc'
  end.

Definition digits (u : Z) : string := utod (S (Z.to_nat (Z.log2 u))) u "".

(** [strconv.Itoa] *)
Definition Itoa (x : Z) : string :=
  if x <? 0 then String "-" (digits (- x)) else digits x.

Fixpoint zeros (n : nat) : string :=
  match n with O => "" | S n' => String "0" (zeros n') end.

(** [appendInt(b, x, width)] of package [time]: decimal, zero-padded on
    the left to [width] digits, with a leading minus sign when negative. *)
Definition appendInt (x : Z) (width : nat) : string :=
  let d := digits (Z.abs x) in
  let padded := zeros (width - String.length d) +:+ d in
  if x <? 0 then String "-" padded else padded.

End Strings.

(* ===================================================================== *)
(** ** Package [time] *)
(* ===================================================================== *)

(** A [time.Time] is an instant, held as nanoseconds since the Unix epoch;
    every time of this package is in UTC ([time.Parse] of a layout without
    a zone, and [UTCNow()]).  A [time.Duration] is an [int64] count of
    nanoseconds. *)
Module Time.

Definition Nanosecond : Z := 1.
Definition Second : Z := 1000000000.

Definition minDuration : Z := - 2 ^ 63.
Definition maxDuration : Z := 2 ^ 63 - 1.

(** [t.Add(d)] *)
Definition Add (t d : Z) : Z := t + d.

(** [t.Sub(u)]: the difference, saturated to the range of a [Duration]. *)
Definition Sub (t u : Z) : Z :=
  let d := t - u in
  if (minDuration <=? d) && (d <=? maxDuration) then d
  else if t <? u then minDuration else maxDuration.

(** [t.After(u)] *)
Definition After (t u : Z) : bool := u <? t.

Definition unix (t : Z) : Z := t / Second.

(** Days since 1970-01-01 and second of the day. *)
Definition unix_day (t : Z) : Z := unix t / 86400.
Definition day_second (t : Z) : Z := unix t mod 86400.

(** Proleptic Gregorian calendar date of a day number: the day is
    located within its 400-year era, counted from 1 March. *)
Definition civil (day : Z) : Z * Z * Z :=
  let z := day + 719468 in
  let era := z / 146097 in
  let doe := z - era * 146097 in
  let yoe := (doe - doe / 1460 + doe / 36524 - doe / 146096) / 365 in
  let doy := doe - (365 * yoe + yoe / 4 - yoe / 100) in
  let mp := (5 * doy + 2) / 153 in
  let d := doy - (153 * mp + 2) / 5 + 1 in
  let m := if mp <? 10 then mp + 3 else mp - 9 in
  let y := yoe + era * 400 + (if m <=? 2 then 1 else 0) in
  (y, m, d).

Definition Year (t : Z) : Z := fst (fst (civil (unix_day t))).
Definition Month (t : Z) : Z := snd (fst (civil (unix_day t))).
Definition Day (t : Z) : Z := snd (civil (unix_day t)).
Definition Hour (t : Z) : Z := day_second t / 3600.
Definition Minute (t : Z) : Z := (day_second t mod 3600) / 60.
Definition Sec (t : Z) : Z := day_second t mod 60.

(** [t.Format(layout)], for layouts made of the reference-time elements
    [2006] [01] [02] [15] [04] [05] (year, month, day, hour, minute and
    second, zero-padded) and of bytes that start no element, such as [T]
    and a final [Z]: what the two layouts of this package are made of. *)
Fixpoint format (fuel : nat) (layout : string) (t : Z) : string :=
  match fuel with
  | O => ""
  | S fuel' =>
      let next (n : nat) (field : Z) (width : nat) :=
        Strings.appendInt field width +:+ format fuel' (Strings.drop n layout) t in
      if String.prefix "2006" layout then next 4%nat (Year t) 4%nat
      else if String.prefix "01" layout then next 2%nat (Month t) 2%nat
      else if String.prefix "02" layout then next 2%nat (Day t) 2%nat
      else if String.prefix "15" layout then next 2%nat (Hour t) 2%nat
      else if String.prefix "04" layout then next 2%nat (Minute t) 2%nat
      else if String.prefix "05" layout then next 2%nat (Sec t) 2%nat
      else match layout with
           | EmptyString => ""
           | String c rest => String c (format fuel' rest t)
           end
  end.

Definition Format (t : Z) (layout : string) : string :=
  format (String.length layout) layout t.

End Time.

(* ===================================================================== *)
(** ** crypto/subtle *)
(* ===================================================================== *)

Module Subtle.

(** [ConstantTimeByteEq(x, y uint8) int]:
    [int((uint32(x^y) - 1) >> 31)] *)
Definition ConstantTimeByteEq (x y : Z) : Z :=
  Z.shiftr ((Z.lxor x y - 1) mod 2 ^ 32) 31.

(** [ConstantTimeCompare(x, y []byte) int]: 0 at once when the lengths
    differ; otherwise every byte pair is folded into [v] with
    [v |= x[i] ^ y[i]] ([v] is a [byte]) and [v] is compared with 0. *)
Definition ConstantTimeCompare (x y : list Z) : Z :=
  if negb (length x =? length y)%nat then 0
  else
    let v := fold_left
               (fun v xy => Z.lor v (Z.lxor (fst xy) (snd xy)) mod 256)
               (combine x y) 0 in
    ConstantTimeByteEq v 0.

End Subtle.

(* ===================================================================== *)
(** ** Error codes, panics, environment *)
(* ===================================================================== *)

(** [APIErrorCode]: the codes this package names; [ErrOther] stands for the
    remaining codes of the enumeration, which the parsers may return. *)
Inductive APIErrorCode : Set :=
  | ErrNone
  | ErrMissingFields
  | ErrInvalidAccessKeyID
  | ErrSignatureDoesNotMatch
  | ErrRequestNotReadyYet
  | ErrExpiredPresignRequest
  | ErrContentSHA256Mismatch
  | ErrMissingDateHeader
  | ErrMalformedDate
  | ErrOther (n : nat).

#[global] Instance APIErrorCode_eq_dec : EqDecision APIErrorCode.
Proof. solve_decision. Defined.

(** The result of a call that may end in a run-time panic. *)
Inductive Outcome (A : Type) : Type :=
  | Panic (reason : string)
  | Ret (a : A).
Arguments Panic {A} reason.
Arguments Ret {A} a.

#[global] Instance Outcome_bind : MBind Outcome := fun A B k o =>
  match o with
  | Panic r => Panic r
  | Ret a => k a
  end.

#[global] Instance Outcome_ret : MRet Outcome := fun A a => Ret a.

(** Modelled from the spec: [utils.GetEnv] is not under src/.  The design
    document says of the value read through it that it "defaults to a fixed
    well-known value but is externally configurable": the variable's value
    when it is set in the process environment, the fallback otherwise. *)
Definition GetEnv (environ : gmap string string) (key fallback : string) : string :=
  default fallback (environ !! key).

(* ===================================================================== *)
(** ** signature-v4: string to sign, signing key, comparison *)
(* ===================================================================== *)

Definition LF : string := String "010"%char "".

Definition signV4Algorithm : string := "AWS4-HMAC-SHA256".
Definition iso8601Format : string := "20060102T150405Z".
Definition yyyymmdd : string := "20060102".

(** Modelled from the spec: [sumHMAC] is not under src/.  The design
    document's "HMAC Primitive" "wraps a keyed hash function", and the
    algorithm tag of this package is AWS4-HMAC-SHA256: HMAC (RFC 2104)
    over SHA-256. *)
Definition sumHMAC (key data : list Z) : list Z := HMAC.Sum key data.

Section Signing.

(** The process environment, read through [utils.GetEnv]. *)
Variable environ : gmap string string.

Definition getScope (t : Z) (region : string) : string :=
  let scope := Strings.Join [
    Time.Format t yyyymmdd;
    region;
    GetEnv environ "SERVICE" "s3";
    "aws4_request"
  ] "/" in
  scope.

Definition getStringToSign (canonicalRequest : string) (t : Z) (scope : string) : string :=
  let stringToSign := (signV4Algorithm +:+ LF) +:+ Time.Format t iso8601Format +:+ LF in
  let stringToSign := (stringToSign +:+ scope) +:+ LF in
  let canonicalRequestBytes := SHA256.Sum256 (bytes_of_string canonicalRequest) in
  let stringToSign := stringToSign +:+ Hex.EncodeToString canonicalRequestBytes in
  stringToSign.

Definition getSigningKey (secretKey : string) (t : Z) (region : string) : list Z :=
  let date := sumHMAC (bytes_of_string ("AWS4" +:+ secretKey))
                      (bytes_of_string (Time.Format t yyyymmdd)) in
  let regionBytes := sumHMAC date (bytes_of_string region) in
  let service := sumHMAC regionBytes (bytes_of_string (GetEnv environ "SERVICE" "s3")) in
  let signingKey := sumHMAC service (bytes_of_string "aws4_request") in
  signingKey.

Definition getSignature (signingKey : list Z) (stringToSign : string) : string :=
  Hex.EncodeToString (sumHMAC signingKey (bytes_of_string stringToSign)).

End Signing.

Definition compareSignatureV4 (sig1 sig2 : string) : bool :=
  Subtle.ConstantTimeCompare (bytes_of_string sig1) (bytes_of_string sig2) =? 1.

(** *** The contracts of the design document, in its own words *)

(** "each stage keyed by the previous stage's output and keyed-hashing the
    named literal": a left fold of the keyed hash over the literals. *)
Definition hmac_chain (seed : list Z) (literals : list string) : list Z :=
  fold_left (fun key literal => sumHMAC key (bytes_of_string literal)) literals seed.

(** ISO 8601 basic format, [YYYYMMDD'T'HHMMSS'Z'], and the date stamp
    [YYYYMMDD] of a scope. *)
Definition date_stamp (t : Z) : string :=
  Strings.appendInt (Time.Year t) 4 +:+ Strings.appendInt (Time.Month t) 2
    +:+ Strings.appendInt (Time.Day t) 2.

Definition iso8601_basic (t : Z) : string :=
  date_stamp t +:+ "T" +:+ Strings.appendInt (Time.Hour t) 2
    +:+ Strings.appendInt (Time.Minute t) 2
    +:+ Strings.appendInt (Time.Sec t) 2 +:+ "Z".

Definition is_lower_hex (c : ascii) : bool :=
  let b := byte_of_ascii c in
  ((48 <=? b) && (b <=? 57)) || ((97 <=? b) && (b <=? 102)).

Fixpoint string_forallb (p : ascii -> bool) (s : string) : bool :=
  match s with
  | EmptyString => true
  | String c s' => p c && string_forallb p s'
  end.

(* ===================================================================== *)
(** ** [http.Header] and [url.Values] *)
(* ===================================================================== *)

(** Both are [map[string][]string]. *)
Abbreviation Values := (gmap string (list string)).

(** [v.Get(key)] of [url.Values]: the first value of the key, or "". *)
Definition Values_Get (v : Values) (key : string) : string :=
  match v !! key with
  | Some (x :: _) => x
  | _ => ""
  end.

(** [v.Set(key, value)] *)
Definition Values_Set (v : Values) (key value : string) : Values :=
  <[key := [value]]> v.

(** [m[key]] read as a value: the zero value (nil) for a missing key. *)
Definition Values_index (v : Values) (key : string) : list string :=
  default [] (v !! key).

(* ===================================================================== *)
(** ** signature-v4: canonical request *)
(* ===================================================================== *)

Section Canonical.

(** [strings.ToLower] *)
Variable ToLower : string -> string.
(** [signV4TrimAll], not under src/: trims one header value. *)
Variable signV4TrimAll : string -> string.
(** [s3utils.EncodePath] *)
Variable EncodePath : string -> string.
(** The order in which a [range] loop visits the entries of a map.  Go
    leaves it unspecified; it is some arrangement of the entries. *)
Variable range_order : Values -> list (string * list string).

(** The inner loop of [getCanonicalHeaders]: the values of one header,
    written to the buffer with a comma before all but the first. *)
Fixpoint write_values (buf : string) (idx : nat) (vv : list string) : string :=
  match vv with
  | [] => buf
  | v :: rest =>
      let buf := if (0 <? idx)%nat then buf +:+ "," else buf in
      write_values (buf +:+ signV4TrimAll v) (S idx) rest
  end.

(** [sort.Strings] is [merge_sort String.le]: strings are ordered byte
    by byte, and a list has one sorted arrangement. *)
Definition getCanonicalHeaders (signedHeaders : Values) : string :=
  let '(headers, vals) :=
    fold_left (fun '(headers, vals) '(k, vv) =>
                 (headers ++ [ToLower k], <[ToLower k := vv]> vals))
              (range_order signedHeaders) ([], (∅ : Values)) in
  let headers := merge_sort String.le headers in
  fold_left (fun buf k =>
               let buf := buf +:+ k in
               let buf := buf +:+ ":" in
               let buf := write_values buf 0 (Values_index vals k) in
               buf +:+ LF)
            headers "".

Definition getSignedHeaders (signedHeaders : Values) : string :=
  let headers :=
    fold_left (fun headers '(k, _) => headers ++ [ToLower k])
              (range_order signedHeaders) [] in
  let headers := merge_sort String.le headers in
  Strings.Join headers ";".

Definition getCanonicalRequest (extractedSignedHeaders : Values)
    (payload queryStr urlPath method : string) : string :=
  let rawQuery := Strings.ReplaceAll queryStr "+" "%20" in
  let encodedPath := EncodePath urlPath in
  let canonicalRequest := Strings.Join [
    method;
    encodedPath;
    rawQuery;
    getCanonicalHeaders extractedSignedHeaders;
    getSignedHeaders extractedSignedHeaders;
    payload
  ] LF in
  canonicalRequest.

(** *** The contract of the canonical request, in the design document's
    words *)

(** The signed headers with lower-cased names, in alphabetical order of
    the names. *)
Definition name_le (a b : string * list string) : Prop := String.le a.1 b.1.

Definition sorted_headers (signedHeaders : Values)
    : list (string * list string) :=
  merge_sort name_le
    ((fun kv => (ToLower kv.1, kv.2)) <$> map_to_list signedHeaders).

(** No two names of the map agree after lower-casing. *)
Definition case_distinct (signedHeaders : Values) : Prop :=
  NoDup (ToLower <$> (map_to_list signedHeaders).*1).

Fixpoint concat_strings (l : list string) : string :=
  match l with
  | [] => ""
  | x :: rest => x +:+ concat_strings rest
  end.

(** One [name:value] line per signed header, the values trimmed and
    joined by commas. *)
Definition header_line (kv : string * list string) : string :=
  kv.1 +:+ ":" +:+ Strings.Join (signV4TrimAll <$> kv.2) "," +:+ LF.

Definition canonical_header_block (signedHeaders : Values) : string :=
  concat_strings (header_line <$> sorted_headers signedHeaders).

Definition signed_header_names (signedHeaders : Values) : string :=
  Strings.Join
    (merge_sort String.le (ToLower <$> (map_to_list signedHeaders).*1)) ";".

(** Every '+' replaced by "%20". *)
Fixpoint plus_to_percent20 (s : string) : string :=
  match s with
  | EmptyString => ""
  | String c s' =>
      if Ascii.eqb c "+" then "%20" +:+ plus_to_percent20 s'
      else String c (plus_to_percent20 s')
  end.

Definition canonical_request_contract (signedHeaders : Values)
    (payload queryStr urlPath method : string) : string :=
  method +:+ LF +:+ EncodePath urlPath +:+ LF
    +:+ plus_to_percent20 queryStr +:+ LF
    +:+ canonical_header_block signedHeaders +:+ LF
    +:+ signed_header_names signedHeaders +:+ LF
    +:+ payload.

End Canonical.

(* ===================================================================== *)
(** ** Requests, credentials and the credential store *)
(* ===================================================================== *)

(** [auth.Credentials] *)
Record Credentials := {
  AccessKey : string;
  SecretKey : string }.

(** The parsed credential tag.  The types are declared outside src/; the
    fields are the ones this package reads: [accessKey] and
    [scope.date], [scope.region], [scope.service], [scope.request]. *)
Record credentialScope := {
  scope_date : Z;
  scope_region : string;
  scope_service : string;
  scope_request : string }.

Record credentialHeader := {
  accessKey : string;
  scope : credentialScope }.

(** [signValues] and [preSignValues] (which embeds [signValues]). *)
Record signValues := {
  Credential : credentialHeader;
  SignedHeaders : list string;
  Signature : string }.

Record preSignValues := {
  presign : signValues;
  Date : Z;
  Expires : Z }.

(** The parts of [*http.Request] that verification reads;
    [URL_Query] is [r.URL.Query()]. *)
Record Request := {
  Method : string;
  Host : string;
  URL_Path : string;
  URL_Query : Values;
  Header : Values }.

(** [http.Header.Get] looks the key up in canonical form.  Every key this
    package passes is a canonical literal ("Authorization", "Date",
    "Policy", "X-Amz-Credential", "X-Amz-Signature", and
    [http.CanonicalHeaderKey("x-amz-date")], which is "X-Amz-Date"), so
    the lookup is [Values_Get]. *)
Definition Header_Get (h : Values) (canonicalKey : string) : string :=
  Values_Get h canonicalKey.

(** What [getCredentials] reads from outside the process.
    - [users_keys]: the objects of namespace "users.keys" of the metadata
      pool, by object name (the access key).  [ioctx.Stat] yields the
      object's size and [ioctx.Read] its bytes.
    - [user_secret_keys]: by user id, the [secret_key]s of the [keys] array
      that [json.Unmarshal] finds in the output of
      [radosgw-admin user info --uid=<id>]; no entry when the command
      prints nothing that decodes. *)
Record CredentialStore := {
  users_keys : gmap string string;
  user_secret_keys : gmap string (list string) }.

(** [maxAlloc] of the Go runtime on 64-bit Linux: [make] panics above it. *)
Definition maxAlloc : Z := 2 ^ 48.

Section Credentials.

Variable store : CredentialStore.

(** The connection to the cluster and the I/O context are taken to
    open.  Every error of the store is dropped ([_]); the function
    returns [ErrNone] whenever it returns.
    - [stat, _ := ioctx.Stat(accessKey)]: on error [stat] is the zero
      [ObjectStat], so [stat.Size] is 0.
    - [make([]byte, stat.Size-4)]: [stat.Size] is a [uint64]; the
      subtraction wraps, and [make] panics when the length is out of
      range.
    - [ioctx.Read(accessKey, data, 4)] fills [data] from offset 4.
    - [userInfo.Keys[0]] panics on an empty [Keys]. *)
Definition getCredentials (accessKey : string)
    : Outcome (string * Credentials * APIErrorCode) :=
  let object := users_keys store !! accessKey in
  let stat_Size :=
    match object with
    | Some bytes => Z.of_nat (String.length bytes)
    | None => 0
    end in
  let len := (stat_Size - 4) mod 2 ^ 64 in
  if maxAlloc <? len then Panic "makeslice: len out of range"
  else
    let data := Strings.drop 4 (default "" object) in
    let userID := data in
    let userInfo_Keys := default [] (user_secret_keys store !! userID) in
    match userInfo_Keys with
    | [] => Panic "index out of range [0] with length 0"
    | key0 :: _ =>
        Ret (userID,
             {| AccessKey := accessKey; SecretKey := key0 |},
             ErrNone)
    end.

End Credentials.

(* ===================================================================== *)
(** ** signature-v4: the three verification flows *)
(* ===================================================================== *)

(** The server configuration read through [globalServerConfig]. *)
Record serverConfig := {
  GetCredential : Credentials;
  GetRegion : string }.

Section Flows.

Variable environ : gmap string string.
Variable ToLower : string -> string.
Variable signV4TrimAll : string -> string.
Variable EncodePath : string -> string.
Variable range_order : Values -> list (string * list string).
(** [url.Values.Encode] *)
Variable Values_Encode : Values -> string.
(** [time.Parse(layout, value)]; [None] for an error *)
Variable time_Parse : string -> string -> option Z.

(** Functions of this package that are not under src/. *)
Variable parseCredentialHeader : string -> string -> credentialHeader * APIErrorCode.
Variable parsePreSignV4 : Values -> string -> preSignValues * APIErrorCode.
Variable parseSignV4 : string -> string -> signValues * APIErrorCode.
Variable extractSignedHeaders : list string -> Request -> Values * APIErrorCode.
(** the method [credentialHeader.getScope()] *)
Variable credentialHeader_getScope : credentialHeader -> string.

Variable globalServerConfig : serverConfig.
Variable globalMaxSkewTime : Z.
Variable store : CredentialStore.

Definition doesPolicySignatureV4Match (formValues : Values) : APIErrorCode :=
  let cred := GetCredential globalServerConfig in
  let region := GetRegion globalServerConfig in
  let '(credHeader, err) :=
    parseCredentialHeader
      ("Credential=" +:+ Header_Get formValues "X-Amz-Credential") region in
  if decide (err <> ErrNone) then ErrMissingFields
  else if decide (accessKey credHeader <> AccessKey cred) then ErrInvalidAccessKeyID
  else
    let signingKey :=
      getSigningKey environ (SecretKey cred)
        (scope_date (scope credHeader)) (scope_region (scope credHeader)) in
    let newSignature := getSignature signingKey (Header_Get formValues "Policy") in
    if negb (compareSignatureV4 newSignature (Header_Get formValues "X-Amz-Signature"))
    then ErrSignatureDoesNotMatch
    else ErrNone.

(** [doesPolicySignatureV2Match], not under src/. *)
Variable doesPolicySignatureV2Match : Values -> APIErrorCode.

(** [_, ok := formValues["Signature"]] selects the older flow. *)
Definition doesPolicySignatureMatch (formValues : Values) : APIErrorCode :=
  if decide (is_Some (formValues !! "Signature"))
  then doesPolicySignatureV2Match formValues
  else doesPolicySignatureV4Match formValues.

(** Lines 229-264 of [doesPresignedSignatureMatch]: the query string the
    signer would have produced. *)
Definition presignedQuery (hashedPayload : string) (req : Request)
    (pSignValues : preSignValues) (cred : Credentials)
    (extractedSignedHeaders : Values) : Values :=
  let query : Values := ∅ in
  let query :=
    if decide (Values_Get (URL_Query req) "X-Amz-Content-Sha256" <> "")
    then Values_Set query "X-Amz-Content-Sha256" hashedPayload
    else query in
  let query := Values_Set query "X-Amz-Algorithm" signV4Algorithm in
  let t := Date pSignValues in
  let expireSeconds := Z.quot (Expires pSignValues) Time.Second in
  let query := Values_Set query "X-Amz-Date" (Time.Format t iso8601Format) in
  let query := Values_Set query "X-Amz-Expires" (Strings.Itoa expireSeconds) in
  let query := Values_Set query "X-Amz-SignedHeaders"
                 (getSignedHeaders ToLower range_order extractedSignedHeaders) in
  let query := Values_Set query "X-Amz-Credential"
                 (AccessKey cred +:+ "/" +:+
                  getScope environ t
                    (scope_region (scope (Credential (presign pSignValues))))) in
  fold_left (fun (query : Values) '(k, v) =>
               if Strings.HasPrefix (ToLower k) "x-amz" then query
               else <[k := v]> query)
            (range_order (URL_Query req)) query.

(** [now_skew] and [now_expiry] are the readings of the two [UTCNow()]
    calls, in program order. *)
Definition doesPresignedSignatureMatch (now_skew now_expiry : Z)
    (hashedPayload : string) (r : Request) (region : string)
    : Outcome (string * APIErrorCode) :=
  let req := r in
  let '(pSignValues, err) := parsePreSignV4 (URL_Query req) region in
  if decide (err <> ErrNone) then Ret ("", err)
  else
    '(userID, cred, err) ←
      getCredentials store (accessKey (Credential (presign pSignValues)));
    if decide (err <> ErrNone) then Ret (userID, ErrInvalidAccessKeyID)
    else
      let '(extractedSignedHeaders, errCode) :=
        extractSignedHeaders (SignedHeaders (presign pSignValues)) r in
      if decide (errCode <> ErrNone) then Ret (userID, errCode)
      else if Time.After (Date pSignValues) (Time.Add now_skew globalMaxSkewTime)
      then Ret (userID, ErrRequestNotReadyYet)
      else if Time.Sub now_expiry (Date pSignValues) >? Expires pSignValues
      then Ret (userID, ErrExpiredPresignRequest)
      else
        let t := Date pSignValues in
        let query :=
          presignedQuery hashedPayload req pSignValues cred extractedSignedHeaders in
        let encodedQuery := Values_Encode query in
        let received := URL_Query req in
        if decide (Values_Get received "X-Amz-Date" <> Values_Get query "X-Amz-Date")
        then Ret (userID, ErrSignatureDoesNotMatch)
        else if decide (Values_Get received "X-Amz-Expires"
                        <> Values_Get query "X-Amz-Expires")
        then Ret (userID, ErrSignatureDoesNotMatch)
        else if decide (Values_Get received "X-Amz-SignedHeaders"
                        <> Values_Get query "X-Amz-SignedHeaders")
        then Ret (userID, ErrSignatureDoesNotMatch)
        else if decide (Values_Get received "X-Amz-Credential"
                        <> Values_Get query "X-Amz-Credential")
        then Ret (userID, ErrSignatureDoesNotMatch)
        else if bool_decide (Values_Get received "X-Amz-Content-Sha256" <> "")
                && bool_decide (Values_Get received "X-Amz-Content-Sha256"
                                <> Values_Get query "X-Amz-Content-Sha256")
        then Ret (userID, ErrContentSHA256Mismatch)
        else
          let presignedCanonicalReq :=
            getCanonicalRequest ToLower signV4TrimAll EncodePath range_order
              extractedSignedHeaders hashedPayload encodedQuery
              (URL_Path req) (Method req) in
          let presignedStringToSign :=
            getStringToSign presignedCanonicalReq t
              (credentialHeader_getScope (Credential (presign pSignValues))) in
          let presignedSigningKey :=
            getSigningKey environ (SecretKey cred)
              (scope_date (scope (Credential (presign pSignValues))))
              (scope_region (scope (Credential (presign pSignValues)))) in
          let newSignature := getSignature presignedSigningKey presignedStringToSign in
          if negb (compareSignatureV4 (Values_Get received "X-Amz-Signature")
                     newSignature)
          then Ret (userID, ErrSignatureDoesNotMatch)
          else Ret (userID, ErrNone).

(** Lines 300-309 of [doesPresignedSignatureMatch], as one expression:
    the signature the server computes for a request that passed every
    earlier check. *)
Definition presignedSignature (hashedPayload : string) (req : Request)
    (pSignValues : preSignValues) (cred : Credentials)
    (extractedSignedHeaders : Values) : string :=
  getSignature
    (getSigningKey environ (SecretKey cred)
       (scope_date (scope (Credential (presign pSignValues))))
       (scope_region (scope (Credential (presign pSignValues)))))
    (getStringToSign
       (getCanonicalRequest ToLower signV4TrimAll EncodePath range_order
          extractedSignedHeaders hashedPayload
          (Values_Encode
             (presignedQuery hashedPayload req pSignValues cred
                extractedSignedHeaders))
          (URL_Path req) (Method req))
       (Date pSignValues)
       (credentialHeader_getScope (Credential (presign pSignValues)))).

Definition doesSignatureMatch (hashedPayload : string) (r : Request)
    (region : string) : Outcome (string * APIErrorCode) :=
  let req := r in
  let v4Auth := Header_Get (Header req) "Authorization" in
  let '(signV4Values, err) := parseSignV4 v4Auth region in
  if decide (err <> ErrNone) then Ret ("", err)
  else
    let '(extractedSignedHeaders, errCode) :=
      extractSignedHeaders (SignedHeaders signV4Values) r in
    if decide (errCode <> ErrNone) then Ret ("", errCode)
    else
      '(userID, cred, err) ←
        getCredentials store (accessKey (Credential signV4Values));
      if decide (err <> ErrNone) then Ret (userID, ErrInvalidAccessKeyID)
      else
        let date := Header_Get (Header req) "X-Amz-Date" in
        let date := if decide (date = "") then Header_Get (Header r) "Date" else date in
        if decide (date = "") then Ret (userID, ErrMissingDateHeader)
        else
          match time_Parse iso8601Format date with
          | None => Ret (userID, ErrMalformedDate)
          | Some t =>
              let queryStr := Values_Encode (URL_Query req) in
              let canonicalRequest :=
                getCanonicalRequest ToLower signV4TrimAll EncodePath range_order
                  extractedSignedHeaders hashedPayload queryStr
                  (URL_Path req) (Method req) in
              let stringToSign :=
                getStringToSign canonicalRequest t
                  (credentialHeader_getScope (Credential signV4Values)) in
              let signingKey :=
                getSigningKey environ (SecretKey cred)
                  (scope_date (scope (Credential signV4Values)))
                  (scope_region (scope (Credential signV4Values))) in
              let newSignature := getSignature signingKey stringToSign in
              if negb (compareSignatureV4 newSignature (Signature signV4Values))
              then Ret (userID, ErrSignatureDoesNotMatch)
              else Ret (userID, ErrNone)
          end.

End Flows.

(* ===================================================================== *)
(** ** Package [config]: the authentication backend *)
(* ===================================================================== *)

Module Config.

(** The interface [AuthenticationBackend], with its one method
    [GetUser], from a request to a user id and an error code. *)
Class AuthenticationBackend (B : Type) := {
  GetUser : B -> Request -> Outcome (string * APIErrorCode) }.

Inductive DummyBackend : Set := mkDummyBackend.
Inductive CephBackend : Set := mkCephBackend.

#[global] Instance DummyBackend_GetUser : AuthenticationBackend DummyBackend := {
  GetUser b r := Ret ("tester", ErrNone) }.

(** An interface value: [nil], or one of the two implementations. *)
Inductive Backend : Set :=
  | nil_backend
  | Dummy (b : DummyBackend)
  | Ceph (b : CephBackend).

Record ServerConfig := {
  Region : string;
  Host : string;
  AuthBackend : Backend }.

(** [backends[backend]]: the zero value, a nil interface, for a name
    that is not a key of the map literal. *)
Definition SetAuthBackend (backend : string) : Backend :=
  let backends : gmap string Backend :=
    {[ "DummyBackend" := Dummy mkDummyBackend;
       "CephBackend" := Ceph mkCephBackend ]} in
  default nil_backend (backends !! backend).

(** The package variable [serverConfig] is passed explicitly: [None] is
    the nil pointer it holds before [SetServerConfig] runs. *)
Definition SetServerConfig (environ : gmap string string)
    (serverConfig : option ServerConfig) : option ServerConfig :=
  Some {| Region := GetEnv environ "RGW_REGION" "us-east-1";
          Host := GetEnv environ "RGW_DNS_NAME" "cloud.inwinstack.com";
          AuthBackend := SetAuthBackend (GetEnv environ "AUTH_BACKEND" "DummyBackend") |}.

Definition GetServerConfig (serverConfig : option ServerConfig)
    : option ServerConfig := serverConfig.

Section Dispatch.

(** [cmd.ReqSignatureV4Verify], not under src/: the Signature V4
    check of a request. *)
Variable ReqSignatureV4Verify : Request -> string -> Outcome (string * APIErrorCode).

#[local] Instance CephBackend_GetUser : AuthenticationBackend CephBackend := {
  GetUser b r :=
    '(userId, err) ← ReqSignatureV4Verify r "us-east-1";
    Ret (userId, err) }.

(** A method call through the interface value. *)
Definition Backend_GetUser (backend : Backend) (r : Request)
    : Outcome (string * APIErrorCode) :=
  match backend with
  | nil_backend => Panic "invalid memory address or nil pointer dereference"
  | Dummy b => GetUser b r
  | Ceph b => GetUser b r
  end.

(** [GetServerConfig().AuthBackend.GetUser(r)] *)
Definition authenticate (serverConfig : option ServerConfig) (r : Request)
    : Outcome (string * APIErrorCode) :=
  match GetServerConfig serverConfig with
  | None => Panic "invalid memory address or nil pointer dereference"
  | Some config => Backend_GetUser (AuthBackend config) r
  end.

End Dispatch.

End Config.

(* ===================================================================== *)
(** ** Reference collaborators *)
(* ===================================================================== *)

(** The verification functions above are parametric in the library
    functions and in the functions of this package that are not under
    src/.  This module fixes one choice of each, for the worked examples:
    the library functions restricted to ASCII input, and the parsers as the
    design document describes them. *)
Module Reference.

Definition is_upper (c : ascii) : bool :=
  let b := byte_of_ascii c in (65 <=? b) && (b <=? 90).
Definition is_lower (c : ascii) : bool :=
  let b := byte_of_ascii c in (97 <=? b) && (b <=? 122).
Definition is_digit (c : ascii) : bool :=
  let b := byte_of_ascii c in (48 <=? b) && (b <=? 57).

Definition lower_ascii (c : ascii) : ascii :=
  if is_upper c then ascii_of_byte (byte_of_ascii c + 32) else c.
Definition upper_ascii (c : ascii) : ascii :=
  if is_lower c then ascii_of_byte (byte_of_ascii c - 32) else c.

Fixpoint map_string (f : ascii -> ascii) (s : string) : string :=
  match s with
  | EmptyString => ""
  | String c s' => String (f c) (map_string f s')
  end.

(** [strings.ToLower] on ASCII strings: 'A'..'Z' become 'a'..'z'. *)
Definition ToLower (s : string) : string := map_string lower_ascii s.

(** Modelled from the spec: [signV4TrimAll] is not under src/.  "per-value
    trimming of leading/trailing/internal-run whitespace": the fields
    of the value, single-spaced. *)
Definition signV4TrimAll (input : string) : string :=
  Strings.Join (String.words input) " ".

Definition percent (c : ascii) : string :=
  let b := byte_of_ascii c in
  String "%" (map_string upper_ascii
    (String (Hex.hextable (Z.shiftr b 4)) (String (Hex.hextable (Z.land b 15)) ""))).

Definition unreserved (c : ascii) : bool :=
  is_upper c || is_lower c || is_digit c
  || Ascii.eqb c "-" || Ascii.eqb c "_" || Ascii.eqb c "." || Ascii.eqb c "~".

(** [s3utils.EncodePath] on ASCII paths: letters, digits and [-_.~/]
    are kept, every other byte is percent-encoded in upper-case hex. *)
Fixpoint EncodePath (pathName : string) : string :=
  match pathName with
  | EmptyString => ""
  | String c rest =>
      (if unreserved c || Ascii.eqb c "/" then String c "" else percent c)
        +:+ EncodePath rest
  end.

(** [url.QueryEscape] on ASCII strings. *)
Fixpoint QueryEscape (s : string) : string :=
  match s with
  | EmptyString => ""
  | String c rest =>
      (if unreserved c then String c ""
       else if Ascii.eqb c " " then "+" else percent c)
        +:+ QueryEscape rest
  end.

(** [url.Values.Encode]: "key=value" pairs joined by '&', sorted by key. *)
Definition Values_Encode (v : Values) : string :=
  Strings.Join
    (mjoin ((fun kv : string * list string =>
               (fun value => QueryEscape kv.1 +:+ "=" +:+ QueryEscape value)
                 <$> kv.2)
            <$> merge_sort name_le (map_to_list v)))
    "&".

(** One visiting order of a map. *)
Definition range_order (m : Values) : list (string * list string) :=
  map_to_list m.

(** [strings.Split(s, sep)] for a one-byte separator. *)
Fixpoint Split (s : string) (sep : ascii) : list string :=
  match s with
  | EmptyString => [""]
  | String c s' =>
      if Ascii.eqb c sep then "" :: Split s' sep
      else match Split s' sep with
           | [] => [String c ""]
           | x :: rest => String c x :: rest
           end
  end.

Fixpoint atoi_go (s : string) (acc : Z) : option Z :=
  match s with
  | EmptyString => Some acc
  | String c s' =>
      if is_digit c then atoi_go s' (10 * acc + (byte_of_ascii c - 48)) else None
  end.

(** An unsigned decimal number. *)
Definition atoi (s : string) : option Z :=
  match s with
  | EmptyString => None
  | _ => atoi_go s 0
  end.

Definition take (n : nat) (s : string) : string := String.substring 0 n s.

(** Day number of a calendar date; the inverse of [Time.civil]. *)
Definition days_from_civil (y m d : Z) : Z :=
  let y' := if m <=? 2 then y - 1 else y in
  let era := y' / 400 in
  let yoe := y' - era * 400 in
  let doy := (153 * (if 2 <? m then m - 3 else m + 9) + 2) / 5 + d - 1 in
  let doe := yoe * 365 + yoe / 4 - yoe / 100 + doy in
  era * 146097 + doe - 719468.

(** [time.Parse] for the two layouts of this package, on values of
    exactly the layout's shape: digits only, valid calendar date and
    clock time. *)
Definition parse_date (value : string) : option Z :=
  y ← atoi (take 4 value);
  m ← atoi (take 2 (Strings.drop 4 value));
  d ← atoi (take 2 (Strings.drop 6 value));
  let day := days_from_civil y m d in
  if bool_decide (Time.civil day = (y, m, d)) then Some day else None.

Definition parse_clock (value : string) : option Z :=
  h ← atoi (take 2 value);
  m ← atoi (take 2 (Strings.drop 2 value));
  s ← atoi (take 2 (Strings.drop 4 value));
  if (h <? 24) && (m <? 60) && (s <? 60) then Some (h * 3600 + m * 60 + s)
  else None.

Definition time_Parse (layout value : string) : option Z :=
  if decide (layout = yyyymmdd) then
    if decide (String.length value = 8%nat) then
      day ← parse_date value; Some (day * 86400 * Time.Second)
    else None
  else if decide (layout = iso8601Format) then
    if decide (String.length value = 16%nat
               /\ take 1 (Strings.drop 8 value) = "T"
               /\ Strings.drop 15 value = "Z") then
      day ← parse_date (take 8 value);
      sec ← parse_clock (take 6 (Strings.drop 9 value));
      Some ((day * 86400 + sec) * Time.Second)
    else None
  else None.

(** Error codes of the parsers that this package does not name. *)
Definition ErrCredMalformed := ErrOther 1.
Definition ErrMalformedCredentialDate := ErrOther 2.
Definition ErrMalformedPresignedDate := ErrOther 3.
Definition ErrMalformedExpires := ErrOther 4.
Definition ErrUnsignedHeaders := ErrOther 5.
Definition ErrSignatureVersionNotSupported := ErrOther 6.

Definition zero_credentialHeader : credentialHeader :=
  {| accessKey := "";
     scope := {| scope_date := 0; scope_region := "";
                 scope_service := ""; scope_request := "" |} |}.

Definition zero_signValues : signValues :=
  {| Credential := zero_credentialHeader; SignedHeaders := []; Signature := "" |}.

Definition zero_preSignValues : preSignValues :=
  {| presign := zero_signValues; Date := 0; Expires := 0 |}.

(** Modelled from the spec: [parseCredentialHeader] is not under src/.
    "given a raw tag of the form
    Credential=<accessKey>/<YYYYMMDD>/<region>/<service>/aws4_request,
    split on /; fail with a malformed-credential error unless exactly
    five segments are present and the trailing literal is aws4_request;
    parse the date segment with a fixed 8-digit calendar format, failing
    with a malformed-date error otherwise." *)
Definition parseCredentialHeader (credElement region : string)
    : credentialHeader * APIErrorCode :=
  if negb (String.prefix "Credential=" credElement)
  then (zero_credentialHeader, ErrMissingFields)
  else
    match Split (Strings.drop 11 credElement) "/" with
    | [key; date; reg; service; request] =>
        if decide (request <> "aws4_request")
        then (zero_credentialHeader, ErrCredMalformed)
        else match time_Parse yyyymmdd date with
             | None => (zero_credentialHeader, ErrMalformedCredentialDate)
             | Some t =>
                 ({| accessKey := key;
                     scope := {| scope_date := t; scope_region := reg;
                                 scope_service := service;
                                 scope_request := request |} |}, ErrNone)
             end
    | _ => (zero_credentialHeader, ErrCredMalformed)
    end.

(** Modelled from the spec: [parseSignedHeader] is not under src/.
    "Given a semicolon-separated signed-header string, lower-case and
    de-duplicate into a SignedHeaderSet; fail with a missing-fields error
    if empty." *)
Definition parseSignedHeader (signedHdrs : string) : list string * APIErrorCode :=
  if decide (signedHdrs = "") then ([], ErrMissingFields)
  else (remove_dups (ToLower <$> Split signedHdrs ";"), ErrNone).

(** Modelled from the spec: [parsePreSignV4] is not under src/.  "parse
    credential/date/expiry/signed-headers from query parameters". *)
Definition parsePreSignV4 (query : Values) (region : string)
    : preSignValues * APIErrorCode :=
  let '(cred, err) :=
    parseCredentialHeader ("Credential=" +:+ Values_Get query "X-Amz-Credential")
      region in
  if decide (err <> ErrNone) then (zero_preSignValues, err)
  else
    match time_Parse iso8601Format (Values_Get query "X-Amz-Date") with
    | None => (zero_preSignValues, ErrMalformedPresignedDate)
    | Some date =>
        match atoi (Values_Get query "X-Amz-Expires") with
        | None => (zero_preSignValues, ErrMalformedExpires)
        | Some seconds =>
            let '(headers, err) :=
              parseSignedHeader (Values_Get query "X-Amz-SignedHeaders") in
            if decide (err <> ErrNone) then (zero_preSignValues, err)
            else
              ({| presign := {| Credential := cred;
                                SignedHeaders := headers;
                                Signature := Values_Get query "X-Amz-Signature" |};
                  Date := date;
                  Expires := seconds * Time.Second |}, ErrNone)
        end
    end.

(** Modelled from the spec: [parseSignV4] is not under src/.  "read
    Authorization; parse into AuthContext": the algorithm tag, then
    [Credential=], [SignedHeaders=] and [Signature=], comma-separated. *)
Definition parseSignV4 (v4Auth region : string) : signValues * APIErrorCode :=
  let alg := signV4Algorithm +:+ " " in
  if negb (String.prefix alg v4Auth)
  then (zero_signValues, ErrSignatureVersionNotSupported)
  else
    match Split (Strings.drop (String.length alg) v4Auth) "," with
    | [c; h; s] =>
        let c := Strings.ReplaceAll c " " "" in
        let h := Strings.ReplaceAll h " " "" in
        let s := Strings.ReplaceAll s " " "" in
        let '(cred, err) := parseCredentialHeader c region in
        if decide (err <> ErrNone) then (zero_signValues, err)
        else if negb (String.prefix "SignedHeaders=" h)
                || negb (String.prefix "Signature=" s)
        then (zero_signValues, ErrMissingFields)
        else
          let '(headers, err) := parseSignedHeader (Strings.drop 14 h) in
          if decide (err <> ErrNone) then (zero_signValues, err)
          else ({| Credential := cred;
                   SignedHeaders := headers;
                   Signature := Strings.drop 10 s |}, ErrNone)
    | _ => (zero_signValues, ErrMissingFields)
    end.

(** [http.CanonicalHeaderKey] on ASCII header names: the first letter and
    every letter after a hyphen in upper case, the others in lower case. *)
Fixpoint canonical_go (upper : bool) (s : string) : string :=
  match s with
  | EmptyString => ""
  | String c s' =>
      String (if upper then upper_ascii c else lower_ascii c)
             (canonical_go (Ascii.eqb c "-") s')
  end.

Definition CanonicalHeaderKey (s : string) : string := canonical_go true s.

(** Modelled from the spec: [extractSignedHeaders] is not under src/.
    "extract the declared signed headers from the live request"; the set
    "must be a subset of the headers actually present on the request
    (including synthesized ones like host)". *)
Definition extractSignedHeaders (signedHeaders : list string) (r : Request)
    : Values * APIErrorCode :=
  fold_left
    (fun (acc : Values * APIErrorCode) header =>
       let '(extracted, err) := acc in
       if decide (err <> ErrNone) then acc
       else
         let key := CanonicalHeaderKey header in
         match Header r !! key with
         | Some val => (<[key := val]> extracted, ErrNone)
         | None =>
             if decide (header = "host")
             then (<[key := [Host r]]> extracted, ErrNone)
             else (∅, ErrUnsignedHeaders)
         end)
    signedHeaders (∅, ErrNone).

(** Modelled from the spec: the method [getScope] of a parsed credential
    is not under src/.  "scope_string is date/region/service/aws4_request". *)
Definition credentialHeader_getScope (c : credentialHeader) : string :=
  Strings.Join [
    Time.Format (scope_date (scope c)) yyyymmdd;
    scope_region (scope c);
    scope_service (scope c);
    scope_request (scope c)
  ] "/".

End Reference.

(* ===================================================================== *)
(** ** Worked example: one deployment and its requests *)
(* ===================================================================== *)

Module Example.

Import Reference.

(** The object "users.keys/AKIDEXAMPLE" holds a four-byte length and the
    user id "tester"; [radosgw-admin] lists one key for that user. *)
Definition store : CredentialStore := {|
  users_keys :=
    {[ "AKIDEXAMPLE" :=
         String "006" (String "000" (String "000" (String "000" "tester"))) ]};
  user_secret_keys := {[ "tester" := ["wJalrXUtnFEMI/K7MDENG+bPxRfiCYEXAMPLEKEY"] ]} |}.

Definition config : serverConfig := {|
  GetCredential := {| AccessKey := "AKIDEXAMPLE";
                      SecretKey := "wJalrXUtnFEMI/K7MDENG+bPxRfiCYEXAMPLEKEY" |};
  GetRegion := "us-east-1" |}.

(** 2015-08-30T12:36:00Z *)
Definition signingTime : Z := 1440938160 * Time.Second.

(** Fifteen minutes. *)
Definition maxSkew : Z := 900 * Time.Second.

Definition emptyPayloadHash : string :=
  "e3b0c44298fc1c149afbf4c8996fb92427ae41e4649b934ca495991b7852b855".

Definition presignedQueryOf (signature : string) : Values :=
  {[ "X-Amz-Algorithm" := ["AWS4-HMAC-SHA256"];
     "X-Amz-Credential" := ["AKIDEXAMPLE/20150830/us-east-1/s3/aws4_request"];
     "X-Amz-Date" := ["20150830T123600Z"];
     "X-Amz-Expires" := ["900"];
     "X-Amz-SignedHeaders" := ["host"];
     "X-Amz-Signature" := [signature] ]}.

Definition presignedRequest (query : Values) : Request := {|
  Method := "GET";
  Host := "example.com";
  URL_Path := "/bucket/key";
  URL_Query := query;
  Header := ∅ |}.

Definition verifyPresigned (environ : gmap string string)
    (store : CredentialStore) (now : Z) (hashedPayload : string) (r : Request)
    : Outcome (string * APIErrorCode) :=
  doesPresignedSignatureMatch environ ToLower signV4TrimAll EncodePath
    range_order Values_Encode parsePreSignV4 extractSignedHeaders
    credentialHeader_getScope maxSkew store now now hashedPayload r "us-east-1".

Definition headerRequest (accessKeyID signature : string) : Request := {|
  Method := "GET";
  Host := "example.com";
  URL_Path := "/bucket/key";
  URL_Query := ∅;
  Header :=
    {[ "Authorization" :=
         ["AWS4-HMAC-SHA256 Credential=" +:+ accessKeyID +:+
          "/20150830/us-east-1/s3/aws4_request, SignedHeaders=host;x-amz-date, Signature="
          +:+ signature];
       "X-Amz-Date" := ["20150830T123600Z"] ]} |}.

Definition verifyHeader (environ : gmap string string)
    (store : CredentialStore) (hashedPayload : string) (r : Request)
    : Outcome (string * APIErrorCode) :=
  doesSignatureMatch environ ToLower signV4TrimAll EncodePath range_order
    Values_Encode time_Parse parseSignV4 extractSignedHeaders
    credentialHeader_getScope store hashedPayload r "us-east-1".

Definition policyForm (accessKeyID policy signature : string) : Values :=
  {[ "X-Amz-Credential" := [accessKeyID +:+ "/20150830/us-east-1/s3/aws4_request"];
     "Policy" := [policy];
     "X-Amz-Signature" := [signature] ]}.

Definition verifyPolicy (environ : gmap string string) (form : Values)
    : APIErrorCode :=
  doesPolicySignatureV4Match environ parseCredentialHeader config form.

(** A form whose credential names another access key and a date of
    seven digits. *)
Definition shortDateForm (policy signature : string) : Values :=
  {[ "X-Amz-Credential" := ["OTHERKEY/2015083/us-east-1/s3/aws4_request"];
     "Policy" := [policy];
     "X-Amz-Signature" := [signature] ]}.

End Example.

(** What the reference parsers yield for the example requests. *)
Module ExampleParsed.

Import Reference Example.

Definition parsedOf (query : Values) : preSignValues :=
  (parsePreSignV4 query "us-east-1").1.

Definition extractedOf (signedHeaders : list string) (r : Request) : Values :=
  (extractSignedHeaders signedHeaders r).1.

(** The signature of the presigned example request, from an independent
    implementation of the protocol. *)
Definition presignedSignatureHex : string :=
  "d261df945df741b0d292980ffc85a60680239f88db72aeae323ff55c211aa091".

(** The signature of the header-authenticated example request. *)
Definition headerSignatureHex : string :=
  "2bd844b51d1271ec5c903950718d5ae499cb3395abb9aa7fd6ed19644725948e".

(** The signature of the policy document "eyJ9". *)
Definition policySignatureHex : string :=
  "4740fa0a7f3f6da706cd058902ce4ec7d2474696eb76a668ce850907eae63ed6".

(** A header map with two names that differ in case only. *)
Definition collidingHeaders : Values :=
  {[ "Host" := ["a"]; "host" := ["b"] ]}.

Definition plainHeaders : Values :=
  {[ "Host" := [" example.com  "];
     "X-Amz-Date" := ["20150830T123600Z"];
     "Accept" := ["a  b"; "c"] ]}.

(** A second visiting order: the first one backwards. *)
Definition range_backwards (m : Values) : list (string * list string) :=
  reverse (map_to_list m).

End ExampleParsed.

(* ===================================================================== *)
(** ** Package [controllers]: NFS exports of the gateway's users *)
(* ===================================================================== *)

Module NfsExport.

(** [strings.Replace(s, old, new, n)] for a non-empty [old] (or
    [old = new]): the first [n] non-overlapping occurrences from the
    left, all of them when [n < 0]. *)
Fixpoint replace_n (fuel : nat) (s old new : string) (n : Z) : string :=
  match fuel with
  | O => s
  | S fuel' =>
      if n =? 0 then s
      else match s with
           | EmptyString => EmptyString
           | String c s' =>
               if String.prefix old s
               then new +:+ replace_n fuel' (Strings.drop (String.length old) s)
                              old new (n - 1)
               else String c (replace_n fuel' s' old new n)
           end
  end.

Definition Replace (s old new : string) (n : Z) : string :=
  if decide (old = new \/ n = 0) then s
  else replace_n (String.length s) s old new n.

Record RgwKey := {
  AccessKey : string;
  SecretKey : string }.

Record RgwUser := {
  UserId : string;
  Keys : list RgwKey }.

(** Go's [int], 64 bits wide on the platforms the gateway is built
    for: the values from -2^63 up to 2^63 - 1. *)
Definition is_int (x : Z) : Prop := - 2 ^ 63 <= x < 2 ^ 63.

(** Sums and differences of [int] wrap around. *)
Definition wrap_int (x : Z) : Z := (x + 2 ^ 63) mod 2 ^ 64 - 2 ^ 63.

(** [rand.Intn(n)]: panics unless [n > 0]; [draw] is what the generator
    yields, reduced to [0, n). *)
Definition Intn (draw n : Z) : Outcome Z :=
  if n <=? 0 then Panic "invalid argument to Intn" else Ret (draw mod n).

(** [random(min, max)]: [rand.Intn(max-min) + min] on [int]; the
    generator is seeded from the clock. *)
Definition random (draw min max : Z) : Outcome Z :=
  k ← Intn draw (wrap_int (max - min)); Ret (wrap_int (k + min)).

Definition quote : string := String "034"%char "".

(** [fmt.Sprintf("export_%s", userId)] *)
Definition makeExportObjName (userId : string) : string :=
  "export_" +:+ userId.

(** [fmt.Sprintf] of the pool and object names into one line of the
    export list: the directive %url, a blank, and the quoted address
    rados://pool/object, ended by a newline. *)
Definition makeExport (poolName exportObjName : string) : string :=
  "%url " +:+ quote +:+ "rados://" +:+ poolName +:+ "/" +:+ exportObjName
    +:+ quote +:+ LF.

(** The objects of the pool an I/O context is opened on, by name.  The
    connection is taken to open; every error the calls return is
    dropped by the code.  [LockExclusive] and [Unlock] leave the
    contents alone. *)
Abbreviation Pool := (gmap string string).

(** [ioctx.Append]: the object is created when it does not exist. *)
Definition Append (pool : Pool) (oid data : string) : Pool :=
  <[oid := default "" (pool !! oid) +:+ data]> pool.

Definition WriteFull (pool : Pool) (oid data : string) : Pool :=
  <[oid := data]> pool.

Definition Delete (pool : Pool) (oid : string) : Pool := delete oid pool.

(** [stat, _ := ioctx.Stat(oid)], a buffer of [stat.Size] bytes and
    [ioctx.Read(oid, data, 0)]: the whole object, nothing when it does
    not exist. *)
Definition read_all (pool : Pool) (oid : string) : string :=
  default "" (pool !! oid).

Definition addExportPathToList (pool : Pool)
    (exportName poolName exportObjName : string) : Pool :=
  let newExport := makeExport poolName exportObjName in
  Append pool exportName newExport.

Definition loadExportTemplate (pool : Pool) (exportTmplName : string) : string :=
  read_all pool exportTmplName.

Definition removeExportPathToList (pool : Pool)
    (exportName poolName exportObjName : string) : Pool :=
  let targetExport := makeExport poolName exportObjName in
  let data := read_all pool exportName in
  let removedData := Replace data targetExport "" 1 in
  WriteFull pool exportName removedData.

Definition removeNfsExportObj (pool : Pool) (exportObjName : string) : Pool :=
  Delete pool exportObjName.

Section Handlers.

Variable environ : gmap string string.
(** [json.Unmarshal] into an [RgwUser]; [None] for an error. *)
Variable json_Unmarshal : string -> option RgwUser.
(** [fmt.Sprintf] of the export template with the export id, the user
    id twice, the access key and the secret key. *)
Variable Sprintf : string -> Z -> string -> string -> string -> string -> string.

(** [data.Keys[0]] panics on a user without keys, before anything is
    written. *)
Definition createNfsExportObj (draw : Z) (pool : Pool) (data : RgwUser)
    : Outcome (Pool * string) :=
  let userId := UserId data in
  match Keys data with
  | [] => Panic "index out of range [0] with length 0"
  | key0 :: _ =>
      let accessKey := AccessKey key0 in
      let secretKey := SecretKey key0 in
      exportId ← random draw 1 65535;
      let exportTmplName := GetEnv environ "NFS_EXPORT_TMPL" "export.tmpl" in
      let exportTmpl := loadExportTemplate pool exportTmplName in
      let exportObjName := makeExportObjName userId in
      let export := Sprintf exportTmpl exportId userId userId accessKey secretKey in
      Ret (WriteFull pool exportObjName export, exportObjName)
  end.

Definition addNfsExport (draw : Z) (body : string) (pool : Pool)
    : Outcome Pool :=
  match json_Unmarshal body with
  | None => Ret pool
  | Some userData =>
      if (1 <? length (Keys userData))%nat then Ret pool
      else
        let nfsCfgPool := GetEnv environ "NFS_CONFIG_POOL" "nfs-ganesha" in
        let nfsCfgName := GetEnv environ "NFS_CONFIG_NAME" "export" in
        '(pool, exportObjName) ← createNfsExportObj draw pool userData;
        Ret (addExportPathToList pool nfsCfgName nfsCfgPool exportObjName)
  end.

Definition removeNfsExport (userId : string) (pool : Pool) : Pool :=
  let nfsCfgPool := GetEnv environ "NFS_CONFIG_POOL" "nfs-ganesha" in
  let nfsCfgName := GetEnv environ "NFS_CONFIG_NAME" "export" in
  let exportObjName := makeExportObjName userId in
  let pool := removeExportPathToList pool nfsCfgName nfsCfgPool exportObjName in
  removeNfsExportObj pool exportObjName.

Definition HandleNfsExport (draw : Z) (req : Request) (body : string)
    (pool : Pool) : Outcome Pool :=
  let isSubuser := bool_decide (is_Some (URL_Query req !! "subuser")) in
  let isKey := bool_decide (is_Some (URL_Query req !! "key")) in
  let isQuota := bool_decide (is_Some (URL_Query req !! "quota")) in
  let isCaps := bool_decide (is_Some (URL_Query req !! "caps")) in
  if isSubuser || isKey || isQuota || isCaps then Ret pool
  else if decide (Method req = "PUT") then addNfsExport draw body pool
  else if decide (Method req = "DELETE") then
    match Values_index (URL_Query req) "uid" with
    | [] => Panic "index out of range [0] with length 0"
    | uid0 :: _ => Ret (removeNfsExport uid0 pool)
    end
  else Ret pool.

End Handlers.

(** The target occurs in [s] at offset [n]. *)
Definition occurs_at (n : nat) (s target : string) : bool :=
  String.prefix target (Strings.drop n s).

(** The target occurs in [s] at none of the offsets below [k]. *)
Definition absent_before (k : nat) (s target : string) : bool :=
  forallb (fun n => negb (occurs_at n s target)) (seq 0 k).

End NfsExport.

(** A deployment for the worked examples of the export handlers. *)
Module NfsExample.

Import NfsExport.

Definition tester : RgwUser :=
  {| UserId := "tester";
     Keys := [{| AccessKey := "AKIDEXAMPLE"; SecretKey := "secret" |}] |}.

(** Decodes the one body of the examples. *)
Definition json_Unmarshal (body : string) : option RgwUser :=
  if decide (body = "tester.json") then Some tester
  else if decide (body = "nokeys.json")
  then Some {| UserId := "nokeys"; Keys := [] |}
  else None.

(** A template without verbs: the arguments do not show. *)
Definition Sprintf (tmpl : string) (exportId : Z)
    (a b c d : string) : string := tmpl.

Definition pool : Pool :=
  {[ "export" := makeExport "nfs-ganesha" "export_alice";
     "export.tmpl" := "EXPORT { }" ]}.

Definition request (method : string) (query : Values) : Request :=
  {| Method := method; Host := "example.com"; URL_Path := "/admin/user";
     URL_Query := query; Header := ∅ |}.

Definition handle (req : Request) (body : string) (p : Pool) : Outcome Pool :=
  HandleNfsExport ∅ json_Unmarshal Sprintf 7 req body p.

Definition aliceLine : string := makeExport "nfs-ganesha" "export_alice".
Definition testerLine : string := makeExport "nfs-ganesha" "export_tester".

(** A request signed over the host header only, with the given headers
    beside Authorization. *)
Definition hostOnlyRequest (headers : Values) : Request :=
  {| Method := "GET"; Host := "example.com"; URL_Path := "/bucket/key";
     URL_Query := ∅;
     Header :=
       <[ "Authorization" :=
            ["AWS4-HMAC-SHA256 Credential=AKIDEXAMPLE/20150830/us-east-1/s3/aws4_request, SignedHeaders=host, Signature=00"] ]>
         headers |}.

End NfsExample.

(* ===================================================================== *)
(** * Properties *)
(* ===================================================================== *)

(** ** Known answers of the primitives *)

Example sha256_empty :
  Hex.EncodeToString (SHA256.Sum256 []) =
  "e3b0c44298fc1c149afbf4c8996fb92427ae41e4649b934ca495991b7852b855"%string.
Proof. vm_compute. reflexivity. Qed.

Example sha256_abc :
  Hex.EncodeToString (SHA256.Sum256 (bytes_of_string "abc")) =
  "ba7816bf8f01cfea414140de5dae2223b00361a396177a9cb410ff61f20015ad"%string.
Proof. vm_compute. reflexivity. Qed.

Example sha256_two_blocks :
  Hex.EncodeToString (SHA256.Sum256 (bytes_of_string
    "abcdbcdecdefdefgefghfghighijhijkijkljklmklmnlmnomnopnopq")) =
  "248d6a61d20638b8e5c026930c3e6039a33ce45964ff2167f6ecedd419db06c1"%string.
Proof. vm_compute. reflexivity. Qed.

(** RFC 4231, test case 2. *)
Example hmac_rfc4231_2 :
  Hex.EncodeToString (HMAC.Sum (bytes_of_string "Jefe")
    (bytes_of_string "what do ya want for nothing?")) =
  "5bdcc146bf60754e6a042426089575c75a003f089d2739839dec58b964ec3843"%string.
Proof. vm_compute. reflexivity. Qed.

Example format_example :
  Time.Format 1440938160000000000 "20060102T150405Z" = "20150830T123600Z"%string
  /\ Time.Format 1440938160000000000 "20060102" = "20150830"%string
  /\ Time.Format 951782400000000000 "20060102" = "20000229"%string
  /\ Time.Format (-1000000000) "20060102T150405Z" = "19691231T235959Z"%string
  /\ Strings.Itoa 900 = "900"%string /\ Strings.Itoa (-7) = "-7"%string
  /\ Strings.Itoa 0 = "0"%string
  /\ Strings.ReplaceAll "a+b c++" "+" "%20" = "a%20b c%20%20"%string
  /\ Strings.Join ["a"; "b"; "c"]%string "/" = "a/b/c"%string.
Proof. vm_compute. repeat split. Qed.

(** ** Bytes *)

Lemma byte_of_ascii_range c : is_byte (byte_of_ascii c).
Proof.
  unfold is_byte, byte_of_ascii.
  pose proof (N_ascii_bounded c). lia.
Qed.

Lemma ascii_of_byte_of_ascii c : ascii_of_byte (byte_of_ascii c) = c.
Proof.
  unfold ascii_of_byte, byte_of_ascii.
  pose proof (N_ascii_bounded c).
  rewrite Z.mod_small by lia.
  rewrite N2Z.id. apply ascii_N_embedding.
Qed.

Lemma string_of_bytes_of_string s : string_of_bytes (bytes_of_string s) = s.
Proof.
  induction s as [|c s IH]; simpl; [done|].
  by rewrite ascii_of_byte_of_ascii, IH.
Qed.

Lemma bytes_of_string_inj s1 s2 :
  bytes_of_string s1 = bytes_of_string s2 -> s1 = s2.
Proof.
  intros H. rewrite <- (string_of_bytes_of_string s1), H.
  apply string_of_bytes_of_string.
Qed.

Lemma bytes_of_string_length s :
  length (bytes_of_string s) = String.length s.
Proof. induction s; simpl; congruence. Qed.

Lemma bytes_of_string_range s : Forall is_byte (bytes_of_string s).
Proof.
  induction s; simpl; constructor; auto using byte_of_ascii_range.
Qed.

Lemma is_byte_land x : is_byte x <-> Z.land x (Z.ones 8) = x.
Proof.
  unfold is_byte. rewrite Z.land_ones by lia. split.
  - intros. apply Z.mod_small. lia.
  - intros <-. apply Z.mod_pos_bound. lia.
Qed.

Lemma is_byte_lor a b : is_byte a -> is_byte b -> is_byte (Z.lor a b).
Proof.
  rewrite !is_byte_land. intros Ha Hb.
  by rewrite Z.land_lor_distr_l, Ha, Hb.
Qed.

Lemma is_byte_lxor a b : is_byte a -> is_byte b -> is_byte (Z.lxor a b).
Proof.
  unfold is_byte. intros Ha Hb.
  assert (H0 : 0 <= Z.lxor a b) by (apply Z.lxor_nonneg; lia).
  split; [exact H0|].
  destruct (decide (Z.lxor a b = 0)) as [->|Hne]; [lia|].
  apply (Z.log2_lt_pow2 _ 8); [lia|].
  pose proof (Z.log2_lxor a b ltac:(lia) ltac:(lia)) as Hl.
  assert (Z.log2 a < 8).
  { destruct (decide (a = 0)) as [->|]; [done|]. apply Z.log2_lt_pow2; lia. }
  assert (Z.log2 b < 8).
  { destruct (decide (b = 0)) as [->|]; [done|]. apply Z.log2_lt_pow2; lia. }
  lia.
Qed.

(** ** The signature comparator *)

Section Comparator.

Let acc (v : Z) (xy : Z * Z) : Z := Z.lor v (Z.lxor (fst xy) (snd xy)) mod 256.

Lemma acc_zero v a b :
  is_byte v -> is_byte a -> is_byte b ->
  is_byte (acc v (a, b)) /\ (acc v (a, b) = 0 <-> v = 0 /\ a = b).
Proof.
  intros Hv Ha Hb. unfold acc. simpl.
  assert (Hl : is_byte (Z.lor v (Z.lxor a b)))
    by auto using is_byte_lor, is_byte_lxor.
  rewrite Z.mod_small by exact Hl.
  split; [exact Hl|].
  rewrite Z.lor_eq_0_iff, Z.lxor_eq_0_iff. tauto.
Qed.

Lemma fold_acc_zero x : forall y v,
  length x = length y -> Forall is_byte x -> Forall is_byte y -> is_byte v ->
  is_byte (fold_left acc (combine x y) v)
  /\ (fold_left acc (combine x y) v = 0 <-> v = 0 /\ x = y).
Proof.
  induction x as [|a x IH]; intros [|b y] v Hlen Hx Hy Hv;
    simpl in Hlen; try discriminate.
  - simpl. tauto.
  - inversion Hx; inversion Hy; subst.
    destruct (acc_zero v a b) as [Hr Hz]; auto.
    destruct (IH y (acc v (a, b))) as [Hr' Hz']; auto.
    cbn [combine fold_left]. split; [exact Hr'|].
    rewrite Hz', Hz. split.
    + intros [[-> ->] ->]. auto.
    + intros [-> [= -> ->]]. auto.
Qed.

Lemma ConstantTimeByteEq_zero v :
  is_byte v -> (Subtle.ConstantTimeByteEq v 0 = 1 <-> v = 0).
Proof.
  intros Hv. unfold Subtle.ConstantTimeByteEq, is_byte in *.
  rewrite Z.lxor_0_r, Z.shiftr_div_pow2 by lia.
  destruct (decide (v = 0)) as [->|Hne].
  - split; [done|]. intros _. reflexivity.
  - split; [|done].
    rewrite Z.mod_small by lia. rewrite Z.div_small by lia. lia.
Qed.

Lemma ConstantTimeCompare_spec x y :
  Forall is_byte x -> Forall is_byte y ->
  (Subtle.ConstantTimeCompare x y = 1 <-> x = y).
Proof.
  intros Hx Hy. unfold Subtle.ConstantTimeCompare.
  destruct (length x =? length y)%nat eqn:Hlen; simpl.
  - apply Nat.eqb_eq in Hlen.
    destruct (fold_acc_zero x y 0 Hlen Hx Hy) as [Hr Hz]; [unfold is_byte; lia|].
    fold acc. rewrite ConstantTimeByteEq_zero by exact Hr.
    rewrite Hz. tauto.
  - apply Nat.eqb_neq in Hlen. split; [lia|].
    intros ->. done.
Qed.

End Comparator.

(** C7: [compareSignatureV4] returns true exactly when the two strings are
    byte-for-byte equal; in particular it returns false when their lengths
    differ. *)
Theorem compareSignatureV4_spec (sig1 sig2 : string) :
  (compareSignatureV4 sig1 sig2 = true <-> sig1 = sig2)
  /\ (String.length sig1 <> String.length sig2 ->
      compareSignatureV4 sig1 sig2 = false).
Proof.
  assert (Hiff : compareSignatureV4 sig1 sig2 = true <-> sig1 = sig2).
  { unfold compareSignatureV4. rewrite Z.eqb_eq.
    rewrite ConstantTimeCompare_spec by apply bytes_of_string_range.
    split; [apply bytes_of_string_inj | by intros ->]. }
  split; [exact Hiff|].
  intros Hlen. apply not_true_is_false. intros E.
  apply Hiff in E. by subst.
Qed.

Lemma compareSignatureV4_spec_witness :
  (compareSignatureV4 "ab12" "ab12" = true <-> "ab12" = "ab12")
  /\ compareSignatureV4 "ab12" "ab1" = false.
Proof.
  split.
  - apply (compareSignatureV4_spec "ab12" "ab12").
  - apply (compareSignatureV4_spec "ab12" "ab1"). simpl. lia.
Defined.

(** ** Strings *)

Lemma append_cons (x : ascii) (a b : string) :
  String x a +:+ b = String x (a +:+ b).
Proof. reflexivity. Qed.

Lemma append_nil_l (b : string) : "" +:+ b = b.
Proof. reflexivity. Qed.

Lemma append_assoc (a b c : string) : (a +:+ b) +:+ c = a +:+ b +:+ c.
Proof.
  induction a as [|x a IH]; [done|].
  by rewrite !append_cons, IH.
Qed.

Lemma append_nil_r (a : string) : a +:+ "" = a.
Proof.
  induction a as [|x a IH]; [done|].
  by rewrite append_cons, IH.
Qed.

Lemma append_length (a b : string) :
  String.length (a +:+ b) = (String.length a + String.length b)%nat.
Proof.
  induction a as [|x a IH]; [done|].
  rewrite append_cons. simpl. by rewrite IH.
Qed.

(** ** Hex encoding and digest sizes *)

Lemma EncodeToString_length src :
  String.length (Hex.EncodeToString src) = (2 * length src)%nat.
Proof. induction src as [|v src IH]; simpl; [done|]. rewrite IH. lia. Qed.

Lemma hextable_lower_hex n : 0 <= n < 16 -> is_lower_hex (Hex.hextable n) = true.
Proof.
  intros Hn. rewrite <- (Z2Nat.id n) by lia.
  assert (Hk : (Z.to_nat n < 16)%nat) by lia.
  generalize dependent (Z.to_nat n). clear. intros k Hk.
  do 16 (destruct k as [|k]; [reflexivity|]). lia.
Qed.

Lemma EncodeToString_lower_hex src :
  Forall is_byte src ->
  string_forallb is_lower_hex (Hex.EncodeToString src) = true.
Proof.
  induction 1 as [|v src Hv _ IH]; simpl; [done|].
  unfold is_byte in Hv.
  rewrite !hextable_lower_hex, IH; [done| |].
  - change 15 with (Z.ones 4). rewrite Z.land_ones by lia.
    apply Z.mod_pos_bound. lia.
  - rewrite Z.shiftr_div_pow2 by lia. change (2 ^ 4) with 16.
    split; [apply Z.div_pos; lia | apply Z.div_lt_upper_bound; lia].
Qed.

Lemma be_bytes_length n x : length (SHA256.be_bytes n x) = n.
Proof. induction n; simpl; congruence. Qed.

Lemma be_bytes_range n x : Forall is_byte (SHA256.be_bytes n x).
Proof.
  induction n; simpl; constructor; [|done].
  unfold is_byte. change 255 with (Z.ones 8). rewrite Z.land_ones by lia.
  apply Z.mod_pos_bound. lia.
Qed.

Lemma Sum256_length data : length (SHA256.Sum256 data) = 32%nat.
Proof.
  unfold SHA256.Sum256, SHA256.sum_bytes.
  rewrite !length_app, !be_bytes_length. reflexivity.
Qed.

Lemma Sum256_range data : Forall is_byte (SHA256.Sum256 data).
Proof.
  unfold SHA256.Sum256, SHA256.sum_bytes.
  repeat (apply Forall_app; split); apply be_bytes_range.
Qed.

Lemma sumHMAC_length key data : length (sumHMAC key data) = 32%nat.
Proof. apply Sum256_length. Qed.

Lemma sumHMAC_range key data : Forall is_byte (sumHMAC key data).
Proof. apply Sum256_range. Qed.

(** ** Time layouts *)

Lemma Format_yyyymmdd t : Time.Format t yyyymmdd = date_stamp t.
Proof.
  unfold Time.Format, yyyymmdd, date_stamp.
  cbn [String.length Time.format String.prefix Strings.drop String.substring
       Nat.sub Ascii.ascii_dec ascii_rec ascii_rect Bool.bool_dec bool_rec
       bool_rect sumbool_rec sumbool_rect Ascii.eqb Bool.eqb].
  by rewrite append_nil_r.
Qed.

Lemma Format_iso8601 t : Time.Format t iso8601Format = iso8601_basic t.
Proof.
  unfold Time.Format, iso8601Format, iso8601_basic, date_stamp.
  cbn [String.length Time.format String.prefix Strings.drop String.substring
       Nat.sub Ascii.ascii_dec ascii_rec ascii_rect Bool.bool_dec bool_rec
       bool_rect sumbool_rec sumbool_rect Ascii.eqb Bool.eqb].
  rewrite !append_assoc. reflexivity.
Qed.

(** ** Signing key *)

(** C1: [getSigningKey] is the four-stage chain
    HMAC(HMAC(HMAC(HMAC("AWS4"+secretKey, date), region), service),
    "aws4_request"): every stage is keyed by the previous stage's output
    and hashes the named literal, the service literal being the configured
    one.  The key depends on its inputs only through the secret key, the
    date stamp, the region and the service literal. *)
Theorem getSigningKey_chain (environ : gmap string string)
    (secretKey : string) (t : Z) (region : string) :
  let date := Time.Format t yyyymmdd in
  let service := GetEnv environ "SERVICE" "s3" in
  getSigningKey environ secretKey t region =
    sumHMAC (sumHMAC (sumHMAC (sumHMAC
      (bytes_of_string ("AWS4" +:+ secretKey)) (bytes_of_string date))
      (bytes_of_string region)) (bytes_of_string service))
      (bytes_of_string "aws4_request")
  /\ getSigningKey environ secretKey t region =
       hmac_chain (bytes_of_string ("AWS4" +:+ secretKey))
         [date; region; service; "aws4_request"]
  /\ forall (environ' : gmap string string) (t' : Z),
       Time.Format t' yyyymmdd = date ->
       GetEnv environ' "SERVICE" "s3" = service ->
       getSigningKey environ' secretKey t' region =
       getSigningKey environ secretKey t region.
Proof.
  intros date service. split; [|split].
  - reflexivity.
  - unfold getSigningKey, hmac_chain. cbn [fold_left]. reflexivity.
  - intros environ' t' Hdate Hservice.
    unfold getSigningKey. fold date service. rewrite Hdate, Hservice.
    reflexivity.
Qed.

Lemma getSigningKey_chain_witness :
  getSigningKey {["SERVICE" := "s3"]} "secret" 1440938160000000000 "us-east-1" =
  getSigningKey ∅ "secret" 1440892800000000000 "us-east-1".
Proof.
  apply (getSigningKey_chain ∅ "secret" 1440892800000000000 "us-east-1").
  - vm_compute. reflexivity.
  - vm_compute. reflexivity.
Defined.

(** C8, as stated, fails: for the secret key, date, region and service of
    the claim the derived key does not encode to the 63-digit string. *)
Lemma signing_key_vector_refuted :
  Hex.EncodeToString
    (getSigningKey {["SERVICE" := "iam"]}
       "wJalrXUtnFEMI/K7MDENG/bPxRfiCYEXAMPLEKEY"
       1440892800000000000 "us-east-1")
  <> "c4afb1cc5771d871763a393e44b703571b55cc28424d1a5e86da6ed3c154a4b".
Proof. vm_compute. intros Hne. discriminate Hne. Qed.

(** No signing key at all encodes to that string: the hex encoding of a
    key has 64 digits. *)
Lemma signing_key_hex_length environ secretKey t region :
  String.length (Hex.EncodeToString (getSigningKey environ secretKey t region))
  = 64%nat.
Proof.
  rewrite EncodeToString_length. unfold getSigningKey.
  by rewrite sumHMAC_length.
Qed.

(** C8 (amended): with the service literal configured as "iam", secret key
    "wJalrXUtnFEMI/K7MDENG/bPxRfiCYEXAMPLEKEY", a time on 2015-08-30 and
    region "us-east-1", the derived signing key encodes to
    2c94c0cf5378ada6887f09bb697df8fc0affdb34ba1cdd5bda32b664bd55b73c. *)
Theorem signing_key_vector (environ : gmap string string) (t : Z) :
  GetEnv environ "SERVICE" "s3" = "iam" ->
  Time.Format t yyyymmdd = "20150830" ->
  Hex.EncodeToString
    (getSigningKey environ "wJalrXUtnFEMI/K7MDENG/bPxRfiCYEXAMPLEKEY"
       t "us-east-1")
  = "2c94c0cf5378ada6887f09bb697df8fc0affdb34ba1cdd5bda32b664bd55b73c".
Proof.
  intros Hservice Hdate. unfold getSigningKey. rewrite Hservice, Hdate.
  vm_compute. reflexivity.
Qed.

Lemma signing_key_vector_witness :
  Hex.EncodeToString
    (getSigningKey {["SERVICE" := "iam"]}
       "wJalrXUtnFEMI/K7MDENG/bPxRfiCYEXAMPLEKEY"
       1440892800000000000 "us-east-1")
  = "2c94c0cf5378ada6887f09bb697df8fc0affdb34ba1cdd5bda32b664bd55b73c".
Proof.
  apply (signing_key_vector {["SERVICE" := "iam"]} 1440892800000000000).
  - vm_compute. reflexivity.
  - vm_compute. reflexivity.
Defined.

(** The published vector that ends in ...a4b9 belongs to the secret key
    spelled with a plus sign. *)
Example signing_key_published_vector :
  Hex.EncodeToString
    (getSigningKey {["SERVICE" := "iam"]}
       "wJalrXUtnFEMI/K7MDENG+bPxRfiCYEXAMPLEKEY"
       1440892800000000000 "us-east-1")
  = "c4afb1cc5771d871763a393e44b703571b55cc28424d1a5e86da6ed3c154a4b9".
Proof. vm_compute. reflexivity. Qed.

(** ** String to sign *)

(** C6: [getStringToSign] is the algorithm constant, the timestamp in
    ISO 8601 basic format, the scope and the lower-case hex SHA-256 of the
    canonical request, separated by newlines; the scope of [getScope] is
    date/region/service/aws4_request. *)
Theorem getStringToSign_spec (environ : gmap string string)
    (canonicalRequest : string) (t : Z) (scope region : string) :
  let hashed := Hex.EncodeToString
                  (SHA256.Sum256 (bytes_of_string canonicalRequest)) in
  getStringToSign canonicalRequest t scope =
    "AWS4-HMAC-SHA256" +:+ LF +:+ iso8601_basic t +:+ LF +:+ scope +:+ LF
      +:+ hashed
  /\ String.length hashed = 64%nat
  /\ string_forallb is_lower_hex hashed = true
  /\ getScope environ t region =
       date_stamp t +:+ "/" +:+ region +:+ "/"
         +:+ GetEnv environ "SERVICE" "s3" +:+ "/" +:+ "aws4_request".
Proof.
  intros hashed. split; [|split; [|split]].
  - unfold getStringToSign, signV4Algorithm. fold hashed.
    rewrite Format_iso8601. rewrite !append_assoc. reflexivity.
  - unfold hashed. rewrite EncodeToString_length, Sum256_length. reflexivity.
  - apply EncodeToString_lower_hex, Sum256_range.
  - unfold getScope. rewrite Format_yyyymmdd. reflexivity.
Qed.

(** ** Canonical request *)

Lemma Join_cons (x : string) (rest : list string) (sep : string) :
  Strings.Join (x :: rest) sep =
  x +:+ fold_right (fun v acc => sep +:+ v +:+ acc) "" rest.
Proof.
  revert x. induction rest as [|y rest IH]; intros x.
  - simpl. by rewrite append_nil_r.
  - change (Strings.Join (x :: y :: rest) sep)
      with (x +:+ sep +:+ Strings.Join (y :: rest) sep).
    by rewrite IH.
Qed.

Lemma drop_0 s : Strings.drop 0 s = s.
Proof.
  unfold Strings.drop. rewrite Nat.sub_0_r.
  induction s as [|c s IH]; [done|]. simpl. by rewrite IH.
Qed.

Lemma drop_cons n c s : Strings.drop (S n) (String c s) = Strings.drop n s.
Proof. reflexivity. Qed.

Lemma prefix_nil s : String.prefix "" s = true.
Proof. by destruct s. Qed.

Lemma replace_all_plus fuel s :
  (String.length s <= fuel)%nat ->
  Strings.replace_all fuel s "+" "%20" = plus_to_percent20 s.
Proof.
  revert s. induction fuel as [|fuel IH]; intros [|c s] Hlen;
    simpl in Hlen; try lia; try reflexivity.
  cbn [Strings.replace_all plus_to_percent20 String.prefix].
  destruct (Ascii.eqb_spec c "+") as [->|Hne].
  - destruct (ascii_dec "+" "+") as [_|]; [|done].
    rewrite prefix_nil.
    change (String.length "+") with 1%nat.
    rewrite drop_cons, drop_0, IH by lia. reflexivity.
  - destruct (ascii_dec "+" c) as [<-|_]; [done|].
    rewrite IH by lia. reflexivity.
Qed.

Lemma ReplaceAll_plus s :
  Strings.ReplaceAll s "+" "%20" = plus_to_percent20 s.
Proof. apply replace_all_plus. lia. Qed.

Lemma NoDup_fst_unique {A B} (l : list (A * B)) k v1 v2 :
  NoDup l.*1 -> (k, v1) ∈ l -> (k, v2) ∈ l -> v1 = v2.
Proof.
  induction l as [|[k0 v0] l IH]; intros Hnd H1 H2.
  - by apply elem_of_nil in H1.
  - simpl in Hnd. apply NoDup_cons in Hnd as [Hfresh Hnd].
    apply elem_of_cons in H1 as [E1|H1];
      apply elem_of_cons in H2 as [E2|H2]; simplify_eq; auto.
    + destruct Hfresh. apply list_elem_of_fmap. by exists (k0, v2).
    + destruct Hfresh. apply list_elem_of_fmap. by exists (k0, v1).
Qed.

#[local] Instance name_le_total : Total name_le.
Proof. intros a b. apply (total String.le). Qed.

#[local] Instance name_le_trans : Transitive name_le.
Proof. intros a b c. unfold name_le. apply transitivity. Qed.

Section CanonicalProperties.

Variable ToLower : string -> string.
Variable signV4TrimAll : string -> string.
Variable EncodePath : string -> string.
Variable range_order : Values -> list (string * list string).

(** A [range] loop visits every entry of the map exactly once. *)
Hypothesis range_order_perm :
  forall m : Values, range_order m ≡ₚ map_to_list m.

Let lower (kv : string * list string) : string * list string :=
  (ToLower kv.1, kv.2).

Let step : list string * Values -> string * list string -> list string * Values :=
  fun '(headers, vals) '(k, vv) =>
    (headers ++ [ToLower k], <[ToLower k := vv]> vals).

Lemma header_loop_names l : forall headers vals,
  (fold_left step l (headers, vals)).1 = headers ++ (lower <$> l).*1.
Proof.
  induction l as [|[k vv] l IH]; intros headers vals; simpl.
  - by rewrite app_nil_r.
  - rewrite IH. by rewrite <- app_assoc.
Qed.

Lemma header_loop_other l k : forall headers vals,
  k ∉ (lower <$> l).*1 ->
  (fold_left step l (headers, vals)).2 !! k = vals !! k.
Proof.
  induction l as [|[k0 vv0] l IH]; intros headers vals Hnot; [done|].
  simpl in *. apply not_elem_of_cons in Hnot as [Hne Hnot].
  rewrite IH by done. by rewrite lookup_insert_ne.
Qed.

Lemma header_loop_lookup l k vv : forall headers vals,
  NoDup (lower <$> l).*1 -> (k, vv) ∈ lower <$> l ->
  (fold_left step l (headers, vals)).2 !! k = Some vv.
Proof.
  induction l as [|[k0 vv0] l IH]; intros headers vals Hnd Hin.
  - by apply elem_of_nil in Hin.
  - simpl in *. apply NoDup_cons in Hnd as [Hfresh Hnd].
    apply elem_of_cons in Hin as [[= -> ->]|Hin].
    + rewrite header_loop_other by done. apply lookup_insert_eq.
    + by apply IH.
Qed.

Lemma write_values_tail vv : forall buf idx,
  write_values signV4TrimAll buf (S idx) vv =
  buf +:+ fold_right (fun v acc => "," +:+ v +:+ acc) "" (signV4TrimAll <$> vv).
Proof.
  induction vv as [|v vv IH]; intros buf idx; simpl.
  - by rewrite append_nil_r.
  - rewrite IH. by rewrite !append_assoc.
Qed.

Lemma write_values_join buf vv :
  write_values signV4TrimAll buf 0 vv =
  buf +:+ Strings.Join (signV4TrimAll <$> vv) ",".
Proof.
  destruct vv as [|v vv].
  - simpl. by rewrite append_nil_r.
  - cbn [write_values Nat.ltb Nat.leb]. rewrite write_values_tail.
    rewrite fmap_cons, Join_cons. by rewrite !append_assoc.
Qed.

Lemma header_lines_fold (vals : Values) headers : forall buf,
  fold_left (fun buf k =>
               let buf := buf +:+ k in
               let buf := buf +:+ ":" in
               let buf := write_values signV4TrimAll buf 0 (Values_index vals k) in
               buf +:+ LF) headers buf =
  buf +:+ concat_strings
    (header_line signV4TrimAll <$>
       ((fun k => (k, Values_index vals k)) <$> headers)).
Proof.
  induction headers as [|k headers IH]; intros buf; simpl.
  - by rewrite append_nil_r.
  - rewrite IH, write_values_join. unfold header_line. simpl.
    by rewrite !append_assoc.
Qed.

Lemma sorted_pairs_unique (l1 l2 : list (string * list string)) :
  NoDup l1.*1 -> l1 ≡ₚ l2 ->
  Sorted name_le l1 -> Sorted name_le l2 -> l1 = l2.
Proof.
  intros Hnd Hperm Hs1 Hs2.
  apply (Sorted_unique_strong name_le); try done.
  intros [k1 v1] [k2 v2] Hin1 Hin2 Hle1 Hle2. unfold name_le in *. simpl in *.
  assert (k1 = k2) as <- by (by apply (anti_symm String.le)).
  f_equal. rewrite <- Hperm in Hin2.
  eapply NoDup_fst_unique; eauto.
Qed.

Lemma lower_names (l : list (string * list string)) :
  (lower <$> l).*1 = ToLower <$> l.*1.
Proof. rewrite <- !list_fmap_compose. apply list_fmap_ext. by intros i [k vv] _. Qed.

Lemma signed_names_loop (l : list (string * list string)) : forall headers,
  fold_left (fun headers '(k, _) => headers ++ [ToLower k]) l headers
  = headers ++ (ToLower <$> l.*1).
Proof.
  induction l as [|[k vv] l IH]; intros headers; simpl.
  - by rewrite app_nil_r.
  - rewrite IH. by rewrite <- app_assoc.
Qed.

(** [sort.Strings] has one possible result: the sorted arrangement. *)
Lemma sort_Strings_unique (l l' : list string) :
  l' ≡ₚ l -> Sorted String.le l' -> l' = merge_sort String.le l.
Proof.
  intros Hperm Hsorted. apply (Sorted_unique String.le); [done| |].
  - apply (Sorted_merge_sort String.le).
  - by rewrite merge_sort_Permutation.
Qed.

Lemma sort_Strings_perm (l l' : list string) :
  l ≡ₚ l' -> merge_sort String.le l = merge_sort String.le l'.
Proof.
  intros Hperm. apply sort_Strings_unique.
  - by rewrite merge_sort_Permutation.
  - apply (Sorted_merge_sort String.le).
Qed.

(** The signed-header list does not depend on the visiting order. *)
Lemma getSignedHeaders_contract (h : Values) :
  getSignedHeaders ToLower range_order h = signed_header_names ToLower h.
Proof.
  unfold getSignedHeaders, signed_header_names.
  rewrite signed_names_loop, app_nil_l. f_equal.
  apply sort_Strings_perm. by rewrite range_order_perm.
Qed.

Lemma getCanonicalHeaders_contract (h : Values) :
  case_distinct ToLower h ->
  getCanonicalHeaders ToLower signV4TrimAll range_order h
  = canonical_header_block ToLower signV4TrimAll h.
Proof.
  intros Hdistinct. unfold getCanonicalHeaders, canonical_header_block.
  fold step.
  pose proof (header_loop_names (range_order h) [] ∅) as Hnames.
  assert (Hnd : NoDup (lower <$> range_order h).*1).
  { rewrite lower_names, range_order_perm. exact Hdistinct. }
  pose proof (fun k vv => header_loop_lookup (range_order h) k vv [] ∅ Hnd)
    as Hlookup.
  destruct (fold_left step (range_order h) ([], ∅)) as [headers vals].
  simpl in Hnames, Hlookup. subst headers.
  rewrite header_lines_fold, append_nil_l. do 2 f_equal.
  set (sorted := merge_sort String.le (lower <$> range_order h).*1).
  assert (Hsorted : Sorted String.le sorted)
    by apply (Sorted_merge_sort String.le).
  assert (Hperm : sorted ≡ₚ (lower <$> range_order h).*1)
    by apply merge_sort_Permutation.
  assert (Hpairs :
    (fun k => (k, Values_index vals k)) <$> (lower <$> range_order h).*1
    = lower <$> range_order h).
  { rewrite <- list_fmap_compose.
    rewrite <- (list_fmap_id (lower <$> range_order h)) at 2.
    apply list_fmap_ext. intros i [k vv] Hin%list_elem_of_lookup_2. simpl.
    unfold Values_index. by rewrite (Hlookup k vv Hin). }
  apply sorted_pairs_unique.
  - rewrite <- list_fmap_compose. simpl.
    rewrite list_fmap_id. unfold sorted. rewrite merge_sort_Permutation.
    exact Hnd.
  - rewrite Hperm, Hpairs. unfold sorted_headers.
    rewrite merge_sort_Permutation. fold lower.
    by rewrite range_order_perm.
  - eapply Sorted_fmap; [|exact Hsorted]. by intros x y Hxy.
  - unfold sorted_headers. apply (Sorted_merge_sort name_le).
Qed.

(** C5 (amended): for a signed-header map whose names stay pairwise
    distinct after lower-casing, [getCanonicalRequest] is the
    newline-joined method, percent-encoded path, query with every '+'
    replaced by "%20", header block (one lower-cased [name:value] line
    per header in alphabetical order of names, values trimmed and
    comma-joined), sorted semicolon-joined lower-cased header names, and
    payload hash; whatever order the map is visited in. *)
Theorem getCanonicalRequest_contract (h : Values)
    (payload queryStr urlPath method : string) :
  case_distinct ToLower h ->
  getCanonicalRequest ToLower signV4TrimAll EncodePath range_order
    h payload queryStr urlPath method
  = canonical_request_contract ToLower signV4TrimAll EncodePath
      h payload queryStr urlPath method.
Proof.
  intros Hdistinct.
  unfold getCanonicalRequest, canonical_request_contract.
  rewrite ReplaceAll_plus, getCanonicalHeaders_contract by done.
  rewrite getSignedHeaders_contract. reflexivity.
Qed.

End CanonicalProperties.

(** ** The credential store *)

Lemma getCredentials_ErrNone store key userID cred err :
  getCredentials store key = Ret (userID, cred, err) -> err = ErrNone.
Proof.
  unfold getCredentials.
  repeat case_match; intros Hret; simplify_eq; reflexivity.
Qed.

Lemma getCredentials_never_fails_with_code store key :
  (exists reason, getCredentials store key = Panic reason)
  \/ (exists userID cred, getCredentials store key = Ret (userID, cred, ErrNone)).
Proof.
  destruct (getCredentials store key) as [reason|[[userID cred] err]] eqn:E.
  - left. by exists reason.
  - right. exists userID, cred. by rewrite (getCredentials_ErrNone _ _ _ _ _ E).
Qed.

Lemma getCredentials_unknown store key :
  users_keys store !! key = None ->
  getCredentials store key = Panic "makeslice: len out of range".
Proof. intros H. unfold getCredentials. rewrite H. reflexivity. Qed.

Lemma Values_Get_Set_eq (v : Values) key value :
  Values_Get (Values_Set v key value) key = value.
Proof. unfold Values_Get, Values_Set. by rewrite lookup_insert_eq. Qed.

Lemma Values_Get_Set_ne (v : Values) key key' value :
  key <> key' -> Values_Get (Values_Set v key value) key' = Values_Get v key'.
Proof. intros Hne. unfold Values_Get, Values_Set. by rewrite lookup_insert_ne. Qed.

(** ** The verification flows *)

Section ReconstructedQuery.

Variable environ : gmap string string.
Variable ToLower : string -> string.
Variable range_order : Values -> list (string * list string).

(** What the reconstructed query holds under the names that are
    compared: the loop that copies the received parameters skips every
    name that starts with "x-amz" once lower-cased. *)
Lemma copy_loop_lookup (key : string) (l : list (string * list string)) :
  Strings.HasPrefix (ToLower key) "x-amz" = true ->
  forall query : Values,
    fold_left (fun (query : Values) '(k, v) =>
                 if Strings.HasPrefix (ToLower k) "x-amz" then query
                 else <[k := v]> query) l query !! key
    = query !! key.
Proof.
  intros Hkey. induction l as [|[k v] l IH]; intros query; [done|].
  simpl. rewrite IH.
  destruct (Strings.HasPrefix (ToLower k) "x-amz") eqn:E; [done|].
  apply lookup_insert_ne. intros ->. congruence.
Qed.

Lemma copy_loop_Get (key : string) (l : list (string * list string))
    (query : Values) :
  Strings.HasPrefix (ToLower key) "x-amz" = true ->
  Values_Get
    (fold_left (fun (query : Values) '(k, v) =>
                  if Strings.HasPrefix (ToLower k) "x-amz" then query
                  else <[k := v]> query) l query) key
  = Values_Get query key.
Proof. intros Hkey. unfold Values_Get. by rewrite copy_loop_lookup. Qed.

Lemma presignedQuery_values hashedPayload r psv cred extracted :
  (forall key, key ∈ ["X-Amz-Date"; "X-Amz-Expires"; "X-Amz-SignedHeaders";
                      "X-Amz-Credential"; "X-Amz-Content-Sha256"] ->
     Strings.HasPrefix (ToLower key) "x-amz" = true) ->
  let query := presignedQuery environ ToLower range_order hashedPayload r psv cred extracted in
  Values_Get query "X-Amz-Date" = Time.Format (Date psv) iso8601Format
  /\ Values_Get query "X-Amz-Expires"
       = Strings.Itoa (Z.quot (Expires psv) Time.Second)
  /\ Values_Get query "X-Amz-SignedHeaders"
       = getSignedHeaders ToLower range_order extracted
  /\ Values_Get query "X-Amz-Credential"
       = AccessKey cred +:+ "/" +:+
         getScope environ (Date psv)
           (scope_region (scope (Credential (presign psv))))
  /\ (Values_Get (URL_Query r) "X-Amz-Content-Sha256" <> "" ->
       Values_Get query "X-Amz-Content-Sha256" = hashedPayload).
Proof.
  intros Hamz query. subst query. unfold presignedQuery.
  rewrite !copy_loop_Get by (apply Hamz; set_solver).
  repeat split.
  - rewrite !Values_Get_Set_ne by done. apply Values_Get_Set_eq.
  - rewrite !Values_Get_Set_ne by done. apply Values_Get_Set_eq.
  - rewrite !Values_Get_Set_ne by done. apply Values_Get_Set_eq.
  - apply Values_Get_Set_eq.
  - intros Hpresent. rewrite !Values_Get_Set_ne by done.
    rewrite decide_True by done. apply Values_Get_Set_eq.
Qed.

End ReconstructedQuery.

Section FlowProperties.

Variable environ : gmap string string.
Variable ToLower : string -> string.
Variable signV4TrimAll : string -> string.
Variable EncodePath : string -> string.
Variable range_order : Values -> list (string * list string).
Variable Values_Encode : Values -> string.
Variable time_Parse : string -> string -> option Z.
Variable parseCredentialHeader : string -> string -> credentialHeader * APIErrorCode.
Variable parsePreSignV4 : Values -> string -> preSignValues * APIErrorCode.
Variable parseSignV4 : string -> string -> signValues * APIErrorCode.
Variable extractSignedHeaders : list string -> Request -> Values * APIErrorCode.
Variable credentialHeader_getScope : credentialHeader -> string.
Variable globalServerConfig : serverConfig.
Variable globalMaxSkewTime : Z.
Variable store : CredentialStore.

Let presigned :=
  doesPresignedSignatureMatch environ ToLower signV4TrimAll EncodePath
    range_order Values_Encode parsePreSignV4 extractSignedHeaders
    credentialHeader_getScope globalMaxSkewTime store.

Let header_flow :=
  doesSignatureMatch environ ToLower signV4TrimAll EncodePath range_order
    Values_Encode time_Parse parseSignV4 extractSignedHeaders
    credentialHeader_getScope store.

Let reconstructed := presignedQuery environ ToLower range_order.

Let presigned_signature :=
  presignedSignature environ ToLower signV4TrimAll EncodePath range_order
    Values_Encode credentialHeader_getScope.

Section Presigned.

Variables (now_skew now_expiry : Z) (hashedPayload : string) (r : Request)
          (region : string).
Variables (psv : preSignValues) (userID : string) (cred : Credentials)
          (err : APIErrorCode) (extracted : Values).

Hypothesis Hparse : parsePreSignV4 (URL_Query r) region = (psv, ErrNone).
Hypothesis Hcred :
  getCredentials store (accessKey (Credential (presign psv)))
  = Ret (userID, cred, err).
Hypothesis Hextract :
  extractSignedHeaders (SignedHeaders (presign psv)) r = (extracted, ErrNone).

Let result := presigned now_skew now_expiry hashedPayload r region.
Let query := reconstructed hashedPayload r psv cred extracted.
Let received := URL_Query r.

(** The flow up to the time-window checks. *)
Lemma presigned_time_window :
  result =
    if Time.After (Date psv) (Time.Add now_skew globalMaxSkewTime)
    then Ret (userID, ErrRequestNotReadyYet)
    else if Time.Sub now_expiry (Date psv) >? Expires psv
    then Ret (userID, ErrExpiredPresignRequest)
    else if decide (Values_Get received "X-Amz-Date" <> Values_Get query "X-Amz-Date")
    then Ret (userID, ErrSignatureDoesNotMatch)
    else if decide (Values_Get received "X-Amz-Expires"
                    <> Values_Get query "X-Amz-Expires")
    then Ret (userID, ErrSignatureDoesNotMatch)
    else if decide (Values_Get received "X-Amz-SignedHeaders"
                    <> Values_Get query "X-Amz-SignedHeaders")
    then Ret (userID, ErrSignatureDoesNotMatch)
    else if decide (Values_Get received "X-Amz-Credential"
                    <> Values_Get query "X-Amz-Credential")
    then Ret (userID, ErrSignatureDoesNotMatch)
    else if bool_decide (Values_Get received "X-Amz-Content-Sha256" <> "")
            && bool_decide (Values_Get received "X-Amz-Content-Sha256"
                            <> Values_Get query "X-Amz-Content-Sha256")
    then Ret (userID, ErrContentSHA256Mismatch)
    else if negb (compareSignatureV4 (Values_Get received "X-Amz-Signature")
                    (presigned_signature hashedPayload r psv cred extracted))
    then Ret (userID, ErrSignatureDoesNotMatch)
    else Ret (userID, ErrNone).
Proof.
  pose proof (getCredentials_ErrNone _ _ _ _ _ Hcred) as ->.
  unfold result, presigned, doesPresignedSignatureMatch.
  rewrite Hparse. cbv beta iota.
  destruct (decide (ErrNone <> ErrNone)) as [?|_]; [done|].
  rewrite Hcred. cbv [mbind Outcome_bind]. cbv beta iota.
  destruct (decide (ErrNone <> ErrNone)) as [?|_]; [done|].
  rewrite Hextract. cbv beta iota.
  destruct (decide (ErrNone <> ErrNone)) as [?|_]; [done|].
  reflexivity.
Qed.

Lemma Sub_exact t u :
  Time.minDuration <= t - u <= Time.maxDuration -> Time.Sub t u = t - u.
Proof.
  intros Hrange. unfold Time.Sub.
  destruct (Time.minDuration <=? t - u) eqn:E1;
    destruct (t - u <=? Time.maxDuration) eqn:E2; simpl; lia.
Qed.

Lemma Sub_saturated t u :
  Time.maxDuration < t - u -> Time.Sub t u = Time.maxDuration.
Proof.
  intros Hrange. unfold Time.Sub.
  destruct (Time.minDuration <=? t - u) eqn:E1;
    destruct (t - u <=? Time.maxDuration) eqn:E2;
    destruct (t <? u) eqn:E3; simpl; try lia.
  all: unfold Time.minDuration, Time.maxDuration in *; lia.
Qed.

(** C4: a signing time exactly at now + maxClockSkew passes the skew
    check and one beyond it is rejected with RequestNotReadyYet; an
    age (now minus the signing time) exactly equal to the declared
    expiry passes the expiry check and one beyond it is rejected with
    ExpiredPresignRequest. *)
Theorem presigned_time_window_boundaries :
  (Date psv = Time.Add now_skew globalMaxSkewTime ->
     forall u, result <> Ret (u, ErrRequestNotReadyYet))
  /\ (Time.Add now_skew globalMaxSkewTime < Date psv ->
        result = Ret (userID, ErrRequestNotReadyYet))
  /\ (Date psv <= Time.Add now_skew globalMaxSkewTime ->
      Time.Sub now_expiry (Date psv) = Expires psv ->
        forall u, result <> Ret (u, ErrExpiredPresignRequest))
  /\ (Date psv <= Time.Add now_skew globalMaxSkewTime ->
      Expires psv < Time.Sub now_expiry (Date psv) ->
        result = Ret (userID, ErrExpiredPresignRequest))
  /\ (Time.minDuration <= Expires psv < Time.maxDuration ->
      Date psv <= Time.Add now_skew globalMaxSkewTime ->
        (now_expiry - Date psv = Expires psv ->
           forall u, result <> Ret (u, ErrExpiredPresignRequest))
        /\ (Expires psv < now_expiry - Date psv ->
              result = Ret (userID, ErrExpiredPresignRequest))).
Proof.
  assert (Hpass : Date psv <= Time.Add now_skew globalMaxSkewTime ->
            forall u, result <> Ret (u, ErrRequestNotReadyYet)).
  { intros Hle u. rewrite presigned_time_window. unfold Time.After.
    destruct (Z.ltb_spec (Time.Add now_skew globalMaxSkewTime) (Date psv));
      [lia|].
    repeat case_match; congruence. }
  assert (Hok : Date psv <= Time.Add now_skew globalMaxSkewTime ->
            Time.Sub now_expiry (Date psv) <= Expires psv ->
            forall u, result <> Ret (u, ErrExpiredPresignRequest)).
  { intros Hle Hage u. rewrite presigned_time_window. unfold Time.After.
    destruct (Z.ltb_spec (Time.Add now_skew globalMaxSkewTime) (Date psv));
      [lia|].
    destruct (Z.gtb_spec (Time.Sub now_expiry (Date psv)) (Expires psv));
      [lia|].
    repeat case_match; congruence. }
  assert (Hexpired : Date psv <= Time.Add now_skew globalMaxSkewTime ->
            Expires psv < Time.Sub now_expiry (Date psv) ->
            result = Ret (userID, ErrExpiredPresignRequest)).
  { intros Hle Hage. rewrite presigned_time_window. unfold Time.After.
    destruct (Z.ltb_spec (Time.Add now_skew globalMaxSkewTime) (Date psv));
      [lia|].
    destruct (Z.gtb_spec (Time.Sub now_expiry (Date psv)) (Expires psv));
      [done|lia]. }
  split; [|split; [|split; [|split]]].
  - intros Heq. apply Hpass. lia.
  - intros Hlt. rewrite presigned_time_window. unfold Time.After.
    destruct (Z.ltb_spec (Time.Add now_skew globalMaxSkewTime) (Date psv));
      [done|lia].
  - intros Hle Heq. apply Hok; [done|lia].
  - exact Hexpired.
  - intros Hdur Hle. split.
    + intros Heq. apply Hok; [done|]. rewrite Sub_exact; lia.
    + intros Hlt. apply Hexpired; [done|].
      destruct (Z.le_gt_cases (now_expiry - Date psv) Time.maxDuration).
      * rewrite Sub_exact; lia.
      * rewrite Sub_saturated; lia.
Qed.

(** C2 (amended): once the credential is resolved and the time-window
    checks have passed, a received X-Amz-Date, X-Amz-Expires,
    X-Amz-SignedHeaders or X-Amz-Credential that differs from the
    reconstructed value fails with SignatureDoesNotMatch; when those
    four agree, a non-empty received X-Amz-Content-Sha256 that differs
    from the reconstructed one fails with ContentSHA256Mismatch; only
    when all of them agree is the canonical request built and the
    signature compared. *)
Theorem presigned_query_checks :
  Time.After (Date psv) (Time.Add now_skew globalMaxSkewTime) = false ->
  (Time.Sub now_expiry (Date psv) >? Expires psv) = false ->
  let same (key : string) := Values_Get received key = Values_Get query key in
  let four := same "X-Amz-Date" /\ same "X-Amz-Expires"
              /\ same "X-Amz-SignedHeaders" /\ same "X-Amz-Credential" in
  (~ four -> result = Ret (userID, ErrSignatureDoesNotMatch))
  /\ (four ->
      Values_Get received "X-Amz-Content-Sha256" <> "" ->
      ~ same "X-Amz-Content-Sha256" ->
      result = Ret (userID, ErrContentSHA256Mismatch))
  /\ (four ->
      Values_Get received "X-Amz-Content-Sha256" = ""
        \/ same "X-Amz-Content-Sha256" ->
      result =
        Ret (userID,
             if compareSignatureV4 (Values_Get received "X-Amz-Signature")
                  (presigned_signature hashedPayload r psv cred extracted)
             then ErrNone else ErrSignatureDoesNotMatch)).
Proof.
  intros Hskew Hexpiry same four.
  rewrite presigned_time_window, Hskew, Hexpiry.
  fold received query. subst four same. cbv beta.
  split; [|split].
  - intros Hnot.
    case_decide as E1; [reflexivity|].
    case_decide as E2; [reflexivity|].
    case_decide as E3; [reflexivity|].
    case_decide as E4; [reflexivity|].
    by destruct Hnot.
  - intros (H1 & H2 & H3 & H4) Hpresent Hdiff.
    repeat (case_decide; [congruence|]).
    rewrite !bool_decide_eq_true_2 by done. reflexivity.
  - intros (H1 & H2 & H3 & H4) Hcontent.
    repeat (case_decide; [congruence|]).
    assert (bool_decide (Values_Get received "X-Amz-Content-Sha256" <> "")
            && bool_decide (Values_Get received "X-Amz-Content-Sha256"
                            <> Values_Get query "X-Amz-Content-Sha256")
            = false) as ->.
    { destruct Hcontent as [Hempty|Hsame].
      - rewrite (bool_decide_eq_false_2 _) by (intros ?; done). reflexivity.
      - rewrite (bool_decide_eq_false_2 (_ <> Values_Get query _))
          by (intros ?; done).
        apply andb_false_r. }
    by destruct (compareSignatureV4 _ _).
Qed.

End Presigned.

(** Whatever the store holds, the only codes the two flows can return
    after the parsers succeeded exclude InvalidAccessKeyID: the branch
    that reports it is never taken. *)
Lemma header_flow_unknown_key hashedPayload r region sv extracted :
  parseSignV4 (Header_Get (Header r) "Authorization") region = (sv, ErrNone) ->
  extractSignedHeaders (SignedHeaders sv) r = (extracted, ErrNone) ->
  users_keys store !! accessKey (Credential sv) = None ->
  header_flow hashedPayload r region = Panic "makeslice: len out of range".
Proof.
  intros Hparse Hextract Hmissing.
  unfold header_flow, doesSignatureMatch.
  rewrite Hparse. cbv beta iota.
  destruct (decide (ErrNone <> ErrNone)) as [?|_]; [done|].
  rewrite Hextract. cbv beta iota.
  destruct (decide (ErrNone <> ErrNone)) as [?|_]; [done|].
  by rewrite (getCredentials_unknown _ _ Hmissing).
Qed.

Lemma header_flow_never_InvalidAccessKeyID hashedPayload r region sv extracted :
  parseSignV4 (Header_Get (Header r) "Authorization") region = (sv, ErrNone) ->
  extractSignedHeaders (SignedHeaders sv) r = (extracted, ErrNone) ->
  forall u, header_flow hashedPayload r region <> Ret (u, ErrInvalidAccessKeyID).
Proof.
  intros Hparse Hextract u.
  unfold header_flow, doesSignatureMatch.
  rewrite Hparse. cbv beta iota.
  destruct (decide (ErrNone <> ErrNone)) as [?|_]; [done|].
  rewrite Hextract. cbv beta iota.
  destruct (decide (ErrNone <> ErrNone)) as [?|_]; [done|].
  destruct (getCredentials store (accessKey (Credential sv)))
    as [reason|[[userID cred] err]] eqn:Hcred; [done|].
  pose proof (getCredentials_ErrNone _ _ _ _ _ Hcred) as ->.
  cbv [mbind Outcome_bind]. cbv beta iota.
  repeat case_match; congruence.
Qed.

Lemma presigned_unknown_key now_skew now_expiry hashedPayload r region psv :
  parsePreSignV4 (URL_Query r) region = (psv, ErrNone) ->
  users_keys store !! accessKey (Credential (presign psv)) = None ->
  presigned now_skew now_expiry hashedPayload r region
  = Panic "makeslice: len out of range".
Proof.
  intros Hparse Hmissing.
  unfold presigned, doesPresignedSignatureMatch.
  rewrite Hparse. cbv beta iota.
  destruct (decide (ErrNone <> ErrNone)) as [?|_]; [done|].
  by rewrite (getCredentials_unknown _ _ Hmissing).
Qed.

(** C10: the POST-policy check uses the one server-configured
    credential.  A credential tag that does not parse is answered with
    MissingFields, before any key is compared.  For a tag that parses, a
    claimed access key other than the configured one fails with
    InvalidAccessKeyID; otherwise the signing key comes from the
    configured secret key and the signature is computed over the raw
    Policy value.  The function takes no credential store. *)
Theorem doesPolicySignatureV4Match_spec (formValues : Values)
    (credHeader : credentialHeader) (err : APIErrorCode) :
  parseCredentialHeader
    ("Credential=" +:+ Header_Get formValues "X-Amz-Credential")
    (GetRegion globalServerConfig) = (credHeader, err) ->
  let cred := GetCredential globalServerConfig in
  let verdict :=
    doesPolicySignatureV4Match environ parseCredentialHeader
      globalServerConfig formValues in
  (err <> ErrNone -> verdict = ErrMissingFields)
  /\ (err = ErrNone -> accessKey credHeader <> AccessKey cred ->
      verdict = ErrInvalidAccessKeyID)
  /\ (err = ErrNone -> accessKey credHeader = AccessKey cred ->
      verdict =
        if compareSignatureV4
             (getSignature
                (getSigningKey environ (SecretKey cred)
                   (scope_date (scope credHeader))
                   (scope_region (scope credHeader)))
                (Header_Get formValues "Policy"))
             (Header_Get formValues "X-Amz-Signature")
        then ErrNone else ErrSignatureDoesNotMatch).
Proof.
  intros Hparse cred verdict. subst verdict.
  unfold doesPolicySignatureV4Match. rewrite Hparse. cbv beta iota.
  fold cred. split; [|split].
  - intros Herr. by rewrite decide_True.
  - intros -> Hkey.
    destruct (decide (ErrNone <> ErrNone)) as [?|_]; [done|].
    by rewrite decide_True.
  - intros -> Hkey.
    destruct (decide (ErrNone <> ErrNone)) as [?|_]; [done|].
    rewrite decide_False by (intros ?; done).
    by destruct (compareSignatureV4 _ _).
Qed.

Lemma doesPolicySignatureV4Match_unparsed (formValues : Values)
    (credHeader : credentialHeader) (err : APIErrorCode) :
  parseCredentialHeader
    ("Credential=" +:+ Header_Get formValues "X-Amz-Credential")
    (GetRegion globalServerConfig) = (credHeader, err) ->
  err <> ErrNone ->
  doesPolicySignatureV4Match environ parseCredentialHeader
    globalServerConfig formValues = ErrMissingFields.
Proof.
  intros Hparse Herr. unfold doesPolicySignatureV4Match.
  rewrite Hparse. cbv beta iota. by rewrite decide_True.
Qed.

End FlowProperties.

(** ** The authentication backend *)

(** C9: [DummyBackend.GetUser] answers every request with the identity
    "tester" and [ErrNone], whatever the Signature V4 check would say, and
    a server configured from an environment that does not set
    AUTH_BACKEND authenticates every request that way. *)
Theorem default_backend_accepts_every_request
    (ReqSignatureV4Verify : Request -> string -> Outcome (string * APIErrorCode))
    (environ : gmap string string) (previous : option Config.ServerConfig)
    (r : Request) :
  Config.GetUser Config.mkDummyBackend r = Ret ("tester", ErrNone)
  /\ (environ !! "AUTH_BACKEND" = None ->
      (exists config,
         Config.SetServerConfig environ previous = Some config
         /\ Config.AuthBackend config = Config.Dummy Config.mkDummyBackend)
      /\ Config.authenticate ReqSignatureV4Verify
           (Config.SetServerConfig environ previous) r
         = Ret ("tester", ErrNone)).
Proof.
  split; [reflexivity|].
  intros Hunset.
  assert (Hbackend :
    Config.SetAuthBackend (GetEnv environ "AUTH_BACKEND" "DummyBackend")
    = Config.Dummy Config.mkDummyBackend).
  { unfold GetEnv. rewrite Hunset. vm_compute. reflexivity. }
  split.
  - eexists. split; [reflexivity|]. exact Hbackend.
  - unfold Config.authenticate, Config.GetServerConfig, Config.SetServerConfig.
    cbn [Config.AuthBackend]. rewrite Hbackend. reflexivity.
Qed.

Lemma default_backend_accepts_every_request_witness :
  Config.authenticate (fun _ _ => Ret ("", ErrSignatureDoesNotMatch))
    (Config.SetServerConfig ∅ None)
    (Example.headerRequest "UNKNOWN" "00")
  = Ret ("tester", ErrNone).
Proof.
  apply (default_backend_accepts_every_request
           (fun _ _ => Ret ("", ErrSignatureDoesNotMatch)) ∅ None
           (Example.headerRequest "UNKNOWN" "00")).
  vm_compute. reflexivity.
Defined.

(** With AUTH_BACKEND set to "CephBackend" the check is the Signature V4
    one; with any other name the backend is a nil interface. *)
Example ceph_backend_verifies
    (ReqSignatureV4Verify : Request -> string -> Outcome (string * APIErrorCode))
    (r : Request) :
  Config.authenticate ReqSignatureV4Verify
    (Config.SetServerConfig {[ "AUTH_BACKEND" := "CephBackend" ]} None) r
  = '(userId, err) ← ReqSignatureV4Verify r "us-east-1"; Ret (userId, err).
Proof. reflexivity. Qed.

Example unknown_backend_is_nil :
  Config.SetAuthBackend "LdapBackend" = Config.nil_backend.
Proof. vm_compute. reflexivity. Qed.

(** ** Worked examples *)

Section Examples.

Import Reference Example ExampleParsed.

Lemma Reference_range_order_perm (m : Values) : range_order m ≡ₚ map_to_list m.
Proof. reflexivity. Qed.

Lemma range_backwards_perm (m : Values) : range_backwards m ≡ₚ map_to_list m.
Proof. unfold range_backwards. apply reverse_Permutation. Qed.

Lemma Reference_ToLower_amz key :
  key ∈ ["X-Amz-Date"; "X-Amz-Expires"; "X-Amz-SignedHeaders";
         "X-Amz-Credential"; "X-Amz-Content-Sha256"] ->
  Strings.HasPrefix (ToLower key) "x-amz" = true.
Proof.
  intros Hkey. repeat (apply elem_of_cons in Hkey as [->|Hkey]; [reflexivity|]).
  by apply elem_of_nil in Hkey.
Qed.

Example canonical_request_example :
  getCanonicalRequest ToLower signV4TrimAll EncodePath range_order
    plainHeaders "UNSIGNED-PAYLOAD" "a=b+c&d=%2B" "/my bucket/k" "GET"
  = "GET" +:+ LF +:+ "/my%20bucket/k" +:+ LF +:+ "a=b%20c&d=%2B" +:+ LF
    +:+ "accept:a b,c" +:+ LF +:+ "host:example.com" +:+ LF
    +:+ "x-amz-date:20150830T123600Z" +:+ LF +:+ LF
    +:+ "accept;host;x-amz-date" +:+ LF +:+ "UNSIGNED-PAYLOAD".
Proof. vm_compute. reflexivity. Qed.

Let verify (now : Z) (query : Values) :=
  verifyPresigned ∅ store now emptyPayloadHash (presignedRequest query).

(** A presigned request with X-Amz-Expires=900 is accepted 899 seconds
    after its signing time and rejected 901 seconds after it. *)
Example presigned_end_to_end :
  verify (signingTime + 899 * Time.Second) (presignedQueryOf presignedSignatureHex)
    = Ret ("tester", ErrNone)
  /\ verify (signingTime + 901 * Time.Second) (presignedQueryOf presignedSignatureHex)
    = Ret ("tester", ErrExpiredPresignRequest).
Proof. split; vm_compute; reflexivity. Qed.

(** The header-authenticated request is accepted; with another host it
    is rejected. *)
Example header_end_to_end :
  let r := headerRequest "AKIDEXAMPLE" headerSignatureHex in
  verifyHeader ∅ store emptyPayloadHash r = Ret ("tester", ErrNone)
  /\ verifyHeader ∅ store emptyPayloadHash
       {| Method := Method r; Host := "example.org"; URL_Path := URL_Path r;
          URL_Query := URL_Query r; Header := Header r |}
     = Ret ("tester", ErrSignatureDoesNotMatch).
Proof. split; vm_compute; reflexivity. Qed.

End Examples.

(** Closed goals about the worked examples are settled by evaluation. *)
Ltac by_evaluation :=
  vm_compute; repeat split;
  first [ reflexivity | let H := fresh in intros H; discriminate H ].

Section Witnesses.

Import Reference Example ExampleParsed.

(** *** Canonical request *)

Lemma getCanonicalRequest_contract_witness :
  getCanonicalRequest ToLower signV4TrimAll EncodePath range_order
    plainHeaders "UNSIGNED-PAYLOAD" "a=b+c&d=%2B" "/my bucket/k" "GET"
  = canonical_request_contract ToLower signV4TrimAll EncodePath
      plainHeaders "UNSIGNED-PAYLOAD" "a=b+c&d=%2B" "/my bucket/k" "GET".
Proof.
  apply (getCanonicalRequest_contract ToLower signV4TrimAll EncodePath
           range_order Reference_range_order_perm plainHeaders).
  unfold case_distinct. apply (bool_decide_unpack _). vm_compute. exact I.
Defined.

(** C5, as stated, fails on a header map with two names that differ in
    case only: both lines of the header block carry the values of the
    entry visited last, in either visiting order, so the block is not one
    line per header with that header's values. *)
Lemma getCanonicalRequest_case_collision :
  (getCanonicalRequest ToLower signV4TrimAll EncodePath range_order
     collidingHeaders "UNSIGNED-PAYLOAD" "" "/" "GET"
   <> canonical_request_contract ToLower signV4TrimAll EncodePath
        collidingHeaders "UNSIGNED-PAYLOAD" "" "/" "GET")
  /\ (getCanonicalRequest ToLower signV4TrimAll EncodePath range_backwards
        collidingHeaders "UNSIGNED-PAYLOAD" "" "/" "GET"
      <> canonical_request_contract ToLower signV4TrimAll EncodePath
           collidingHeaders "UNSIGNED-PAYLOAD" "" "/" "GET")
  /\ getCanonicalHeaders ToLower signV4TrimAll range_order collidingHeaders
     = "host:a" +:+ LF +:+ "host:a" +:+ LF
  /\ getCanonicalHeaders ToLower signV4TrimAll range_backwards collidingHeaders
     = "host:b" +:+ LF +:+ "host:b" +:+ LF.
Proof.
  split; [|split; [|split]].
  - vm_compute. intros Hne. discriminate Hne.
  - vm_compute. intros Hne. discriminate Hne.
  - vm_compute. reflexivity.
  - vm_compute. reflexivity.
Qed.

(** *** Presigned flow *)

Let verify (now : Z) (hashedPayload : string) (query : Values) :=
  verifyPresigned ∅ store now hashedPayload (presignedRequest query).

Lemma presigned_time_window_boundaries_witness :
  let query := presignedQueryOf presignedSignatureHex in
  (forall u, verify (signingTime - maxSkew) emptyPayloadHash query
             <> Ret (u, ErrRequestNotReadyYet))
  /\ verify (signingTime - maxSkew - Time.Nanosecond) emptyPayloadHash query
     = Ret ("tester", ErrRequestNotReadyYet)
  /\ (forall u, verify (signingTime + 900 * Time.Second) emptyPayloadHash query
                <> Ret (u, ErrExpiredPresignRequest))
  /\ verify (signingTime + 900 * Time.Second + Time.Nanosecond)
       emptyPayloadHash query
     = Ret ("tester", ErrExpiredPresignRequest).
Proof.
  intros query.
  pose (boundaries := fun now : Z =>
    presigned_time_window_boundaries ∅ ToLower signV4TrimAll EncodePath
      range_order Values_Encode parsePreSignV4 extractSignedHeaders
      credentialHeader_getScope maxSkew store now now emptyPayloadHash
      (presignedRequest query) "us-east-1" (parsedOf query) "tester"
      (GetCredential config) ErrNone
      (extractedOf ["host"] (presignedRequest query))).
  split; [|split; [|split]].
  - apply (boundaries (signingTime - maxSkew)); by_evaluation.
  - apply (boundaries (signingTime - maxSkew - Time.Nanosecond));
      by_evaluation.
  - apply (boundaries (signingTime + 900 * Time.Second)); by_evaluation.
  - apply (boundaries (signingTime + 900 * Time.Second + Time.Nanosecond));
      by_evaluation.
Defined.

Lemma presigned_query_checks_witness :
  verify signingTime emptyPayloadHash
    (<["X-Amz-Expires" := ["0900"]]> (presignedQueryOf presignedSignatureHex))
    = Ret ("tester", ErrSignatureDoesNotMatch)
  /\ verify signingTime emptyPayloadHash
       (<["X-Amz-Content-Sha256" := ["UNSIGNED-PAYLOAD"]]>
          (presignedQueryOf presignedSignatureHex))
     = Ret ("tester", ErrContentSHA256Mismatch)
  /\ verify signingTime emptyPayloadHash (presignedQueryOf presignedSignatureHex)
     = Ret ("tester", ErrNone).
Proof.
  pose (checks := fun (now : Z) (hashedPayload : string) (query : Values) =>
    presigned_query_checks ∅ ToLower signV4TrimAll EncodePath range_order
      Values_Encode parsePreSignV4 extractSignedHeaders
      credentialHeader_getScope maxSkew store now now hashedPayload
      (presignedRequest query) "us-east-1" (parsedOf query) "tester"
      (GetCredential config) ErrNone
      (extractedOf ["host"] (presignedRequest query))).
  split; [|split].
  - apply (checks signingTime emptyPayloadHash
             (<["X-Amz-Expires" := ["0900"]]>
                (presignedQueryOf presignedSignatureHex)));
      try by_evaluation.
    vm_compute. intros (_ & Hexpires & _). discriminate Hexpires.
  - apply (checks signingTime emptyPayloadHash
             (<["X-Amz-Content-Sha256" := ["UNSIGNED-PAYLOAD"]]>
                (presignedQueryOf presignedSignatureHex)));
      by_evaluation.
  - etransitivity.
    + apply (checks signingTime emptyPayloadHash
               (presignedQueryOf presignedSignatureHex));
        try by_evaluation.
      left. by_evaluation.
    + by_evaluation.
Defined.

(** C2, as stated, fails: a received X-Amz-Content-Sha256 that differs
    from the reconstructed value is answered with ContentSHA256Mismatch,
    not with SignatureDoesNotMatch. *)
Lemma presigned_content_hash_mismatch_code :
  let query := <["X-Amz-Content-Sha256" := ["UNSIGNED-PAYLOAD"]]>
                 (presignedQueryOf presignedSignatureHex) in
  let r := presignedRequest query in
  let rebuilt :=
    presignedQuery ∅ ToLower range_order emptyPayloadHash r (parsedOf query)
      (GetCredential config) (extractedOf ["host"] r) in
  Values_Get (URL_Query r) "X-Amz-Content-Sha256"
    <> Values_Get rebuilt "X-Amz-Content-Sha256"
  /\ verify signingTime emptyPayloadHash query
     = Ret ("tester", ErrContentSHA256Mismatch)
  /\ verify signingTime emptyPayloadHash query
     <> Ret ("tester", ErrSignatureDoesNotMatch).
Proof.
  split; [|split].
  - vm_compute. intros Hne. discriminate Hne.
  - vm_compute. reflexivity.
  - vm_compute. intros Hne. discriminate Hne.
Qed.

(** *** Credential lookup *)

(** C3 fails on the code: for an access key the store does not know,
    neither flow returns InvalidAccessKeyID; the call panics in
    [getCredentials]. *)
Theorem unknown_access_key_is_not_reported :
  verifyHeader ∅ store emptyPayloadHash (headerRequest "UNKNOWN" headerSignatureHex)
    = Panic "makeslice: len out of range"
  /\ verify signingTime emptyPayloadHash
       (<["X-Amz-Credential" := ["UNKNOWN/20150830/us-east-1/s3/aws4_request"]]>
          (presignedQueryOf presignedSignatureHex))
     = Panic "makeslice: len out of range".
Proof. split; vm_compute; reflexivity. Qed.

(** A key object whose user has no listed keys panics as well. *)
Example user_without_keys_panics :
  getCredentials
    {| users_keys := users_keys store; user_secret_keys := ∅ |} "AKIDEXAMPLE"
  = Panic "index out of range [0] with length 0".
Proof. vm_compute. reflexivity. Qed.

(** *** POST policy *)

Lemma doesPolicySignatureV4Match_spec_witness :
  verifyPolicy ∅ (shortDateForm "eyJ9" policySignatureHex) = ErrMissingFields
  /\ verifyPolicy ∅ (policyForm "OTHERKEY" "eyJ9" policySignatureHex)
     = ErrInvalidAccessKeyID
  /\ verifyPolicy ∅ (policyForm "AKIDEXAMPLE" "eyJ9" policySignatureHex)
     = ErrNone.
Proof.
  unfold verifyPolicy. split; [|split].
  - destruct (doesPolicySignatureV4Match_spec ∅ parseCredentialHeader config
                (shortDateForm "eyJ9" policySignatureHex)
                zero_credentialHeader ErrMalformedCredentialDate
                ltac:(by_evaluation)) as (Hunparsed & _ & _).
    apply Hunparsed. by_evaluation.
  - destruct (doesPolicySignatureV4Match_spec ∅ parseCredentialHeader config
                (policyForm "OTHERKEY" "eyJ9" policySignatureHex)
                (parseCredentialHeader
                   "Credential=OTHERKEY/20150830/us-east-1/s3/aws4_request"
                   "us-east-1").1 ErrNone ltac:(by_evaluation))
      as (_ & Hother & _).
    apply Hother; by_evaluation.
  - destruct (doesPolicySignatureV4Match_spec ∅ parseCredentialHeader config
                (policyForm "AKIDEXAMPLE" "eyJ9" policySignatureHex)
                (parseCredentialHeader
                   "Credential=AKIDEXAMPLE/20150830/us-east-1/s3/aws4_request"
                   "us-east-1").1 ErrNone ltac:(by_evaluation))
      as (_ & _ & Hsame).
    rewrite Hsame by by_evaluation. by_evaluation.
Defined.

(** A form that names another access key in a tag that does not parse
    is not answered with InvalidAccessKeyID: the parse error comes
    first and is reported as MissingFields. *)
Lemma policy_unparsed_tag_other_key :
  "OTHERKEY" <> AccessKey (GetCredential config)
  /\ (parseCredentialHeader
        ("Credential=" +:+
         Header_Get (shortDateForm "eyJ9" policySignatureHex) "X-Amz-Credential")
        (GetRegion config)).2 = ErrMalformedCredentialDate
  /\ verifyPolicy ∅ (shortDateForm "eyJ9" policySignatureHex) = ErrMissingFields
  /\ verifyPolicy ∅ (shortDateForm "eyJ9" policySignatureHex)
     <> ErrInvalidAccessKeyID.
Proof. by_evaluation. Qed.

End Witnesses.

(* ===================================================================== *)
(** * Further properties of the verification code *)
(* ===================================================================== *)

(** ** Signatures *)

Lemma compareSignatureV4_true (sig1 sig2 : string) :
  compareSignatureV4 sig1 sig2 = true <-> sig1 = sig2.
Proof.
  unfold compareSignatureV4. rewrite Z.eqb_eq.
  rewrite ConstantTimeCompare_spec by apply bytes_of_string_range.
  split; [apply bytes_of_string_inj | by intros ->].
Qed.

Lemma getSignature_length signingKey stringToSign :
  String.length (getSignature signingKey stringToSign) = 64%nat.
Proof.
  unfold getSignature. by rewrite EncodeToString_length, sumHMAC_length.
Qed.

Lemma getSignature_lower_hex signingKey stringToSign :
  string_forallb is_lower_hex (getSignature signingKey stringToSign) = true.
Proof. apply EncodeToString_lower_hex, sumHMAC_range. Qed.

(** X2: a supplied signature is accepted against a computed one only if
    it is 64 lower-case hexadecimal digits; a signature in upper case or
    of another length never compares equal. *)
Theorem accepted_signature_shape (signingKey : list Z)
    (stringToSign supplied : string) :
  compareSignatureV4 (getSignature signingKey stringToSign) supplied = true ->
  String.length supplied = 64%nat
  /\ string_forallb is_lower_hex supplied = true.
Proof.
  intros Heq%compareSignatureV4_true. subst supplied.
  split; [apply getSignature_length | apply getSignature_lower_hex].
Qed.

Lemma accepted_signature_shape_witness :
  String.length ExampleParsed.policySignatureHex = 64%nat
  /\ string_forallb is_lower_hex ExampleParsed.policySignatureHex = true.
Proof.
  apply (accepted_signature_shape
           (getSigningKey ∅ "wJalrXUtnFEMI/K7MDENG+bPxRfiCYEXAMPLEKEY"
              Example.signingTime "us-east-1")
           "eyJ9" ExampleParsed.policySignatureHex).
  vm_compute. reflexivity.
Defined.

(** ** Signed-header list *)

(** X1: the signed-header list is the same whatever order the map is
    visited in, also when names collide after lower-casing. *)
Theorem getSignedHeaders_order_independent (ToLower : string -> string)
    (order1 order2 : Values -> list (string * list string)) (h : Values) :
  (forall m : Values, order1 m ≡ₚ map_to_list m) ->
  (forall m : Values, order2 m ≡ₚ map_to_list m) ->
  getSignedHeaders ToLower order1 h = getSignedHeaders ToLower order2 h.
Proof.
  intros H1 H2.
  rewrite (getSignedHeaders_contract ToLower order1 H1).
  by rewrite (getSignedHeaders_contract ToLower order2 H2).
Qed.

Lemma getSignedHeaders_order_independent_witness :
  getSignedHeaders Reference.ToLower Reference.range_order
    ExampleParsed.collidingHeaders
  = getSignedHeaders Reference.ToLower ExampleParsed.range_backwards
      ExampleParsed.collidingHeaders.
Proof.
  apply (getSignedHeaders_order_independent Reference.ToLower
           Reference.range_order ExampleParsed.range_backwards
           ExampleParsed.collidingHeaders).
  - intros m. reflexivity.
  - intros m. unfold ExampleParsed.range_backwards. apply reverse_Permutation.
Defined.

(** ** Query canonicalisation *)

Lemma plus_to_percent20_no_plus (s : string) :
  string_forallb (fun c => negb (Ascii.eqb c "+")) (plus_to_percent20 s) = true.
Proof.
  induction s as [|c s IH]; [done|].
  cbn [plus_to_percent20]. destruct (Ascii.eqb c "+") eqn:E.
  - exact IH.
  - cbn [string_forallb]. by rewrite E, IH.
Qed.

Lemma plus_to_percent20_fixed (s : string) :
  string_forallb (fun c => negb (Ascii.eqb c "+")) s = true ->
  plus_to_percent20 s = s.
Proof.
  induction s as [|c s IH]; [done|].
  cbn [string_forallb plus_to_percent20].
  intros [Hc Hs]%andb_true_iff. apply negb_true_iff in Hc.
  by rewrite Hc, IH.
Qed.

(** X9: the canonical request cannot tell a '+' of the query string from
    "%20": replacing them beforehand leaves the canonical request
    unchanged, and no '+' of the query string survives. *)
Theorem getCanonicalRequest_plus_blind
    (ToLower signV4TrimAll EncodePath : string -> string)
    (range_order : Values -> list (string * list string))
    (h : Values) (payload queryStr urlPath method : string) :
  let rawQuery := Strings.ReplaceAll queryStr "+" "%20" in
  getCanonicalRequest ToLower signV4TrimAll EncodePath range_order
    h payload rawQuery urlPath method
  = getCanonicalRequest ToLower signV4TrimAll EncodePath range_order
      h payload queryStr urlPath method
  /\ string_forallb (fun c => negb (Ascii.eqb c "+")) rawQuery = true.
Proof.
  intros rawQuery. subst rawQuery. rewrite !ReplaceAll_plus. split.
  - unfold getCanonicalRequest. rewrite !ReplaceAll_plus.
    by rewrite (plus_to_percent20_fixed _ (plus_to_percent20_no_plus queryStr)).
  - apply plus_to_percent20_no_plus.
Qed.

(** ** The credential store *)

(** X8: [getCredentials] returns exactly when the key object exists with
    at least four bytes (and a length [make] accepts) and the user named
    by the bytes after the fourth lists a key; it then returns that user,
    the requested access key with the user's first secret key, and
    [ErrNone].  An object's size fits a [uint64]. *)
Theorem getCredentials_returns (store : CredentialStore) (key userID : string)
    (cred : Credentials) (err : APIErrorCode) :
  (forall object, users_keys store !! key = Some object ->
     Z.of_nat (String.length object) < 2 ^ 64) ->
  getCredentials store key = Ret (userID, cred, err)
  <-> exists (object secret : string) (others : list string),
        users_keys store !! key = Some object
        /\ 4 <= Z.of_nat (String.length object) <= maxAlloc + 4
        /\ userID = Strings.drop 4 object
        /\ user_secret_keys store !! userID = Some (secret :: others)
        /\ cred = {| AccessKey := key; SecretKey := secret |}
        /\ err = ErrNone.
Proof.
  intros Hsize. unfold getCredentials. split.
  - destruct (users_keys store !! key) as [object|] eqn:Hobj; simpl.
    + specialize (Hsize object eq_refl).
      destruct (Z.ltb_spec maxAlloc ((Z.of_nat (String.length object) - 4) mod 2 ^ 64))
        as [Hbig|Hfit]; [done|].
      destruct (user_secret_keys store !! Strings.drop 4 object)
        as [[|secret others]|] eqn:Hkeys; simpl; try done.
      intros [= <- <- <-]. exists object, secret, others.
      assert (Hlen : 4 <= Z.of_nat (String.length object) <= maxAlloc + 4).
      { destruct (Z.le_gt_cases 4 (Z.of_nat (String.length object))) as [H4|H4].
        - rewrite Z.mod_small in Hfit by lia. lia.
        - rewrite <- (Z_mod_plus_full _ 1) in Hfit.
          rewrite Z.mod_small in Hfit; unfold maxAlloc in *; lia. }
      done.
    + intros Hret. exfalso. revert Hret. vm_compute. done.
  - intros (object & secret & others & Hobj & Hlen & -> & Hkeys & -> & ->).
    rewrite Hobj. simpl.
    rewrite Z.mod_small by (unfold maxAlloc in *; lia).
    destruct (Z.ltb_spec maxAlloc (Z.of_nat (String.length object) - 4));
      [lia|].
    by rewrite Hkeys.
Qed.

Lemma getCredentials_returns_witness :
  getCredentials Example.store "AKIDEXAMPLE"
  = Ret ("tester",
         {| AccessKey := "AKIDEXAMPLE";
            SecretKey := "wJalrXUtnFEMI/K7MDENG+bPxRfiCYEXAMPLEKEY" |}, ErrNone).
Proof.
  apply (getCredentials_returns Example.store "AKIDEXAMPLE").
  - intros object Hobj. vm_compute in Hobj. injection Hobj as <-.
    vm_compute. reflexivity.
  - eexists _, _, _. repeat split; by_evaluation.
Defined.

(** ** The flows: what acceptance means *)

Section FlowAcceptance.

Variable environ : gmap string string.
Variable ToLower : string -> string.
Variable signV4TrimAll : string -> string.
Variable EncodePath : string -> string.
Variable range_order : Values -> list (string * list string).
Variable Values_Encode : Values -> string.
Variable time_Parse : string -> string -> option Z.
Variable parseCredentialHeader : string -> string -> credentialHeader * APIErrorCode.
Variable parsePreSignV4 : Values -> string -> preSignValues * APIErrorCode.
Variable parseSignV4 : string -> string -> signValues * APIErrorCode.
Variable extractSignedHeaders : list string -> Request -> Values * APIErrorCode.
Variable credentialHeader_getScope : credentialHeader -> string.
Variable globalServerConfig : serverConfig.
Variable globalMaxSkewTime : Z.
Variable store : CredentialStore.

(** X3: the POST-policy check answers [ErrNone] exactly when the
    credential tag parses, its access key is the configured one, and the
    supplied X-Amz-Signature is the signature of the raw Policy value
    under the configured secret key and the tag's date and region. *)
Theorem doesPolicySignatureV4Match_accepts (formValues : Values) :
  doesPolicySignatureV4Match environ parseCredentialHeader
    globalServerConfig formValues = ErrNone
  <-> exists credHeader,
        parseCredentialHeader
          ("Credential=" +:+ Header_Get formValues "X-Amz-Credential")
          (GetRegion globalServerConfig) = (credHeader, ErrNone)
        /\ accessKey credHeader = AccessKey (GetCredential globalServerConfig)
        /\ Header_Get formValues "X-Amz-Signature"
           = getSignature
               (getSigningKey environ
                  (SecretKey (GetCredential globalServerConfig))
                  (scope_date (scope credHeader))
                  (scope_region (scope credHeader)))
               (Header_Get formValues "Policy").
Proof.
  unfold doesPolicySignatureV4Match.
  destruct (parseCredentialHeader _ _) as [credHeader err] eqn:Hparse.
  split.
  - case_decide as Herr; [done|]. subst err.
    case_decide as Hkey; [done|].
    destruct (compareSignatureV4 _ _) eqn:Hcmp; [|done].
    intros _. exists credHeader. apply compareSignatureV4_true in Hcmp.
    by rewrite <- Hcmp.
  - intros (credHeader' & [= <- ->] & Hkey & Hsig).
    rewrite decide_False by (intros ?; done).
    rewrite decide_False by (intros ?; done).
    rewrite Hsig.
    by rewrite (proj2 (compareSignatureV4_true _ _) eq_refl).
Qed.

Section Header.

Variables (hashedPayload : string) (r : Request) (region : string).
Variables (sv : signValues) (extracted : Values) (userID : string)
          (cred : Credentials) (err : APIErrorCode).

Hypothesis Hparse :
  parseSignV4 (Header_Get (Header r) "Authorization") region = (sv, ErrNone).
Hypothesis Hextract :
  extractSignedHeaders (SignedHeaders sv) r = (extracted, ErrNone).
Hypothesis Hcred :
  getCredentials store (accessKey (Credential sv)) = Ret (userID, cred, err).

Let result :=
  doesSignatureMatch environ ToLower signV4TrimAll EncodePath range_order
    Values_Encode time_Parse parseSignV4 extractSignedHeaders
    credentialHeader_getScope store hashedPayload r region.

(** The date the header flow signs with: X-Amz-Date, or Date when
    X-Amz-Date is absent or empty. *)
Let date :=
  if decide (Header_Get (Header r) "X-Amz-Date" = "")
  then Header_Get (Header r) "Date"
  else Header_Get (Header r) "X-Amz-Date".

Let headerSignature (t : Z) : string :=
  getSignature
    (getSigningKey environ (SecretKey cred)
       (scope_date (scope (Credential sv)))
       (scope_region (scope (Credential sv))))
    (getStringToSign
       (getCanonicalRequest ToLower signV4TrimAll EncodePath range_order
          extracted hashedPayload (Values_Encode (URL_Query r))
          (URL_Path r) (Method r))
       t (credentialHeader_getScope (Credential sv))).

Lemma header_flow_tail :
  result =
    if decide (date = "") then Ret (userID, ErrMissingDateHeader)
    else match time_Parse iso8601Format date with
         | None => Ret (userID, ErrMalformedDate)
         | Some t =>
             if negb (compareSignatureV4 (headerSignature t) (Signature sv))
             then Ret (userID, ErrSignatureDoesNotMatch)
             else Ret (userID, ErrNone)
         end.
Proof.
  pose proof (getCredentials_ErrNone _ _ _ _ _ Hcred) as ->.
  unfold result, doesSignatureMatch.
  rewrite Hparse. cbv beta iota.
  destruct (decide (ErrNone <> ErrNone)) as [?|_]; [done|].
  rewrite Hextract. cbv beta iota.
  destruct (decide (ErrNone <> ErrNone)) as [?|_]; [done|].
  rewrite Hcred. cbv [mbind Outcome_bind]. cbv beta iota.
  destruct (decide (ErrNone <> ErrNone)) as [?|_]; [done|].
  reflexivity.
Qed.

(** X4: in the header flow the date is taken from X-Amz-Date and from
    Date only when X-Amz-Date is absent or empty; with neither the
    answer is MissingDateHeader, and with a date that does not parse
    it is MalformedDate, whatever the signature. *)
Theorem header_flow_date_errors :
  (Header_Get (Header r) "X-Amz-Date" = "" ->
   Header_Get (Header r) "Date" = "" ->
   result = Ret (userID, ErrMissingDateHeader))
  /\ (Header_Get (Header r) "X-Amz-Date" <> "" ->
      time_Parse iso8601Format (Header_Get (Header r) "X-Amz-Date") = None ->
      result = Ret (userID, ErrMalformedDate))
  /\ (Header_Get (Header r) "X-Amz-Date" = "" ->
      Header_Get (Header r) "Date" <> "" ->
      time_Parse iso8601Format (Header_Get (Header r) "Date") = None ->
      result = Ret (userID, ErrMalformedDate)).
Proof.
  rewrite header_flow_tail. unfold date. split; [|split].
  - intros Hamz Hdate.
    destruct (decide (Header_Get (Header r) "X-Amz-Date" = "")); [|done].
    by destruct (decide (Header_Get (Header r) "Date" = "")).
  - intros Hamz Hbad.
    destruct (decide (Header_Get (Header r) "X-Amz-Date" = "")); [done|].
    destruct (decide (Header_Get (Header r) "X-Amz-Date" = "")); [done|].
    by rewrite Hbad.
  - intros Hamz Hdate Hbad.
    destruct (decide (Header_Get (Header r) "X-Amz-Date" = "")); [|done].
    destruct (decide (Header_Get (Header r) "Date" = "")); [done|].
    by rewrite Hbad.
Qed.

(** X5: the header flow answers [ErrNone] exactly when the date
    parses and the Signature of the Authorization header is the
    signature computed over the canonical request of the received
    request, at that date, under the stored secret key. *)
Theorem header_flow_accepts :
  result = Ret (userID, ErrNone)
  <-> exists t, date <> ""
        /\ time_Parse iso8601Format date = Some t
        /\ Signature sv = headerSignature t.
Proof.
  rewrite header_flow_tail. split.
  - case_decide as Hdate; [done|].
    destruct (time_Parse iso8601Format date) as [t|]; [|done].
    destruct (compareSignatureV4 _ _) eqn:Hcmp; [|done].
    intros _. exists t. apply compareSignatureV4_true in Hcmp. done.
  - intros (t & Hdate & Ht & Hsig).
    rewrite decide_False by done. rewrite Ht, Hsig.
    by rewrite (proj2 (compareSignatureV4_true _ _) eq_refl).
Qed.

End Header.

Section Presigned.

Variables (hashedPayload : string) (r : Request) (region : string).
Variables (psv : preSignValues) (userID : string) (cred : Credentials)
          (err : APIErrorCode) (extracted : Values).

Hypothesis Hparse : parsePreSignV4 (URL_Query r) region = (psv, ErrNone).
Hypothesis Hcred :
  getCredentials store (accessKey (Credential (presign psv)))
  = Ret (userID, cred, err).
Hypothesis Hextract :
  extractSignedHeaders (SignedHeaders (presign psv)) r = (extracted, ErrNone).

Let result (now_skew now_expiry : Z) :=
  doesPresignedSignatureMatch environ ToLower signV4TrimAll EncodePath
    range_order Values_Encode parsePreSignV4 extractSignedHeaders
    credentialHeader_getScope globalMaxSkewTime store
    now_skew now_expiry hashedPayload r region.

Let window (now_skew now_expiry : Z) :=
  presigned_time_window environ ToLower signV4TrimAll EncodePath
    range_order Values_Encode parsePreSignV4 extractSignedHeaders
    credentialHeader_getScope globalMaxSkewTime store
    now_skew now_expiry hashedPayload r region psv userID cred err
    extracted Hparse Hcred Hextract.

(** X6: the presigned flow answers [ErrNone] exactly when the signing
    time is not beyond now + skew, the age does not exceed the expiry,
    the received date, expiry, signed-header list and credential are
    the ones the server derives from the parsed request (formatted
    date, whole seconds, sorted lower-cased names, access key and
    scope of the signing date), a received content hash is the
    supplied payload hash, and the received signature is the computed
    one. *)
Theorem presigned_accepts (now_skew now_expiry : Z) :
  (forall key, key ∈ ["X-Amz-Date"; "X-Amz-Expires"; "X-Amz-SignedHeaders";
                      "X-Amz-Credential"; "X-Amz-Content-Sha256"] ->
     Strings.HasPrefix (ToLower key) "x-amz" = true) ->
  let received := Values_Get (URL_Query r) in
  result now_skew now_expiry = Ret (userID, ErrNone)
  <-> Date psv <= Time.Add now_skew globalMaxSkewTime
      /\ Time.Sub now_expiry (Date psv) <= Expires psv
      /\ received "X-Amz-Date" = Time.Format (Date psv) iso8601Format
      /\ received "X-Amz-Expires"
         = Strings.Itoa (Z.quot (Expires psv) Time.Second)
      /\ received "X-Amz-SignedHeaders"
         = getSignedHeaders ToLower range_order extracted
      /\ received "X-Amz-Credential"
         = AccessKey cred +:+ "/" +:+
           getScope environ (Date psv)
             (scope_region (scope (Credential (presign psv))))
      /\ (received "X-Amz-Content-Sha256" = ""
          \/ received "X-Amz-Content-Sha256" = hashedPayload)
      /\ received "X-Amz-Signature"
         = presignedSignature environ ToLower signV4TrimAll EncodePath
             range_order Values_Encode credentialHeader_getScope
             hashedPayload r psv cred extracted.
Proof.
  intros Hamz received. subst received.
  destruct (presignedQuery_values environ ToLower range_order
              hashedPayload r psv cred extracted Hamz)
    as (Vdate & Vexpires & Vheaders & Vcred & Vhash).
  unfold result. rewrite window. clear window result.
  rewrite Vdate, Vexpires, Vheaders, Vcred.
  unfold Time.After.
  destruct (Z.ltb_spec (Time.Add now_skew globalMaxSkewTime) (Date psv))
    as [Hskew|Hskew]; [split; [done|lia]|].
  destruct (Z.gtb_spec (Time.Sub now_expiry (Date psv)) (Expires psv))
    as [Hexp|Hexp]; [split; [done|lia]|].
  case_decide as E1; [split; [done|by intros (_ & _ & ? & _)]|].
  case_decide as E2; [split; [done|by intros (_ & _ & _ & ? & _)]|].
  case_decide as E3; [split; [done|by intros (_ & _ & _ & _ & ? & _)]|].
  case_decide as E4;
    [split; [done|by intros (_ & _ & _ & _ & _ & ? & _)]|].
  destruct (decide (Values_Get (URL_Query r) "X-Amz-Content-Sha256" = ""))
    as [Hempty|Hpresent].
  - rewrite (bool_decide_eq_false_2 (Values_Get _ _ <> ""))
      by (intros ?; done).
    cbn [andb].
    destruct (compareSignatureV4 _ _) eqn:Hcmp; cbn [negb].
    + apply compareSignatureV4_true in Hcmp. split; [|done].
      intros _. repeat split; auto.
    + split; [done|]. intros (_ & _ & _ & _ & _ & _ & _ & Hsig).
      apply compareSignatureV4_true in Hsig. congruence.
  - rewrite (bool_decide_eq_true_2 (Values_Get _ _ <> "")) by done.
    rewrite (Vhash Hpresent). cbn [andb].
    destruct (decide (Values_Get (URL_Query r) "X-Amz-Content-Sha256"
                      = hashedPayload)) as [Hsame|Hdiff].
    + rewrite bool_decide_eq_false_2 by (intros ?; done).
      destruct (compareSignatureV4 _ _) eqn:Hcmp; cbn [negb].
      * apply compareSignatureV4_true in Hcmp. split; [|done].
        intros _. repeat split; auto.
      * split; [done|]. intros (_ & _ & _ & _ & _ & _ & _ & Hsig).
        apply compareSignatureV4_true in Hsig. congruence.
    + rewrite bool_decide_eq_true_2 by done.
      split; [done|]. intros (_ & _ & _ & _ & _ & _ & [?|?] & _); done.
Qed.

(** X7: time only moves a presigned request towards rejection by age:
    once a request is answered ExpiredPresignRequest it is answered so
    at every later time, and a request that is not answered
    RequestNotReadyYet is not answered so at any later time. *)
Theorem presigned_expiry_monotone (now later : Z) :
  now <= later ->
  (result now now = Ret (userID, ErrExpiredPresignRequest) ->
   result later later = Ret (userID, ErrExpiredPresignRequest))
  /\ (result now now <> Ret (userID, ErrRequestNotReadyYet) ->
      result later later <> Ret (userID, ErrRequestNotReadyYet)).
Proof.
  intros Hlater. unfold result. rewrite !window. clear window result.
  unfold Time.After, Time.Add.
  assert (Hsub : Time.Sub now (Date psv) <= Time.Sub later (Date psv)).
  { unfold Time.Sub, Time.minDuration, Time.maxDuration.
    repeat case_match; lia. }
  destruct (Z.ltb_spec (now + globalMaxSkewTime) (Date psv)) as [Hn|Hn];
    destruct (Z.ltb_spec (later + globalMaxSkewTime) (Date psv)) as [Hl|Hl];
    try lia; split; try done.
  - destruct (Z.gtb_spec (Time.Sub now (Date psv)) (Expires psv)) as [He|He].
    + intros _.
      destruct (Z.gtb_spec (Time.Sub later (Date psv)) (Expires psv));
        [done|lia].
    + intros Hrest. exfalso. revert Hrest. repeat case_match; done.
  - intros _.
    destruct (Z.gtb_spec (Time.Sub later (Date psv)) (Expires psv)); [done|].
    repeat case_match; done.
Qed.

End Presigned.

End FlowAcceptance.

(** ** The reconstructed query *)

Section CopiedParameters.

Variable environ : gmap string string.
Variable ToLower : string -> string.
Variable range_order : Values -> list (string * list string).

Hypothesis range_order_perm :
  forall m : Values, range_order m ≡ₚ map_to_list m.

Let copy (query : Values) (kv : string * list string) : Values :=
  let '(k, v) := kv in
  if Strings.HasPrefix (ToLower k) "x-amz" then query else <[k := v]> query.

Lemma copy_loop_absent (key : string) (l : list (string * list string)) :
  key ∉ l.*1 -> forall query : Values,
  fold_left copy l query !! key = query !! key.
Proof.
  induction l as [|[k v] l IH]; intros Hnot query; [done|].
  simpl in *. apply not_elem_of_cons in Hnot as [Hne Hnot].
  rewrite IH by done. destruct (Strings.HasPrefix (ToLower k) "x-amz"); [done|].
  by rewrite lookup_insert_ne.
Qed.

Lemma copy_loop_copied (key : string) (v : list string)
    (l : list (string * list string)) :
  Strings.HasPrefix (ToLower key) "x-amz" = false ->
  NoDup l.*1 -> (key, v) ∈ l -> forall query : Values,
  fold_left copy l query !! key = Some v.
Proof.
  intros Hkey. induction l as [|[k0 v0] l IH]; intros Hnd Hin query.
  - by apply elem_of_nil in Hin.
  - simpl in *. apply NoDup_cons in Hnd as [Hfresh Hnd].
    apply elem_of_cons in Hin as [[= <- <-]|Hin].
    + rewrite copy_loop_absent by done. rewrite Hkey.
      apply lookup_insert_eq.
    + by apply IH.
Qed.

(** X10: of the received query parameters, those whose lower-cased name
    does not start with "x-amz" are carried into the reconstructed
    query with their values, and those whose name does are not: apart
    from the six the server sets itself, no such name (X-Amz-Signature,
    a security token, ...) is part of the query that is signed. *)
Theorem presignedQuery_copies (hashedPayload : string) (r : Request)
    (psv : preSignValues) (cred : Credentials) (extracted : Values)
    (key : string) :
  let query :=
    presignedQuery environ ToLower range_order hashedPayload r psv cred
      extracted in
  (Strings.HasPrefix (ToLower key) "x-amz" = false ->
   forall v, URL_Query r !! key = Some v -> query !! key = Some v)
  /\ (Strings.HasPrefix (ToLower key) "x-amz" = true ->
      key ∉ ["X-Amz-Content-Sha256"; "X-Amz-Algorithm"; "X-Amz-Date";
             "X-Amz-Expires"; "X-Amz-SignedHeaders"; "X-Amz-Credential"] ->
      query !! key = None).
Proof.
  intros query. subst query. unfold presignedQuery. split.
  - intros Hkey v Hv. fold copy. apply copy_loop_copied; [done| |].
    + rewrite range_order_perm. apply NoDup_fst_map_to_list.
    + rewrite range_order_perm. by apply elem_of_map_to_list.
  - intros Hkey Hnot. rewrite copy_loop_lookup by done.
    unfold Values_Set.
    repeat (rewrite lookup_insert_ne by (intros <-; apply Hnot; set_solver)).
    case_decide.
    + rewrite lookup_insert_ne by (intros <-; apply Hnot; set_solver).
      apply lookup_empty.
    + apply lookup_empty.
Qed.

End CopiedParameters.

(** ** The authentication backend *)

(** X11: a backend name that is neither "DummyBackend" nor "CephBackend"
    configures a nil backend, and authenticating any request then panics. *)
Theorem unknown_backend_panics
    (ReqSignatureV4Verify : Request -> string -> Outcome (string * APIErrorCode))
    (environ : gmap string string) (previous : option Config.ServerConfig)
    (name : string) (r : Request) :
  environ !! "AUTH_BACKEND" = Some name ->
  name <> "DummyBackend" -> name <> "CephBackend" ->
  Config.SetAuthBackend name = Config.nil_backend
  /\ Config.authenticate ReqSignatureV4Verify
       (Config.SetServerConfig environ previous) r
     = Panic "invalid memory address or nil pointer dereference".
Proof.
  intros Henv Hdummy Hceph.
  assert (Hnil : Config.SetAuthBackend name = Config.nil_backend).
  { unfold Config.SetAuthBackend.
    rewrite lookup_insert_ne by done.
    by rewrite lookup_singleton_ne. }
  split; [exact Hnil|].
  unfold Config.authenticate, Config.GetServerConfig, Config.SetServerConfig.
  cbn [Config.AuthBackend].
  replace (GetEnv environ "AUTH_BACKEND" "DummyBackend") with name
    by (unfold GetEnv; by rewrite Henv).
  by rewrite Hnil.
Qed.

Lemma unknown_backend_panics_witness :
  Config.authenticate (fun _ _ => Ret ("", ErrNone))
    (Config.SetServerConfig {[ "AUTH_BACKEND" := "cephbackend" ]} None)
    (Example.headerRequest "AKIDEXAMPLE" "00")
  = Panic "invalid memory address or nil pointer dereference".
Proof.
  apply (unknown_backend_panics (fun _ _ => Ret ("", ErrNone))
           {[ "AUTH_BACKEND" := "cephbackend" ]} None "cephbackend"
           (Example.headerRequest "AKIDEXAMPLE" "00")); by_evaluation.
Defined.

(** X12: with the Ceph backend every request is verified for the region
    "us-east-1", whatever region RGW_REGION configures, and the verdict of
    the verification is passed on unchanged. *)
Theorem ceph_backend_region
    (ReqSignatureV4Verify : Request -> string -> Outcome (string * APIErrorCode))
    (environ : gmap string string) (previous : option Config.ServerConfig)
    (r : Request) :
  environ !! "AUTH_BACKEND" = Some "CephBackend" ->
  (exists config,
     Config.SetServerConfig environ previous = Some config
     /\ Config.Region config = GetEnv environ "RGW_REGION" "us-east-1")
  /\ Config.authenticate ReqSignatureV4Verify
       (Config.SetServerConfig environ previous) r
     = ReqSignatureV4Verify r "us-east-1".
Proof.
  intros Henv. split.
  - eexists. split; reflexivity.
  - unfold Config.authenticate, Config.GetServerConfig, Config.SetServerConfig.
    cbn [Config.AuthBackend].
    replace (GetEnv environ "AUTH_BACKEND" "DummyBackend") with "CephBackend"
      by (unfold GetEnv; by rewrite Henv).
    assert (Hceph : Config.SetAuthBackend "CephBackend"
                    = Config.Ceph Config.mkCephBackend)
      by (vm_compute; reflexivity).
    rewrite Hceph. simpl.
    by destruct (ReqSignatureV4Verify r "us-east-1") as [reason|[userId err]].
Qed.

Lemma ceph_backend_region_witness :
  Config.authenticate (fun _ region => Ret (region, ErrNone))
    (Config.SetServerConfig
       {[ "AUTH_BACKEND" := "CephBackend"; "RGW_REGION" := "eu-west-1" ]} None)
    (Example.headerRequest "AKIDEXAMPLE" "00")
  = Ret ("us-east-1", ErrNone).
Proof.
  apply (ceph_backend_region (fun _ region => Ret (region, ErrNone))
           {[ "AUTH_BACKEND" := "CephBackend"; "RGW_REGION" := "eu-west-1" ]}
           None (Example.headerRequest "AKIDEXAMPLE" "00")).
  by_evaluation.
Defined.

(** ** NFS exports *)

Module NfsExportProperties.

Import NfsExport.

Lemma prefix_refl (s : string) : String.prefix s s = true.
Proof.
  induction s as [|c s IH]; [done|].
  simpl. by destruct (ascii_dec c c).
Qed.

Lemma drop_all (s : string) : Strings.drop (String.length s) s = "".
Proof.
  induction s as [|c s IH]; [done|].
  cbn [String.length]. by rewrite drop_cons.
Qed.

Lemma replace_n_zero fuel s old new : replace_n fuel s old new 0 = s.
Proof. by destruct fuel. Qed.

(** The first occurrence of a line appended to a text in which it does
    not occur earlier is the appended one. *)
Lemma replace_n_appended (line : string) (old : string) : forall fuel,
  line <> "" ->
  (String.length (old +:+ line) <= fuel)%nat ->
  (forall n, (n < String.length old)%nat ->
     occurs_at n (old +:+ line) line = false) ->
  replace_n fuel (old +:+ line) line "" 1 = old.
Proof.
  induction old as [|c old IH]; intros fuel Hline Hfuel Hfirst.
  - rewrite append_nil_l in *.
    destruct line as [|c line]; [done|].
    destruct fuel as [|fuel]; [simpl in Hfuel; lia|].
    cbn [replace_n Z.eqb]. rewrite prefix_refl, drop_all.
    by rewrite replace_n_zero.
  - rewrite append_cons in *.
    destruct fuel as [|fuel]; [simpl in Hfuel; lia|].
    cbn [replace_n Z.eqb].
    pose proof (Hfirst 0%nat ltac:(simpl; lia)) as H0.
    unfold occurs_at in H0. rewrite drop_0 in H0. rewrite H0.
    f_equal. apply IH; [done|simpl in Hfuel; lia|].
    intros n Hn. specialize (Hfirst (S n) ltac:(simpl; lia)).
    unfold occurs_at in *. by rewrite drop_cons in Hfirst.
Qed.

(** A text in which the target does not occur is left as it is. *)
Lemma replace_n_absent (target : string) (n : Z) (s : string) : forall fuel,
  (forall i, (i < String.length s)%nat -> occurs_at i s target = false) ->
  replace_n fuel s target "" n = s.
Proof.
  induction s as [|c s IH]; intros fuel Habsent.
  - destruct fuel; [done|]. simpl. by destruct (n =? 0).
  - destruct fuel as [|fuel]; [done|].
    cbn [replace_n]. destruct (n =? 0); [done|].
    pose proof (Habsent 0%nat ltac:(simpl; lia)) as H0.
    unfold occurs_at in H0. rewrite drop_0 in H0. rewrite H0.
    f_equal. apply IH. intros i Hi.
    specialize (Habsent (S i) ltac:(simpl; lia)).
    unfold occurs_at in *. by rewrite drop_cons in Habsent.
Qed.

Lemma prefix_app (s rest : string) : String.prefix s (s +:+ rest) = true.
Proof.
  induction s as [|c s IH]; [apply prefix_nil|].
  rewrite append_cons. simpl. by destruct (ascii_dec c c).
Qed.

Lemma drop_app (s rest : string) :
  Strings.drop (String.length s) (s +:+ rest) = rest.
Proof.
  induction s as [|c s IH]; [apply drop_0|].
  rewrite append_cons. cbn [String.length]. by rewrite drop_cons.
Qed.

(** The first occurrence of a line in a text is removed and what
    follows it is kept. *)
Lemma replace_n_first (line rest : string) (old : string) : forall fuel,
  line <> "" ->
  (String.length (old +:+ line +:+ rest) <= fuel)%nat ->
  (forall n, (n < String.length old)%nat ->
     occurs_at n (old +:+ line +:+ rest) line = false) ->
  replace_n fuel (old +:+ line +:+ rest) line "" 1 = old +:+ rest.
Proof.
  induction old as [|c old IH]; intros fuel Hline Hfuel Hfirst.
  - rewrite !append_nil_l in *.
    destruct fuel as [|fuel].
    { destruct line; [done|]. rewrite append_cons in Hfuel.
      simpl in Hfuel. lia. }
    cbn [replace_n Z.eqb]. rewrite prefix_app, drop_app.
    destruct line as [|c line]; [done|]. rewrite append_cons.
    by rewrite replace_n_zero.
  - rewrite !append_cons in *.
    destruct fuel as [|fuel]; [simpl in Hfuel; lia|].
    cbn [replace_n Z.eqb].
    pose proof (Hfirst 0%nat ltac:(simpl; lia)) as H0.
    unfold occurs_at in H0. rewrite drop_0 in H0. rewrite H0.
    f_equal. apply IH; [done|simpl in Hfuel; lia|].
    intros n Hn. specialize (Hfirst (S n) ltac:(simpl; lia)).
    unfold occurs_at in *. by rewrite drop_cons in Hfirst.
Qed.

Lemma makeExport_nonempty poolName exportObjName :
  makeExport poolName exportObjName <> "".
Proof. unfold makeExport. by rewrite append_cons. Qed.

Lemma Replace_appended (line old : string) :
  line <> "" ->
  (forall n, (n < String.length old)%nat ->
     occurs_at n (old +:+ line) line = false) ->
  Replace (old +:+ line) line "" 1 = old.
Proof.
  intros Hline Hfirst. unfold Replace.
  rewrite decide_False by (intros [?|?]; done).
  by apply replace_n_appended.
Qed.

Lemma Replace_absent (target s : string) :
  (forall i, (i < String.length s)%nat -> occurs_at i s target = false) ->
  Replace s target "" 1 = s.
Proof.
  intros Habsent. unfold Replace. case_decide; [done|].
  by apply replace_n_absent.
Qed.

Lemma wrap_int_small (x : Z) : is_int x -> wrap_int x = x.
Proof.
  unfold is_int, wrap_int. intros Hx. rewrite Z.mod_small; lia.
Qed.

Lemma wrap_int_above (x : Z) :
  2 ^ 63 <= x < 2 ^ 64 -> wrap_int x = x - 2 ^ 64.
Proof.
  unfold wrap_int. intros Hx.
  rewrite <- (Z_mod_plus_full _ (-1)). rewrite Z.mod_small; lia.
Qed.

Lemma wrap_int_below (x : Z) :
  - 2 ^ 64 <= x < - 2 ^ 63 -> wrap_int x = x + 2 ^ 64.
Proof.
  unfold wrap_int. intros Hx.
  rewrite <- (Z_mod_plus_full _ 1). rewrite Z.mod_small; lia.
Qed.

Lemma wrap_int_range (x : Z) : is_int (wrap_int x).
Proof.
  unfold is_int, wrap_int.
  pose proof (Z.mod_pos_bound (x + 2 ^ 63) (2 ^ 64)). lia.
Qed.

(** The export id of [createNfsExportObj]. *)
Lemma random_export_id (draw : Z) :
  random draw 1 65535 = Ret (draw mod 65534 + 1).
Proof.
  unfold random. change (wrap_int (65535 - 1)) with 65534.
  unfold Intn. change (65534 <=? 0) with false.
  cbv [mbind Outcome_bind]. cbv beta iota.
  pose proof (Z.mod_pos_bound draw 65534).
  rewrite wrap_int_small; [done|]. unfold is_int. lia.
Qed.

(** X13: for [int] arguments whose difference [max - min] does not
    overflow, [random(min, max)] yields a number from [min] up to, but
    not including, [max] when [min < max], and panics when
    [max <= min].  When the difference overflows it wraps around: for
    [min < max] the call panics, and for [max < min] it returns an
    [int].  The export id drawn by [random(1, 65535)] is never 0 and
    never 65535. *)
Theorem random_range (draw min max : Z) :
  is_int min -> is_int max ->
  (min < max -> max - min < 2 ^ 63 ->
   exists k, random draw min max = Ret k /\ min <= k < max)
  /\ (max <= min -> - 2 ^ 63 <= max - min ->
      random draw min max = Panic "invalid argument to Intn")
  /\ (2 ^ 63 <= max - min ->
      random draw min max = Panic "invalid argument to Intn")
  /\ (max - min < - 2 ^ 63 ->
      exists k, random draw min max = Ret k /\ is_int k)
  /\ (exists id, random draw 1 65535 = Ret id /\ 1 <= id <= 65534).
Proof.
  intros Hmin Hmax. unfold is_int in Hmin, Hmax.
  split; [|split; [|split; [|split]]].
  - intros Hlt Hfit. unfold random, Intn.
    rewrite (wrap_int_small (max - min)) by (unfold is_int; lia).
    destruct (Z.leb_spec (max - min) 0); [lia|].
    cbv [mbind Outcome_bind]. cbv beta iota.
    pose proof (Z.mod_pos_bound draw (max - min)).
    eexists. split; [reflexivity|].
    rewrite wrap_int_small by (unfold is_int; lia). lia.
  - intros Hle Hfit. unfold random, Intn.
    rewrite (wrap_int_small (max - min)) by (unfold is_int; lia).
    by destruct (Z.leb_spec (max - min) 0); [|lia].
  - intros Hover. unfold random, Intn.
    rewrite (wrap_int_above (max - min)) by lia.
    by destruct (Z.leb_spec (max - min - 2 ^ 64) 0); [|lia].
  - intros Hunder. unfold random, Intn.
    rewrite (wrap_int_below (max - min)) by lia.
    destruct (Z.leb_spec (max - min + 2 ^ 64) 0); [lia|].
    cbv [mbind Outcome_bind]. cbv beta iota.
    eexists. split; [reflexivity|apply wrap_int_range].
  - exists (draw mod 65534 + 1). split; [apply random_export_id|].
    pose proof (Z.mod_pos_bound draw 65534). lia.
Qed.

Lemma random_range_witness :
  (exists k, random 100000 1 65535 = Ret k /\ 1 <= k < 65535)
  /\ random 7 5 5 = Panic "invalid argument to Intn"
  /\ random 5 (- 2 ^ 63) 1 = Panic "invalid argument to Intn"
  /\ (exists k, random 5 (2 ^ 62) (- 2 ^ 62 - 1) = Ret k /\ is_int k).
Proof.
  split; [|split; [|split]].
  - destruct (random_range 100000 1 65535) as (Hin & _);
      [ unfold is_int; lia .. | apply Hin; lia ].
  - destruct (random_range 7 5 5) as (_ & Hempty & _);
      [ unfold is_int; lia .. | apply Hempty; lia ].
  - destruct (random_range 5 (- 2 ^ 63) 1) as (_ & _ & Hover & _);
      [ unfold is_int; lia .. | apply Hover; lia ].
  - destruct (random_range 5 (2 ^ 62) (- 2 ^ 62 - 1))
      as (_ & _ & _ & Hunder & _);
      [ unfold is_int; lia .. | apply Hunder; lia ].
Defined.

(** X14: removing an export path right after it was added gives the
    list back, when the list object exists and the line does not occur
    in it earlier than where it was appended. *)
Theorem export_list_round_trip (pool : Pool)
    (exportName poolName exportObjName old : string) :
  pool !! exportName = Some old ->
  (forall n, (n < String.length old)%nat ->
     occurs_at n (old +:+ makeExport poolName exportObjName)
       (makeExport poolName exportObjName) = false) ->
  removeExportPathToList
    (addExportPathToList pool exportName poolName exportObjName)
    exportName poolName exportObjName
  = pool.
Proof.
  intros Hold Hfirst.
  unfold removeExportPathToList, addExportPathToList, Append, WriteFull,
    read_all.
  rewrite Hold, lookup_insert_eq. cbn [default from_option id].
  rewrite Replace_appended by auto using makeExport_nonempty.
  rewrite insert_insert_eq. by apply insert_id.
Qed.

Section Handlers.

Variable environ : gmap string string.
Variable json_Unmarshal : string -> option RgwUser.
Variable Sprintf : string -> Z -> string -> string -> string -> string -> string.

Let handle := HandleNfsExport environ json_Unmarshal Sprintf.
Let listName := GetEnv environ "NFS_CONFIG_NAME" "export".
Let poolName := GetEnv environ "NFS_CONFIG_POOL" "nfs-ganesha".

(** The request concerns the user itself: none of the parameters
    subuser, key, quota, caps is present. *)
Let about_user (req : Request) : Prop :=
  URL_Query req !! "subuser" = None /\ URL_Query req !! "key" = None
  /\ URL_Query req !! "quota" = None /\ URL_Query req !! "caps" = None.

Lemma about_user_dispatch (req : Request) :
  about_user req ->
  bool_decide (is_Some (URL_Query req !! "subuser"))
  || bool_decide (is_Some (URL_Query req !! "key"))
  || bool_decide (is_Some (URL_Query req !! "quota"))
  || bool_decide (is_Some (URL_Query req !! "caps")) = false.
Proof.
  intros (H1 & H2 & H3 & H4). rewrite H1, H2, H3, H4.
  rewrite bool_decide_eq_false_2 by apply is_Some_None. reflexivity.
Qed.

(** X15: the handler leaves the pool untouched for a request that
    carries a subuser, key, quota or caps parameter (present, even
    without a value), for a method other than PUT and DELETE, and for
    a PUT whose body does not decode or names a user with more than
    one key. *)
Theorem HandleNfsExport_leaves_pool (draw : Z) (req : Request)
    (body : string) (pool : Pool) :
  (is_Some (URL_Query req !! "subuser") \/ is_Some (URL_Query req !! "key")
   \/ is_Some (URL_Query req !! "quota") \/ is_Some (URL_Query req !! "caps") ->
   handle draw req body pool = Ret pool)
  /\ (Method req <> "PUT" -> Method req <> "DELETE" ->
      handle draw req body pool = Ret pool)
  /\ (Method req = "PUT" -> json_Unmarshal body = None ->
      handle draw req body pool = Ret pool)
  /\ (Method req = "PUT" ->
      forall user, json_Unmarshal body = Some user ->
      (1 < length (Keys user))%nat ->
      handle draw req body pool = Ret pool).
Proof.
  unfold handle, HandleNfsExport. split; [|split; [|split]].
  - intros Hany.
    assert (bool_decide (is_Some (URL_Query req !! "subuser"))
            || bool_decide (is_Some (URL_Query req !! "key"))
            || bool_decide (is_Some (URL_Query req !! "quota"))
            || bool_decide (is_Some (URL_Query req !! "caps")) = true) as ->;
      [|done].
    rewrite !orb_true_iff, !bool_decide_eq_true. tauto.
  - intros Hput Hdelete. destruct (_ || _); [done|].
    rewrite decide_False by done. by rewrite decide_False.
  - intros Hput Hbody. destruct (_ || _); [done|].
    rewrite decide_True by done. unfold addNfsExport. by rewrite Hbody.
  - intros Hput user Hbody Hkeys. destruct (_ || _); [done|].
    rewrite decide_True by done. unfold addNfsExport. rewrite Hbody.
    by destruct (Nat.ltb_spec 1 (length (Keys user))); [|lia].
Qed.

(** X16: a DELETE about the user without a uid parameter panics, and
    so does a PUT whose body names a user without keys. *)
Theorem HandleNfsExport_panics (draw : Z) (req : Request)
    (body : string) (pool : Pool) :
  about_user req ->
  (Method req = "DELETE" -> URL_Query req !! "uid" = None ->
   handle draw req body pool = Panic "index out of range [0] with length 0")
  /\ (Method req = "PUT" ->
      forall user, json_Unmarshal body = Some user -> Keys user = [] ->
      handle draw req body pool = Panic "index out of range [0] with length 0").
Proof.
  intros Huser. unfold handle, HandleNfsExport.
  rewrite about_user_dispatch by done. split.
  - intros Hdelete Huid.
    rewrite decide_False by (rewrite Hdelete; done).
    rewrite decide_True by done.
    unfold Values_index. by rewrite Huid.
  - intros Hput user Hbody Hkeys.
    rewrite decide_True by done.
    unfold addNfsExport, createNfsExportObj. rewrite Hbody, Hkeys.
    reflexivity.
Qed.

(** X17: deleting a user that the list does not name rewrites the
    list with its own content (creating it, empty, when it does not
    exist) and deletes the user's export object. *)
Theorem removeNfsExport_unlisted (userId : string) (pool : Pool) :
  let data := read_all pool listName in
  let line := makeExport poolName (makeExportObjName userId) in
  (forall i, (i < String.length data)%nat -> occurs_at i data line = false) ->
  removeNfsExport environ userId pool
  = delete (makeExportObjName userId) (<[listName := data]> pool).
Proof.
  intros data line Habsent.
  unfold removeNfsExport, removeExportPathToList, removeNfsExportObj,
    Delete, WriteFull.
  fold listName poolName data line. by rewrite Replace_absent.
Qed.

(** X18: a DELETE for a user undoes the PUT that exported it: the
    pool is as it was before, provided the user has exactly one key,
    its export object did not exist and is not the list object, and
    the list exists and does not hold the user's line earlier than
    where the PUT appends it. *)
Theorem put_then_delete (draw draw' : Z) (putReq deleteReq : Request)
    (body body' : string) (pool : Pool) (user : RgwUser) (key : RgwKey)
    (old : string) (others : list string) :
  let object := makeExportObjName (UserId user) in
  let line := makeExport poolName object in
  about_user putReq -> Method putReq = "PUT" ->
  about_user deleteReq -> Method deleteReq = "DELETE" ->
  URL_Query deleteReq !! "uid" = Some (UserId user :: others) ->
  json_Unmarshal body = Some user -> Keys user = [key] ->
  pool !! object = None -> object <> listName ->
  pool !! listName = Some old ->
  (forall n, (n < String.length old)%nat ->
     occurs_at n (old +:+ line) line = false) ->
  exists exported,
    handle draw putReq body pool = Ret exported
    /\ exported !! object
       = Some (Sprintf
                 (loadExportTemplate pool
                    (GetEnv environ "NFS_EXPORT_TMPL" "export.tmpl"))
                 (draw mod 65534 + 1) (UserId user) (UserId user)
                 (AccessKey key) (SecretKey key))
    /\ exported !! listName = Some (old +:+ line)
    /\ handle draw' deleteReq body' exported = Ret pool.
Proof.
  intros object line Hput_user Hput Hdel_user Hdel Huid Hbody Hkeys
    Hfresh Hdistinct Hlist Hfirst.
  set (export := Sprintf
         (loadExportTemplate pool
            (GetEnv environ "NFS_EXPORT_TMPL" "export.tmpl"))
         (draw mod 65534 + 1) (UserId user) (UserId user)
         (AccessKey key) (SecretKey key)).
  exists (<[listName := old +:+ line]> (<[object := export]> pool)).
  split; [|split; [|split]].
  - unfold handle, HandleNfsExport.
    rewrite about_user_dispatch by done.
    rewrite decide_True by done.
    unfold addNfsExport, createNfsExportObj. rewrite Hbody, Hkeys.
    cbn [length Nat.ltb Nat.leb].
    rewrite random_export_id.
    cbv [mbind Outcome_bind]. cbv beta iota.
    fold object listName poolName export.
    unfold addExportPathToList, Append, WriteFull. fold line.
    rewrite lookup_insert_ne by done. rewrite Hlist.
    reflexivity.
  - by rewrite lookup_insert_ne, lookup_insert_eq by done.
  - by rewrite lookup_insert_eq.
  - unfold handle, HandleNfsExport.
    rewrite about_user_dispatch by done.
    rewrite decide_False by (rewrite Hdel; done).
    rewrite decide_True by done.
    unfold Values_index. rewrite Huid. cbn [default from_option id].
    f_equal.
    unfold removeNfsExport, removeExportPathToList, removeNfsExportObj,
      Delete, WriteFull, read_all.
    fold object listName poolName line.
    rewrite lookup_insert_eq. cbn [default from_option id].
    rewrite Replace_appended by auto using makeExport_nonempty.
    rewrite insert_insert_eq.
    rewrite delete_insert_ne by done.
    rewrite delete_insert_eq, delete_id by done.
    by apply insert_id.
Qed.

(** X19: exporting is not idempotent.  A second PUT for the same
    one-key user appends the user's line again, and one DELETE then
    deletes the export object but takes out only the first of the two
    lines: the list is left naming an object that does not exist. *)
Theorem put_twice_then_delete (draw1 draw2 draw3 : Z)
    (putReq deleteReq : Request) (body body' : string) (pool : Pool)
    (user : RgwUser) (key : RgwKey) (old : string) (others : list string) :
  let object := makeExportObjName (UserId user) in
  let line := makeExport poolName object in
  about_user putReq -> Method putReq = "PUT" ->
  about_user deleteReq -> Method deleteReq = "DELETE" ->
  URL_Query deleteReq !! "uid" = Some (UserId user :: others) ->
  json_Unmarshal body = Some user -> Keys user = [key] ->
  object <> listName ->
  pool !! listName = Some old ->
  (forall n, (n < String.length old)%nat ->
     occurs_at n (old +:+ line +:+ line) line = false) ->
  exists once twice final,
    handle draw1 putReq body pool = Ret once
    /\ handle draw2 putReq body once = Ret twice
    /\ twice !! listName = Some (old +:+ line +:+ line)
    /\ handle draw3 deleteReq body' twice = Ret final
    /\ final !! listName = Some (old +:+ line)
    /\ final !! object = None.
Proof.
  intros object line Hput_user Hput Hdel_user Hdel Huid Hbody Hkeys
    Hdistinct Hlist Hfirst.
  assert (Hadd : forall draw (p : Pool) (text : string),
            p !! listName = Some text ->
            exists export,
              handle draw putReq body p
              = Ret (<[listName := text +:+ line]> (<[object := export]> p))).
  { intros draw p text Htext. eexists.
    unfold handle, HandleNfsExport.
    rewrite about_user_dispatch by done.
    rewrite decide_True by done.
    unfold addNfsExport, createNfsExportObj. rewrite Hbody, Hkeys.
    cbn [length Nat.ltb Nat.leb].
    rewrite random_export_id.
    cbv [mbind Outcome_bind]. cbv beta iota.
    fold object listName poolName.
    unfold addExportPathToList, Append, WriteFull. fold line.
    rewrite lookup_insert_ne by done. rewrite Htext.
    reflexivity. }
  destruct (Hadd draw1 pool old Hlist) as [export1 Hones].
  set (once := <[listName := old +:+ line]> (<[object := export1]> pool))
    in *.
  destruct (Hadd draw2 once (old +:+ line)) as [export2 Htwice].
  { unfold once. apply lookup_insert_eq. }
  set (twice := <[listName := (old +:+ line) +:+ line]>
                  (<[object := export2]> once)) in *.
  exists once, twice,
    (delete object (<[listName := old +:+ line]> twice)).
  split; [exact Hones|]. split; [exact Htwice|].
  split; [unfold twice; by rewrite lookup_insert_eq, append_assoc|].
  split; [|split].
  - unfold handle, HandleNfsExport.
    rewrite about_user_dispatch by done.
    rewrite decide_False by (rewrite Hdel; done).
    rewrite decide_True by done.
    unfold Values_index. rewrite Huid. cbn [default from_option id].
    f_equal.
    unfold removeNfsExport, removeExportPathToList, removeNfsExportObj,
      Delete, WriteFull, read_all.
    fold object listName poolName line.
    replace (twice !! listName) with (Some (old +:+ line +:+ line))
      by (unfold twice; by rewrite lookup_insert_eq, append_assoc).
    cbn [default from_option id].
    unfold Replace. rewrite decide_False
      by (intros [?|?]; [by eapply makeExport_nonempty|done]).
    rewrite replace_n_first by auto using makeExport_nonempty.
    reflexivity.
  - rewrite lookup_delete_ne by done. apply lookup_insert_eq.
  - apply lookup_delete_eq.
Qed.

End Handlers.

End NfsExportProperties.

(** ** Worked examples of the further properties *)

Section FlowWitnesses.

Import Reference Example ExampleParsed.

Lemma header_flow_date_errors_witness :
  verifyHeader ∅ store emptyPayloadHash (NfsExample.hostOnlyRequest ∅)
    = Ret ("tester", ErrMissingDateHeader)
  /\ verifyHeader ∅ store emptyPayloadHash
       (NfsExample.hostOnlyRequest {[ "X-Amz-Date" := ["yesterday"] ]})
     = Ret ("tester", ErrMalformedDate)
  /\ verifyHeader ∅ store emptyPayloadHash
       (NfsExample.hostOnlyRequest
          {[ "Date" := ["Sun, 30 Aug 2015 12:36:00 GMT"] ]})
     = Ret ("tester", ErrMalformedDate).
Proof.
  pose (errors := fun headers : Values =>
    let r := NfsExample.hostOnlyRequest headers in
    header_flow_date_errors ∅ ToLower signV4TrimAll EncodePath range_order
      Values_Encode time_Parse parseSignV4 extractSignedHeaders
      credentialHeader_getScope store emptyPayloadHash r "us-east-1"
      (parseSignV4 (Header_Get (Header r) "Authorization") "us-east-1").1
      (extractedOf ["host"] r) "tester" (GetCredential config) ErrNone).
  unfold verifyHeader. split; [|split].
  - destruct (errors ∅) as (Hmissing & _ & _);
      [ by_evaluation .. | apply Hmissing; by_evaluation ].
  - destruct (errors {[ "X-Amz-Date" := ["yesterday"] ]}) as (_ & Hbad & _);
      [ by_evaluation .. | apply Hbad; by_evaluation ].
  - destruct (errors {[ "Date" := ["Sun, 30 Aug 2015 12:36:00 GMT"] ]})
      as (_ & _ & Hbad);
      [ by_evaluation .. | apply Hbad; by_evaluation ].
Defined.

Lemma header_flow_accepts_witness :
  verifyHeader ∅ store emptyPayloadHash
    (headerRequest "AKIDEXAMPLE" headerSignatureHex)
  = Ret ("tester", ErrNone).
Proof.
  unfold verifyHeader.
  apply (proj2
    (header_flow_accepts ∅ ToLower signV4TrimAll EncodePath range_order
       Values_Encode time_Parse parseSignV4 extractSignedHeaders
       credentialHeader_getScope store emptyPayloadHash
       (headerRequest "AKIDEXAMPLE" headerSignatureHex) "us-east-1"
       (parseSignV4
          (Header_Get (Header (headerRequest "AKIDEXAMPLE" headerSignatureHex))
             "Authorization") "us-east-1").1
       (extractedOf ["host"; "x-amz-date"]
          (headerRequest "AKIDEXAMPLE" headerSignatureHex))
       "tester" (GetCredential config) ErrNone
       ltac:(by_evaluation) ltac:(by_evaluation) ltac:(by_evaluation))).
  exists signingTime. by_evaluation.
Defined.

Let query := presignedQueryOf presignedSignatureHex.

Lemma presigned_accepts_witness :
  verifyPresigned ∅ store (signingTime + 60 * Time.Second) emptyPayloadHash
    (presignedRequest query)
  = Ret ("tester", ErrNone).
Proof.
  unfold verifyPresigned.
  apply (proj2
    (presigned_accepts ∅ ToLower signV4TrimAll EncodePath range_order
       Values_Encode parsePreSignV4 extractSignedHeaders
       credentialHeader_getScope maxSkew store emptyPayloadHash
       (presignedRequest query) "us-east-1" (parsedOf query) "tester"
       (GetCredential config) ErrNone
       (extractedOf ["host"] (presignedRequest query))
       ltac:(by_evaluation) ltac:(by_evaluation) ltac:(by_evaluation)
       (signingTime + 60 * Time.Second) (signingTime + 60 * Time.Second)
       Reference_ToLower_amz)).
  split; [by_evaluation|]. split; [by_evaluation|].
  split; [by_evaluation|]. split; [by_evaluation|].
  split; [by_evaluation|]. split; [by_evaluation|].
  split; [left; by_evaluation|by_evaluation].
Defined.

Lemma presigned_expiry_monotone_witness :
  verifyPresigned ∅ store (signingTime + 86400 * Time.Second) emptyPayloadHash
    (presignedRequest query)
  = Ret ("tester", ErrExpiredPresignRequest).
Proof.
  unfold verifyPresigned.
  apply (presigned_expiry_monotone ∅ ToLower signV4TrimAll EncodePath
           range_order Values_Encode parsePreSignV4 extractSignedHeaders
           credentialHeader_getScope maxSkew store emptyPayloadHash
           (presignedRequest query) "us-east-1" (parsedOf query) "tester"
           (GetCredential config) ErrNone
           (extractedOf ["host"] (presignedRequest query))
           ltac:(by_evaluation) ltac:(by_evaluation) ltac:(by_evaluation)
           (signingTime + 901 * Time.Second)
           (signingTime + 86400 * Time.Second)); by_evaluation.
Defined.

Lemma presignedQuery_copies_witness :
  let received : Values :=
    <["prefix" := ["photos/"]]>
      (<["X-Amz-Security-Token" := ["token"]]> query) in
  let rebuilt :=
    presignedQuery ∅ ToLower range_order emptyPayloadHash
      (presignedRequest received) (parsedOf received) (GetCredential config)
      (extractedOf ["host"] (presignedRequest received)) in
  rebuilt !! "prefix" = Some ["photos/"]
  /\ rebuilt !! "X-Amz-Security-Token" = None
  /\ rebuilt !! "X-Amz-Signature" = None.
Proof.
  intros received rebuilt.
  pose (copies := presignedQuery_copies ∅ ToLower range_order
          Reference_range_order_perm emptyPayloadHash
          (presignedRequest received) (parsedOf received)
          (GetCredential config)
          (extractedOf ["host"] (presignedRequest received))).
  split; [|split].
  - destruct (copies "prefix") as [Hcopied _]. apply Hcopied; by_evaluation.
  - destruct (copies "X-Amz-Security-Token") as [_ Hdropped].
    apply Hdropped; [by_evaluation|].
    apply (bool_decide_unpack _). vm_compute. exact I.
  - destruct (copies "X-Amz-Signature") as [_ Hdropped].
    apply Hdropped; [by_evaluation|].
    apply (bool_decide_unpack _). vm_compute. exact I.
Defined.

End FlowWitnesses.

Module NfsExportWitnesses.

Import NfsExport NfsExportProperties NfsExample.

Lemma absent_before_spec (k : nat) (s target : string) :
  absent_before k s target = true ->
  forall n, (n < k)%nat -> occurs_at n s target = false.
Proof.
  unfold absent_before. rewrite forallb_forall. intros Hall n Hn.
  apply negb_true_iff, Hall, in_seq. lia.
Qed.

Lemma export_list_round_trip_witness :
  removeExportPathToList
    (addExportPathToList pool "export" "nfs-ganesha" "export_tester")
    "export" "nfs-ganesha" "export_tester"
  = pool.
Proof.
  apply (export_list_round_trip pool "export" "nfs-ganesha" "export_tester"
           aliceLine).
  - vm_compute. reflexivity.
  - apply absent_before_spec. vm_compute. reflexivity.
Defined.

Lemma HandleNfsExport_leaves_pool_witness :
  handle (request "PUT" {[ "key" := [] ]}) "tester.json" pool = Ret pool
  /\ handle (request "POST" ∅) "tester.json" pool = Ret pool
  /\ handle (request "PUT" ∅) "not json" pool = Ret pool.
Proof.
  unfold handle. split; [|split].
  - destruct (HandleNfsExport_leaves_pool ∅ json_Unmarshal Sprintf 7
                (request "PUT" {[ "key" := [] ]}) "tester.json" pool)
      as (Hparameter & _).
    apply Hparameter. right. left. vm_compute. eexists. reflexivity.
  - destruct (HandleNfsExport_leaves_pool ∅ json_Unmarshal Sprintf 7
                (request "POST" ∅) "tester.json" pool)
      as (_ & Hmethod & _).
    apply Hmethod; by_evaluation.
  - destruct (HandleNfsExport_leaves_pool ∅ json_Unmarshal Sprintf 7
                (request "PUT" ∅) "not json" pool)
      as (_ & _ & Hbody & _).
    apply Hbody; by_evaluation.
Defined.

Lemma HandleNfsExport_panics_witness :
  handle (request "DELETE" ∅) "" pool
    = Panic "index out of range [0] with length 0"
  /\ handle (request "PUT" ∅) "nokeys.json" pool
     = Panic "index out of range [0] with length 0".
Proof.
  unfold handle. split.
  - destruct (HandleNfsExport_panics ∅ json_Unmarshal Sprintf 7
                (request "DELETE" ∅) "" pool ltac:(by_evaluation))
      as [Hdelete _].
    apply Hdelete; by_evaluation.
  - destruct (HandleNfsExport_panics ∅ json_Unmarshal Sprintf 7
                (request "PUT" ∅) "nokeys.json" pool ltac:(by_evaluation))
      as [_ Hput].
    apply (Hput ltac:(by_evaluation)
             {| UserId := "nokeys"; Keys := [] |}); by_evaluation.
Defined.

Lemma removeNfsExport_unlisted_witness :
  removeNfsExport ∅ "bob" pool
  = delete "export_bob" (<["export" := aliceLine]> pool).
Proof.
  rewrite (removeNfsExport_unlisted ∅ "bob" pool).
  - vm_compute. reflexivity.
  - apply absent_before_spec. vm_compute. reflexivity.
Defined.

Lemma put_then_delete_witness :
  exists exported,
    handle (request "PUT" ∅) "tester.json" pool = Ret exported
    /\ exported !! "export" = Some (aliceLine +:+ testerLine)
    /\ handle (request "DELETE" {[ "uid" := ["tester"] ]}) "" exported
       = Ret pool.
Proof.
  destruct (put_then_delete ∅ json_Unmarshal Sprintf 7 7
              (request "PUT" ∅) (request "DELETE" {[ "uid" := ["tester"] ]})
              "tester.json" "" pool tester
              {| AccessKey := "AKIDEXAMPLE"; SecretKey := "secret" |}
              aliceLine [])
    as (exported & Hput & _ & Hlist & Hdelete);
    [ first [ apply absent_before_spec; vm_compute; reflexivity
            | by_evaluation ] ..
    | exists exported; auto ].
Defined.

Lemma put_twice_then_delete_witness :
  exists once twice final,
    handle (request "PUT" ∅) "tester.json" pool = Ret once
    /\ handle (request "PUT" ∅) "tester.json" once = Ret twice
    /\ handle (request "DELETE" {[ "uid" := ["tester"] ]}) "" twice = Ret final
    /\ final !! "export" = Some (aliceLine +:+ testerLine)
    /\ final !! "export_tester" = None.
Proof.
  destruct (put_twice_then_delete ∅ json_Unmarshal Sprintf 7 7 7
              (request "PUT" ∅) (request "DELETE" {[ "uid" := ["tester"] ]})
              "tester.json" "" pool tester
              {| AccessKey := "AKIDEXAMPLE"; SecretKey := "secret" |}
              aliceLine [])
    as (once & twice & final & H1 & H2 & _ & H3 & H4 & H5);
    [ first [ apply absent_before_spec; vm_compute; reflexivity
            | by_evaluation ] ..
    | exists once, twice, final; auto ].
Defined.

End NfsExportWitnesses.
